(** * docker-health-exporter: a shallow embedding of [exporter.py]

    The exporter polls the Docker daemon, derives a handful of facts per
    container and publishes them as labelled Prometheus gauges.  This file
    embeds the pure parts of [exporter.py] as Rocq functions, the gauges and
    the [_last_*] sets as an explicit registry state, and the reconnect loop
    of [main] as a step function; the theorems at the end relate that
    embedding to the properties stated for the program.

    Conventions.
    - Python [str] is [string], one [ascii] per character: the texts
      modelled are those whose characters lie below U+0100.  [lower] maps
      the letters A-Z; the other capitals of that range lower to letters
      outside ASCII, which no comparison made by the program can tell from
      the capitals themselves.
    - A Python [float] is the rational its double denotes ([Q]).  The two
      places where the program makes a double out of an exact number,
      [float(n)] on an integer and [timestamp()], round to the nearest
      double, ties to even ([PyFloat]).  The constants of the program
      (0, 0.5, 1, 2, 30) and the backoff values are exact; NaN and the
      infinities are not modelled.
    - A Python [dict] read from the Docker API is an association list whose
      first binding of a key is the one [get] returns.
    - Exceptions are the [Raise] branch of [result].  An exception carries
      the text that [str(e)] prints and whether its class derives from
      [docker.errors.DockerException], the one distinction [main] makes. *)

From Stdlib Require Import QArith Qminmax Ascii.
From stdpp Require Import gmap strings list pretty.

Local Open Scope Z_scope.

(** ** Python strings *)

Module PyStr.

Definition is_upper (c : ascii) : bool :=
  let n := Ascii.N_of_ascii c in ((65 <=? n) && (n <=? 90))%N.

Definition lower_ascii (c : ascii) : ascii :=
  if is_upper c then Ascii.ascii_of_N (Ascii.N_of_ascii c + 32) else c.

(** [s.lower()] *)
Fixpoint lower (s : string) : string :=
  match s with
  | EmptyString => EmptyString
  | String c s' => String (lower_ascii c) (lower s')
  end.

(** [s.startswith(p)] *)
Definition startswith (s p : string) : bool := String.prefix p s.

(** [bool(s)]: a string is truthy when it is not empty. *)
Definition truthy (s : string) : bool :=
  match s with EmptyString => false | _ => true end.

(** [s.rstrip(ch)] for a one-character strip set. *)
Fixpoint rstrip (ch : ascii) (s : string) : string :=
  match s with
  | EmptyString => EmptyString
  | String c s' =>
      match rstrip ch s' with
      | EmptyString => if Ascii.eqb c ch then EmptyString else String c EmptyString
      | r => String c r
      end
  end.

(** [s.split(ch, 1)] when [ch in s]: the text before the first [ch] and
    the text after it; [None] when [ch] does not occur. *)
Fixpoint split_once (ch : ascii) (s : string) : option (string * string) :=
  match s with
  | EmptyString => None
  | String c s' =>
      if Ascii.eqb c ch then Some (EmptyString, s')
      else match split_once ch s' with
           | Some (h, t) => Some (String c h, t)
           | None => None
           end
  end.

(** [s[:n]] *)
Fixpoint take (n : nat) (s : string) : string :=
  match n, s with
  | S n', String c s' => String c (take n' s')
  | _, _ => EmptyString
  end.

(** [s[n:]] *)
Fixpoint drop (n : nat) (s : string) : string :=
  match n, s with
  | S n', String _ s' => drop n' s'
  | _, _ => s
  end.

(** [ch in s] *)
Fixpoint contains (ch : ascii) (s : string) : bool :=
  match s with
  | EmptyString => false
  | String c s' => Ascii.eqb c ch || contains ch s'
  end.

(** [s.endswith(ch)] *)
Fixpoint ends_with (ch : ascii) (s : string) : bool :=
  match s with
  | EmptyString => false
  | String c EmptyString => Ascii.eqb c ch
  | String _ s' => ends_with ch s'
  end.

(** [ch * k] *)
Fixpoint replicate (k : nat) (ch : ascii) : string :=
  match k with
  | O => EmptyString
  | S k' => String ch (replicate k' ch)
  end.

End PyStr.

(** ** Doubles *)

Module PyFloat.

(** The integer nearest to [a / b], ties to the even one ([0 <= a],
    [0 < b]). *)
Definition round_half_even (a b : Z) : Z :=
  let q := a / b in
  let r := a mod b in
  if (b <? 2 * r) || ((2 * r =? b) && Z.odd q) then q + 1 else q.

(** The double nearest to the integer [n], for [n] within the finite
    range: exact up to 53 bits, rounded to 53 bits beyond. *)
Definition of_int (n : Z) : Z :=
  if Z.abs n <? 2 ^ 53 then n
  else
    let e := Z.log2 (Z.abs n) - 52 in
    Z.sgn n * (round_half_even (Z.abs n) (2 ^ e) * 2 ^ e).

(** The double nearest to [a / b] for [0 < b], within the normal range:
    what the true division of two integers returns.  [e] is the exponent
    that puts the quotient between [2^52] and [2^53]. *)
Definition of_ratio (a b : Z) : Q :=
  if a =? 0 then 0%Q
  else
    let m := Z.abs a in
    let e0 := Z.log2 m - Z.log2 b - 52 in
    let reaches := if 0 <=? 52 + e0 then b * 2 ^ (52 + e0) <=? m
                   else b <=? m * 2 ^ (- (52 + e0)) in
    let e := if reaches then e0 else e0 - 1 in
    if 0 <=? e
    then inject_Z (Z.sgn a * (round_half_even m (b * 2 ^ e) * 2 ^ e))
    else Qred (Qmake (Z.sgn a * round_half_even (m * 2 ^ (- e)) b)
                     (Z.to_pos (2 ^ (- e)))).

End PyFloat.

(** ** Values read from the Docker API *)

(** What [json.loads] yields: the value space of [c.attrs].  Floats are
    the finite ones. *)
#[warnings="-register-all"]
Inductive json : Type :=
  | JNull
  | JBool (b : bool)
  | JInt (n : Z)
  | JFloat (q : Q)
  | JStr (s : string)
  | JList (l : list json)
  | JDict (d : list (string * json)).

(** Python truthiness, as used by [or], [if] and [not]. *)
Definition truthy (v : json) : bool :=
  match v with
  | JNull => false
  | JBool b => b
  | JInt n => negb (n =? 0)
  | JFloat q => negb (Qnum q =? 0)
  | JStr s => PyStr.truthy s
  | JList l => match l with [] => false | _ => true end
  | JDict d => match d with [] => false | _ => true end
  end.

(** [a or b] *)
Definition py_or (a b : json) : json := if truthy a then a else b.

(** [type(v).__name__] *)
Definition type_name (v : json) : string :=
  match v with
  | JNull => "NoneType"
  | JBool _ => "bool"
  | JInt _ => "int"
  | JFloat _ => "float"
  | JStr _ => "str"
  | JList _ => "list"
  | JDict _ => "dict"
  end.

(** [d.get(k)] on the bindings of a dict: [None] (that is [JNull]) when the
    key is missing. *)
Fixpoint dict_get (d : list (string * json)) (k : string) : json :=
  match d with
  | [] => JNull
  | (k', v) :: d' => if String.eqb k' k then v else dict_get d' k
  end.

(** ** Exceptions *)

Inductive exn : Type :=
  | DockerException (msg : string)
  | PyException (msg : string).

(** [str(e)] *)
Definition str_exn (e : exn) : string :=
  match e with DockerException m | PyException m => m end.

Inductive result (A : Type) : Type :=
  | Ok (a : A)
  | Raise (e : exn).
Arguments Ok {A} a.
Arguments Raise {A} e.

Definition bind {A B} (r : result A) (k : A → result B) : result B :=
  match r with
  | Ok a => k a
  | Raise e => Raise e
  end.

Notation "x ←! r ; k" := (bind r (λ x, k))
  (at level 20, r at level 100, k at level 200, right associativity,
   format "x  ←!  r ;  '/' k").

(** The [AttributeError] raised by [v.attr] when [v] has no such attribute. *)
Definition no_attribute (v : json) (attr : string) : exn :=
  PyException
    ("'" +:+ type_name v +:+ "' object has no attribute '" +:+ attr +:+ "'").

(** [v.get(k)]: only dicts have [get]. *)
Definition py_get (v : json) (k : string) : result json :=
  match v with
  | JDict d => Ok (dict_get d k)
  | _ => Raise (no_attribute v "get")
  end.

(** [v.lower()]: only strings have [lower]. *)
Definition py_lower (v : json) : result string :=
  match v with
  | JStr s => Ok (PyStr.lower s)
  | _ => Raise (no_attribute v "lower")
  end.

(** [float(n)] raises [OverflowError] when the integer, rounded to the
    nearest double, falls outside the finite range. *)
Definition float_overflows (n : Z) : bool := 2 ^ 1024 - 2 ^ 970 <=? Z.abs n.

(** ** The [datetime] objects the program touches *)

(** [tzinfo] is [Some off] for an aware datetime, [off] being its
    [utcoffset()] in microseconds (the resolution of [timedelta]), and
    [None] for a naive one. *)
Record datetime : Type := mk_datetime {
  year : Z; month : Z; day : Z;
  hour : Z; minute : Z; second : Z; microsecond : Z;
  tzinfo : option Z
}.

Module DateTime.

Definition is_leap (y : Z) : bool :=
  (y mod 4 =? 0) && (negb (y mod 100 =? 0) || (y mod 400 =? 0)).

Definition days_before_year (y : Z) : Z :=
  let p := y - 1 in p * 365 + p / 4 - p / 100 + p / 400.

Definition days_in_month (y m : Z) : Z :=
  if m =? 2 then (if is_leap y then 29 else 28)
  else if (m =? 4) || (m =? 6) || (m =? 9) || (m =? 11) then 30
  else 31.

Definition days_before_month (y m : Z) : Z :=
  foldr (λ k acc, days_in_month y k + acc) 0
        (seqZ 1 (m - 1)).

(** [date.toordinal()]: 1 for 0001-01-01. *)
Definition toordinal (dt : datetime) : Z :=
  days_before_year (year dt) + days_before_month (year dt) (month dt) + day dt.

(** Ordinal of 1970-01-01. *)
Definition epoch_ordinal : Z := 719163.

(** Microseconds from 1970-01-01T00:00:00 to the wall-clock reading of
    [dt], the zone left aside. *)
Definition wall_micros (dt : datetime) : Z :=
  (((toordinal dt - epoch_ordinal) * 86400
    + hour dt * 3600 + minute dt * 60 + second dt) * 1000000)
  + microsecond dt.

(** [timezone.utc] *)
Definition utc : Z := 0.

(** [dt.replace(tzinfo=tz)]: the wall-clock fields are kept. *)
Definition replace_tzinfo (dt : datetime) (tz : Z) : datetime :=
  {| year := year dt; month := month dt; day := day dt;
     hour := hour dt; minute := minute dt; second := second dt;
     microsecond := microsecond dt; tzinfo := Some tz |}.

(** The instant of an aware datetime, in microseconds since the epoch:
    its wall-clock reading less its offset. *)
Definition epoch_micros (dt : datetime) : option Z :=
  match tzinfo dt with
  | Some off => Some (wall_micros dt - off)
  | None => None
  end.

(** [dt.timestamp()] of an aware datetime: [(dt - EPOCH).total_seconds()],
    the subtraction being between instants and [total_seconds] the true
    division of the microseconds by [10**6].  A naive datetime would be
    read in the local zone of the host; the program never asks for that,
    and the model answers [None]. *)
Definition timestamp (dt : datetime) : option Q :=
  match epoch_micros dt with
  | Some us => Some (PyFloat.of_ratio us 1000000)
  | None => None
  end.

End DateTime.

(** ** Library functions the program calls *)

(** The two parsers of the Python library that the program relies on and
    that are not part of it: [float(s)] on a string and
    [datetime.fromisoformat(s)].  [None] stands for [ValueError].  The
    program is embedded over any such pair; [ReferenceLib] at the end of
    the definitions gives one. *)
Class PyLib : Type := {
  float_of_str : string → option Q;
  fromisoformat : string → option datetime
}.

Section Exporter.
Context `{PyLib}.

(** [float(v)]: booleans convert exactly, an integer to the nearest
    double, an integer beyond the double range raises [OverflowError], a
    string goes through the library parser, and [None], lists and dicts
    raise [TypeError]. *)
Definition py_float (v : json) : result Q :=
  match v with
  | JBool b => Ok (if b then 1%Q else 0%Q)
  | JInt n =>
      if float_overflows n then Raise (PyException "int too large to convert to float")
      else Ok (inject_Z (PyFloat.of_int n))
  | JFloat q => Ok q
  | JStr s =>
      match float_of_str s with
      | Some q => Ok q
      | None => Raise (PyException "could not convert string to float")
      end
  | JNull | JList _ | JDict _ =>
      Raise (PyException
               ("float() argument must be a string or a real number, not '"
                +:+ type_name v +:+ "'"))
  end.

(** Whether [v] is a number for [float]: the numeric types, booleans
    among them as in Python, and the strings the parser accepts. *)
Definition is_numeric (v : json) : bool :=
  match v with
  | JBool _ | JInt _ | JFloat _ => true
  | JStr s => match float_of_str s with Some _ => true | None => false end
  | JNull | JList _ | JDict _ => false
  end.

(** ** [status_to_num] *)

Definition table : gmap string Q :=
  <["healthy" := 1%Q]> (<["starting" := (1 # 2)%Q]> (<["unhealthy" := 0%Q]> ∅)).

Definition status_to_num (status : string) (has_check : bool) : Q :=
  if negb has_check then 1%Q
  else default 0%Q (table !! status).

(** ** [parse_started_at] *)

(** Lines 138-142: strip the trailing [Z]s, then keep at most six
    characters after the first dot. *)
Definition iso_text (started_at_str : string) : string :=
  let s := PyStr.rstrip "Z" started_at_str in
  if PyStr.contains "." s then
    match PyStr.split_once "." s with
    | Some (head, frac) => head +:+ "." +:+ PyStr.take 6 frac
    | None => s
    end
  else s.

(** The argument is whatever [st.get("StartedAt") or ""] evaluated to.  A
    falsy value returns [None] at once; a truthy value that is not a
    string has no [rstrip], and the [AttributeError] is caught by the
    [except Exception] of the function. *)
Definition parse_started_at (started_at_str : json) : option Q :=
  match started_at_str with
  | JStr s =>
      if negb (PyStr.truthy s) then None
      else match fromisoformat (iso_text s) with
           | Some dt => DateTime.timestamp (DateTime.replace_tzinfo dt DateTime.utc)
           | None => None
           end
  | _ => None
  end.

(** ** Containers as the Docker SDK presents them *)

Record Image : Type := { tags : list string; image_short_id : string }.

(** One element of [client.containers.list(all=True)].  [reload] is
    [Some e] when [c.reload()] raises [e]; [image] is the outcome of the
    [c.image] property (an API call that may raise, or find no image);
    [name] is [None] when reading [c.name] raises [AttributeError];
    [attrs] are the bindings of [c.attrs] once reloaded. *)
Record Container : Type := {
  reload : option exn;
  image : result (option Image);
  short_id : string;
  name : option string;
  attrs : list (string * json)
}.

(** What one container contributes to the five gauges. *)
Record Facts : Type := {
  f_name : string; f_img : string; f_cid : string;
  f_num : Q; f_status : string;
  f_running : Q; f_restart_count : Q; f_started_at : Q
}.

(** Line 159. *)
Definition image_label (i : option Image) : string :=
  let v := match i with
           | Some im =>
               match tags im with
               | t :: _ => t
               | [] => image_short_id im
               end
           | None => "unknown"
           end in
  if PyStr.truthy v then v else "unknown".

(** Lines 171-174: [float(rc or 0)], 0.0 when the conversion raises. *)
Definition restart_value (rc : json) : Q :=
  match py_float (py_or rc (JInt 0)) with
  | Ok q => q
  | Raise _ => 0%Q
  end.

(** Lines 167-174. *)
Definition restart_count_of (attrs : list (string * json)) (st : json) : result Q :=
  let rc := dict_get attrs "RestartCount" in
  rc ←! match rc with
        | JNull => py_get st "RestartCount"
        | _ => Ok rc
        end;
  Ok (restart_value rc).

(** Line 163: [c.attrs.get("State", {}) or {}]. *)
Definition state_of (c : Container) : json :=
  py_or (dict_get (attrs c) "State") (JDict []).

(** Lines 176-180. *)
Definition started_at_of (st : json) : result Q :=
  v ←! py_get st "StartedAt";
  Ok (default 0%Q (parse_started_at (py_or v (JStr "")))).

Definition known_statuses : list string := ["healthy"; "starting"; "unhealthy"].

(** Lines 183-190: the pair [(status, num)]. *)
Definition health_of (health : json) : result (string * Q) :=
  if truthy health then
    hs ←! py_get health "Status";
    status ←! py_lower (py_or hs (JStr "unknown"));
    let num := status_to_num status true in
    Ok (if bool_decide (status ∈ known_statuses) then status else "none", num)
  else
    let status := "none" in
    Ok (status, status_to_num status false).

(** Lines 158-190, the part of the [try] block that can raise. *)
Definition extract (c : Container) : result Facts :=
  _ ←! match reload c with Some e => Raise e | None => Ok () end;
  im ←! image c;
  let img := image_label im in
  let cid := short_id c in
  name ←! match name c with
          | Some n => Ok n
          | None => Raise (PyException "'Container' object has no attribute 'name'")
          end;
  let st := state_of c in
  health ←! py_get st "Health";
  rn ←! py_get st "Running";
  let running := if truthy rn then 1%Q else 0%Q in
  restart_count ←! restart_count_of (attrs c) st;
  started_at ←! started_at_of st;
  sn ←! health_of health;
  Ok {| f_name := name; f_img := img; f_cid := cid;
        f_num := sn.2; f_status := sn.1;
        f_running := running; f_restart_count := restart_count;
        f_started_at := started_at |}.

End Exporter.

(** ** The series registry: five gauges and the five [_last_*] sets *)

(** Label tuples: [(container, image, id, hostname)], and the same with the
    status category appended for the one-hot gauge. *)
Abbreviation labels4 := (string * string * string * string)%type.
Abbreviation labels5 := (string * string * string * string * string)%type.

(** A [Gauge] with label names is the finite map from the label tuples it
    has children for to their values: [labels(..).set(v)] inserts,
    [remove(..)] deletes. *)
Record Registry : Type := {
  g_health : gmap labels4 Q;
  g_status : gmap labels5 Q;
  g_running : gmap labels4 Q;
  g_restart : gmap labels4 Q;
  g_started_at : gmap labels4 Q;
  _last_h : gset labels4;
  _last_s : gset labels5;
  _last_rn : gset labels4;
  _last_rc : gset labels4;
  _last_sa : gset labels4
}.

(** The module state right after import. *)
Definition initial_registry : Registry :=
  {| g_health := ∅; g_status := ∅; g_running := ∅; g_restart := ∅;
     g_started_at := ∅;
     _last_h := ∅; _last_s := ∅; _last_rn := ∅; _last_rc := ∅; _last_sa := ∅ |}.

(** The locals [now_h, now_s, now_rn, now_rc, now_sa] of [scrape_once]. *)
Record Now : Type := {
  now_h : gset labels4;
  now_s : gset labels5;
  now_rn : gset labels4;
  now_rc : gset labels4;
  now_sa : gset labels4
}.

Definition empty_now : Now :=
  {| now_h := ∅; now_s := ∅; now_rn := ∅; now_rc := ∅; now_sa := ∅ |}.

Definition categories : list string := ["healthy"; "starting"; "unhealthy"; "none"].

(** The four rows of one identity in the one-hot gauge. *)
Definition rows (container image cid host : string) : gset labels5 :=
  {[ (container, image, cid, host, "healthy");
     (container, image, cid, host, "starting");
     (container, image, cid, host, "unhealthy");
     (container, image, cid, host, "none") ]}.

(** The value written to row [s]: [1 if s == status_value else 0]. *)
Definition one_hot_value (s status_value : string) : Q :=
  if String.eqb s status_value then 1%Q else 0%Q.

(** [set_one_hot]: writes the four rows, then adds them to the global
    [_last_s], the set left by the previous pass. *)
Definition set_one_hot (container image cid host status_value : string)
    (R : Registry) : Registry :=
  {| g_health := g_health R;
     g_status :=
       foldl (λ g s, <[(container, image, cid, host, s) := one_hot_value s status_value]> g)
             (g_status R) categories;
     g_running := g_running R;
     g_restart := g_restart R;
     g_started_at := g_started_at R;
     _last_h := _last_h R;
     _last_s := _last_s R ∪ rows container image cid host;
     _last_rn := _last_rn R;
     _last_rc := _last_rc R;
     _last_sa := _last_sa R |}.

(** The label tuple of a container on the four plain gauges. *)
Definition label_tuple (host : string) (f : Facts) : labels4 :=
  (f_name f, f_img f, f_cid f, host).

(** Lines 192-201: the writes for one container.  None of them can raise:
    every [labels] call has the arity of its gauge and every value is a
    float. *)
Definition publish (host : string) (f : Facts) (RN : Registry * Now) : Registry * Now :=
  let '(R, N) := RN in
  let t := label_tuple host f in
  let R1 := set_one_hot (f_name f) (f_img f) (f_cid f) host (f_status f) R in
  ({| g_health := <[t := f_num f]> (g_health R1);
      g_status := g_status R1;
      g_running := <[t := f_running f]> (g_running R1);
      g_restart := <[t := f_restart_count f]> (g_restart R1);
      g_started_at := <[t := f_started_at f]> (g_started_at R1);
      _last_h := _last_h R1; _last_s := _last_s R1; _last_rn := _last_rn R1;
      _last_rc := _last_rc R1; _last_sa := _last_sa R1 |},
   {| now_h := now_h N ∪ {[t]};
      now_s := now_s N ∪ rows (f_name f) (f_img f) (f_cid f) host;
      now_rn := now_rn N ∪ {[t]};
      now_rc := now_rc N ∪ {[t]};
      now_sa := now_sa N ∪ {[t]} |}).

(** The label tuples a list of facts stands for: on the plain gauges, and
    on the one-hot gauge. *)
Definition labels_of (host : string) (fs : list Facts) : gset labels4 :=
  list_to_set (label_tuple host <$> fs).

Definition rows_of (host : string) (fs : list Facts) : gset labels5 :=
  ⋃ ((λ f, rows (f_name f) (f_img f) (f_cid f) host) <$> fs).

(** [for labels in last_set - now_set]: [metric.remove] of the tuple, a
    [KeyError] from [remove] being swallowed. *)
Definition remove_stale `{Countable K} (metric : gmap K Q) (last_set now_set : gset K) : gmap K Q :=
  set_fold (λ labels g, delete labels g) metric (last_set ∖ now_set).

(** Lines 206-221. *)
Definition reconcile (RN : Registry * Now) : Registry :=
  let '(R, N) := RN in
  {| g_health := remove_stale (g_health R) (_last_h R) (now_h N);
     g_status := remove_stale (g_status R) (_last_s R) (now_s N);
     g_running := remove_stale (g_running R) (_last_rn R) (now_rn N);
     g_restart := remove_stale (g_restart R) (_last_rc R) (now_rc N);
     g_started_at := remove_stale (g_started_at R) (_last_sa R) (now_sa N);
     _last_h := now_h N; _last_s := now_s N; _last_rn := now_rn N;
     _last_rc := now_rc N; _last_sa := now_sa N |}.

(** The writes of a pass for the facts [fs], in order. *)
Definition publish_all (host : string) (fs : list Facts) (RN : Registry * Now)
    : Registry * Now :=
  foldl (λ RN f, publish host f RN) RN fs.

(** Between passes each [_last_*] set names exactly the label tuples its
    gauge has a series for. *)
Definition consistent (R : Registry) : Prop :=
  dom (g_health R) = _last_h R ∧ dom (g_status R) = _last_s R ∧
  dom (g_running R) = _last_rn R ∧ dom (g_restart R) = _last_rc R ∧
  dom (g_started_at R) = _last_sa R.

Section Scrape.
Context `{PyLib}.

(** [getattr(c, 'name', '?')] *)
Definition best_known_name (c : Container) : string := default "?" (name c).

Definition warn_line (c : Container) (ce : exn) : string :=
  "[warn] container " +:+ best_known_name c +:+ ": " +:+ str_exn ce.

(** One turn of the [for c in containers] loop: the state is the
    registry, the [now_*] locals and the lines logged so far. *)
Definition scrape_container (host : string) (st : Registry * Now * list string)
    (c : Container) : Registry * Now * list string :=
  let '(RN, lg) := st in
  match extract c with
  | Ok f => (publish host f RN, lg)
  | Raise ce => (RN, lg ++ [warn_line c ce])
  end.

(** The facts of the containers of a listing whose processing does not
    raise, in order. *)
Definition processed (containers : list Container) : list Facts :=
  omap (λ c, match extract c with Ok f => Some f | Raise _ => None end) containers.

(** The lines logged for those whose processing raises, in order. *)
Definition warnings (containers : list Container) : list string :=
  omap (λ c, match extract c with Raise ce => Some (warn_line c ce) | Ok _ => None end)
       containers.

(** [scrape_once] from line 156 on, the listing in hand. *)
Definition scrape_pass (host : string) (containers : list Container)
    (R : Registry) : Registry * list string :=
  let '(RN, lg) := foldl (scrape_container host) (R, empty_now, []) containers in
  (reconcile RN, lg).

(** [scrape_once(client)]: [host] is what [socket.gethostname()] returns
    and [listing] the outcome of [client.containers.list(all=True)].
    When the listing raises nothing has been written yet. *)
Definition scrape_once (host : string) (listing : result (list Container))
    (R : Registry) : result (Registry * list string) :=
  containers ←! listing;
  Ok (scrape_pass host containers R).

End Scrape.

(** ** Endpoint resolution *)

Definition _canonical_unix_path (url : string) : string :=
  if negb (PyStr.truthy url) then url
  else
    let low := PyStr.lower url in
    if PyStr.startswith low "http+docker://" || PyStr.startswith low "http+unix://"
    then "unix:///var/run/docker.sock"
    else if PyStr.startswith low "npipe://"
    then "npipe:////./pipe/docker_engine"
    else url.

(** [l.insert(i, x)] *)
Definition list_insert_at {A} (i : nat) (x : A) (l : list A) : list A :=
  take i l ++ x :: drop i l.

(** Lines 16-28, run once at import: [xdg] is
    [os.environ.get("XDG_RUNTIME_DIR")] and [uid] the result of
    [os.getuid()], [None] when it raises. *)
Definition DEFAULT_SOCKET_CANDIDATES (xdg : option string) (uid : option N) : list string :=
  let fixed := ["unix:///var/run/docker.sock"; "unix:///run/user/1000/docker.sock"] in
  if PyStr.truthy (default "" xdg) then
    list_insert_at 1 ("unix://" +:+ PyStr.rstrip "/" (default "" xdg) +:+ "/docker.sock") fixed
  else
    match uid with
    | Some u => list_insert_at 1 ("unix:///run/user/" +:+ pretty u +:+ "/docker.sock") fixed
    | None => fixed
    end.

(** Lines 90-91: [if c_norm not in candidates: candidates.append(c_norm)]. *)
Definition add_candidate (cs : list string) (c_norm : string) : list string :=
  if bool_decide (c_norm ∈ cs) then cs else cs ++ [c_norm].

(** Lines 85-92.  [env_docker_host] is [ENV_DOCKER_HOST], the stripped
    value of [DOCKER_HOST]; [defaults] is the module-level list. *)
Definition candidates (env_docker_host : string) (defaults : list string) : list string :=
  let c0 := if PyStr.truthy env_docker_host
            then [_canonical_unix_path env_docker_host] else [] in
  let c1 := foldl (λ cs c, add_candidate cs (_canonical_unix_path c)) c0 defaults in
  c1 ++ ["from_env"].

(** The endpoints asked for, before normalisation: the override when it
    is set, then the defaults. *)
Definition requested (env_docker_host : string) (defaults : list string) : list string :=
  (if PyStr.truthy env_docker_host then [env_docker_host] else []) ++ defaults.

(** Deduplication as the specification words it: the elements of [l] in
    order, each kept at its first occurrence only. *)
Fixpoint first_occurrences (l : list string) : list string :=
  match l with
  | [] => []
  | x :: l' => x :: filter (λ y, y ≠ x) (first_occurrences l')
  end.

(** A connected [docker.DockerClient]; [api_base_url] is what
    [getattr(cli.api, "base_url", ...)] finds. *)
Record Client : Type := { api_base_url : option string }.

(** What the host answers during one resolution: [path_exists] is
    [os.path.exists]; [connect base] is the outcome of building the client
    for [base] ([docker.from_env()] for the sentinel) and of the
    [cli.version()] call that follows. *)
Record Daemon : Type := {
  path_exists : string → bool;
  connect : string → result Client
}.

Definition _file_exists_for_unix (w : Daemon) (url : string) : bool :=
  if negb (PyStr.startswith url "unix://") then false
  else path_exists w (PyStr.drop 7 url).

(** The test of line 101 together with that of line 97: the candidate is
    passed over with [continue]. *)
Definition skipped (w : Daemon) (base : string) : bool :=
  negb (String.eqb base "from_env")
  && PyStr.startswith base "unix://" && negb (_file_exists_for_unix w base).

(** [errors[base] = v] on an insertion-ordered dict. *)
Fixpoint dict_set (errors : list (string * string)) (k v : string) : list (string * string) :=
  match errors with
  | [] => [(k, v)]
  | (k', v') :: rest =>
      if String.eqb k' k then (k', v) :: rest else (k', v') :: dict_set rest k v
  end.

(** The state carried through the [for base in candidates] loop:
    [dialled] lists the candidates for which a connection was attempted,
    [errors] is the dict of the source. *)
Record Attempts : Type := {
  dialled : list string;
  errors : list (string * string)
}.

Definition dial (w : Daemon) (base : string) (a : Attempts) : Attempts * option Client :=
  match connect w base with
  | Ok cli => ({| dialled := dialled a ++ [base]; errors := errors a |}, Some cli)
  | Raise e => ({| dialled := dialled a ++ [base];
                   errors := dict_set (errors a) base (str_exn e) |}, None)
  end.

(** What links the dict of reasons to the attempts made so far: one
    reason per candidate dialled in vain, that candidate's failure text. *)
Definition reasons_recorded (w : Daemon) (a : Attempts) : Prop :=
  NoDup (errors a).*1 ∧
  ∀ k v, (k, v) ∈ errors a ↔
         k ∈ dialled a ∧ ∃ e, connect w k = Raise e ∧ v = str_exn e.

(** Lines 95-110. *)
Fixpoint try_candidates (w : Daemon) (bases : list string) (a : Attempts)
    : Attempts * option (Client * string) :=
  match bases with
  | [] => (a, None)
  | base :: rest =>
      if String.eqb base "from_env" then
        match dial w base a with
        | (a', Some cli) => (a', Some (cli, default "from_env" (api_base_url cli)))
        | (a', None) => try_candidates w rest a'
        end
      else if PyStr.startswith base "unix://" && negb (_file_exists_for_unix w base)
      then try_candidates w rest a
      else
        match dial w base a with
        | (a', Some cli) => (a', Some (cli, base))
        | (a', None) => try_candidates w rest a'
        end
  end.

Definition tried_line (kv : string * string) : string :=
  "[error] Tried " +:+ kv.1 +:+ ": " +:+ kv.2.

Definition unreachable : exn :=
  DockerException "Unable to connect to Docker daemon via any known method.".

(** What a call of [create_docker_client] leaves behind: the connection
    attempts it made, the lines it logged, and its return value or the
    exception it raised. *)
Record Resolution : Type := {
  attempts : Attempts;
  resolution_log : list string;
  outcome : result (Client * string)
}.

Definition create_docker_client (env_docker_host : string) (defaults : list string)
    (w : Daemon) : Resolution :=
  match try_candidates w (candidates env_docker_host defaults)
                       {| dialled := []; errors := [] |} with
  | (a, Some (cli, base_used)) =>
      {| attempts := a;
         resolution_log := ["[info] Connected to Docker via " +:+ base_used];
         outcome := Ok (cli, base_used) |}
  | (a, None) =>
      {| attempts := a;
         resolution_log := tried_line <$> errors a;
         outcome := Raise unreachable |}
  end.

(** ** The poll loop of [main] *)

(** The module constants read from the environment. *)
Record Config : Type := {
  INTERVAL : Q;
  ENV_DOCKER_HOST : string;
  default_candidates : list string
}.

(** The locals of [main] that survive an iteration, with the registry. *)
Record Loop : Type := {
  client : option Client;
  backoff : Q;
  registry : Registry
}.

Definition initial_loop : Loop :=
  {| client := None; backoff := 1%Q; registry := initial_registry |}.

(** What the outside world does during one iteration of [while True]. *)
Record World : Type := {
  daemon : Daemon;
  hostname : string;
  listing : result (list Container)
}.

(** The call of [create_docker_client] that an iteration makes when it
    starts without a client. *)
Definition resolve (cfg : Config) (w : World) : Resolution :=
  create_docker_client (ENV_DOCKER_HOST cfg) (default_candidates cfg) (daemon w).

(** Endpoint resolution fails in the world [w]. *)
Definition resolution_fails (cfg : Config) (w : World) : Prop :=
  ∃ e, outcome (resolve cfg w) = Raise e.

(** One iteration: the new state, the argument of [time.sleep] and the
    lines logged. *)
Record Iteration : Type := {
  after : Loop;
  slept : Q;
  logged : list string
}.

Section Main.
Context `{PyLib}.
Variable cfg : Config.

(** Line 235 inside the [try]: the state, the log and the exception that
    leaves the block, if any. *)
Definition try_scrape (w : World) (s : Loop) (lg : list string)
    : Loop * list string * option exn :=
  match scrape_once (hostname w) (listing w) (registry s) with
  | Ok pass =>
      ({| client := client s; backoff := backoff s; registry := pass.1 |},
       lg ++ pass.2, None)
  | Raise e => (s, lg, Some e)
  end.

(** Lines 230-235. *)
Definition try_block (w : World) (s : Loop) : Loop * list string * option exn :=
  match client s with
  | None =>
      let r := resolve cfg w in
      match outcome r with
      | Raise e => (s, resolution_log r, Some e)
      | Ok (cli, used) =>
          try_scrape w
            {| client := Some cli; backoff := 1%Q; registry := registry s |}
            (resolution_log r ++ ["[info] Using Docker base_url: " +:+ used])
      end
  | Some _ => try_scrape w s []
  end.

(** Lines 236-240. *)
Definition handlers (st : Loop * list string * option exn) : Loop * list string :=
  let '(s, lg, exc) := st in
  match exc with
  | None => (s, lg)
  | Some (DockerException de) =>
      ({| client := None; backoff := backoff s; registry := registry s |},
       lg ++ ["[error] Docker exception: " +:+ de])
  | Some (PyException e) => (s, lg ++ ["[error] Unexpected error: " +:+ e])
  end.

(** Lines 230-243. *)
Definition main_step (w : World) (s : Loop) : Iteration :=
  let '(s1, lg) := handlers (try_block w s) in
  {| after :=
       {| client := client s1;
          backoff := match client s1 with
                     | None => Qmin (backoff s1 * 2) 30
                     | Some _ => backoff s1
                     end;
          registry := registry s1 |};
     slept := match client s1 with
              | Some _ => INTERVAL cfg
              | None => Qmin (backoff s1) 30
              end;
     logged := lg |}.

(** The state after the iterations driven by [ws], oldest first. *)
Definition run (ws : list World) : Loop :=
  foldl (λ s w, after (main_step w s)) initial_loop ws.

End Main.

(** ** A reference instance of the library *)

(** The embedding above is generic in [PyLib], and so are the theorems.
    To evaluate the program on concrete inputs this module supplies one
    instance: [float] on plain decimal integers, and [fromisoformat] on
    [YYYY-MM-DD], optionally followed by one separator character,
    [HH:MM:SS], an optional fraction of three or six digits and an optional
    offset [+HH:MM] or [-HH:MM]. *)
Module ReferenceLib.

Definition digit (c : ascii) : option Z :=
  let n := Ascii.N_of_ascii c in
  if ((48 <=? n) && (n <=? 57))%N then Some (Z.of_N n - 48) else None.

(** Reads exactly [n] decimal digits. *)
Fixpoint digits (n : nat) (acc : Z) (s : string) : option (Z * string) :=
  match n with
  | O => Some (acc, s)
  | S n' =>
      match s with
      | String c s' => d ← digit c; digits n' (acc * 10 + d) s'
      | EmptyString => None
      end
  end.

Definition expect (ch : ascii) (s : string) : option string :=
  match s with
  | String c s' => if Ascii.eqb c ch then Some s' else None
  | EmptyString => None
  end.

Fixpoint all_digits (acc : Z) (s : string) : option Z :=
  match s with
  | EmptyString => Some acc
  | String c s' => d ← digit c; all_digits (acc * 10 + d) s'
  end.

Definition parse_float (s : string) : option Q :=
  match s with
  | EmptyString => None
  | String "-" (String _ _ as s') => n ← all_digits 0 s'; Some (inject_Z (- n))
  | _ => n ← all_digits 0 s; Some (inject_Z n)
  end.

(** [.fff] or [.ffffff], as microseconds; no fraction is 0. *)
Definition fraction (s : string) : option (Z * string) :=
  match s with
  | String "." s' =>
      match digits 6 0 s' with
      | Some r => Some r
      | None => '(ms, r) ← digits 3 0 s'; Some (ms * 1000, r)
      end
  | _ => Some (0, s)
  end.

(** The offset in microseconds; no offset is a naive datetime. *)
Definition offset (s : string) : option (option Z) :=
  match s with
  | EmptyString => Some None
  | String c s' =>
      sign ← (if Ascii.eqb c "+" then Some 1
              else if Ascii.eqb c "-" then Some (-1) else None);
      '(hh, s1) ← digits 2 0 s';
      s2 ← expect ":" s1;
      '(mm, s3) ← digits 2 0 s2;
      if PyStr.truthy s3 then None
      else if (hh <? 24) && (mm <? 60)
      then Some (Some (sign * (hh * 3600 + mm * 60) * 1000000))
      else None
  end.

Definition time_of_day (s : string) : option (Z * Z * Z * Z * option Z) :=
  '(hh, s1) ← digits 2 0 s;
  s2 ← expect ":" s1;
  '(mi, s3) ← digits 2 0 s2;
  s4 ← expect ":" s3;
  '(ss, s5) ← digits 2 0 s4;
  '(us, s6) ← fraction s5;
  tz ← offset s6;
  if (hh <? 24) && (mi <? 60) && (ss <? 60) then Some (hh, mi, ss, us, tz) else None.

Definition parse_iso (s : string) : option datetime :=
  '(y, s1) ← digits 4 0 s;
  s2 ← expect "-" s1;
  '(m, s3) ← digits 2 0 s2;
  s4 ← expect "-" s3;
  '(d, s5) ← digits 2 0 s4;
  if (1 <=? y) && (1 <=? m) && (m <=? 12) && (1 <=? d) && (d <=? DateTime.days_in_month y m)
  then
    match s5 with
    | EmptyString => Some (mk_datetime y m d 0 0 0 0 None)
    | String _ t =>
        '(hh, mi, ss, us, tz) ← time_of_day t;
        Some (mk_datetime y m d hh mi ss us tz)
    end
  else None.

#[export] Instance lib : PyLib :=
  {| float_of_str := parse_float; fromisoformat := parse_iso |}.

End ReferenceLib.


(** ** Sample inputs *)

Module Examples.

Definition container (nm : string) (a : list (string * json)) : Container :=
  {| reload := None;
     image := Ok (Some {| tags := ["nginx:latest"]; image_short_id := "sha256:0a1b2c3d4e" |});
     short_id := "f00dfeed0001";
     name := Some nm;
     attrs := a |}.

(** A running container whose healthcheck reports [Healthy]. *)
Definition healthy_web : Container :=
  container "web"
    [("RestartCount", JInt 5);
     ("State", JDict [("Running", JBool true);
                      ("RestartCount", JInt 9);
                      ("StartedAt", JStr "2025-11-06T21:27:08.123456789Z");
                      ("Health", JDict [("Status", JStr "Healthy");
                                        ("FailingStreak", JInt 0)])])].

Definition healthy_web_facts : Facts :=
  {| f_name := "web"; f_img := "nginx:latest"; f_cid := "f00dfeed0001";
     f_num := 1%Q; f_status := "healthy"; f_running := 1%Q;
     f_restart_count := 5%Q;
     f_started_at := Qmake 1848077900183981 1048576 |}.

(** A running container whose state gives [s] as its start time. *)
Definition started (s : string) : Container :=
  container "web" [("State", JDict [("Running", JBool true); ("StartedAt", JStr s)])].

(** A container whose state carries a health object with no field. *)
Definition empty_health : Container :=
  container "job" [("State", JDict [("Running", JBool false); ("Health", JDict [])])].

(** A container whose [State] is a string, not an object. *)
Definition broken : Container :=
  {| reload := None; image := Ok None; short_id := "0badc0ffee00";
     name := Some "db"; attrs := [("State", JStr "exited")] |}.

(** A container whose [reload] fails and whose name cannot be read. *)
Definition vanished : Container :=
  {| reload := Some (DockerException "404 Client Error: Not Found");
     image := Ok None; short_id := "deadbeef0000"; name := None; attrs := [] |}.

(** A host on which only the system socket exists and every connection
    is turned down with [reason]. *)
Definition refusing (reason : string) : Daemon :=
  {| path_exists := λ p, String.eqb p "/var/run/docker.sock";
     connect := λ _, Raise (DockerException reason) |}.

Definition defaults_uid_1000 : list string :=
  DEFAULT_SOCKET_CANDIDATES None (Some 1000%N).


(** A host whose daemon answers on every endpoint. *)
Definition accepting : Daemon :=
  {| path_exists := λ p, String.eqb p "/var/run/docker.sock";
     connect := λ _, Ok {| api_base_url := Some "http+docker://localhost" |} |}.

Definition cfg : Config :=
  {| INTERVAL := 10%Q; ENV_DOCKER_HOST := ""; default_candidates := defaults_uid_1000 |}.

(** The daemon is down. *)
Definition down : World :=
  {| daemon := refusing "Connection refused"; hostname := "exporter-1";
     listing := Raise (DockerException "Connection refused") |}.

(** The daemon is up and lists one container. *)
Definition up : World :=
  {| daemon := accepting; hostname := "exporter-1"; listing := Ok [healthy_web] |}.

(** The daemon answers a new connection but the listing call fails. *)
Definition lost : World :=
  {| daemon := accepting; hostname := "exporter-1";
     listing := Raise (DockerException "500 Server Error") |}.

End Examples.

(** ** The start timestamp as the specification words it *)

(** The specification has the fraction of seconds truncated or padded to
    microseconds, the result parsed, and the reading taken as UTC.  These
    definitions follow those words, not the source: they are what
    [parse_started_at] is compared with. *)
Module AsSpecified.

(** The leading decimal digits of [s], and what follows them. *)
Fixpoint span_digits (s : string) : string * string :=
  match s with
  | String c s' =>
      match ReferenceLib.digit c with
      | Some _ => let '(ds, rest) := span_digits s' in (String c ds, rest)
      | None => ("", s)
      end
  | EmptyString => ("", "")
  end.

(** The digits after the first dot cut, or filled with zeros, to six;
    what follows the digits is kept. *)
Definition truncate_fraction (s : string) : string :=
  match PyStr.split_once "." s with
  | Some (head, rest) =>
      let '(ds, tail) := span_digits rest in
      head +:+ "." +:+ PyStr.take 6 (ds +:+ "000000") +:+ tail
  | None => s
  end.

(** The epoch seconds of the text so rewritten, its wall clock read as
    UTC; 0 when the library rejects it. *)
Definition started_at_epoch `{PyLib} (s : string) : Q :=
  match fromisoformat (truncate_fraction (PyStr.rstrip "Z" s)) with
  | Some dt =>
      default 0%Q (DateTime.timestamp (DateTime.replace_tzinfo dt DateTime.utc))
  | None => 0%Q
  end.

End AsSpecified.

(** The numeric offset that a timestamp text states: its last six
    characters read as [+HH:MM] or [-HH:MM], in microseconds. *)
Definition stated_offset (s : string) : option Z :=
  match ReferenceLib.offset (PyStr.drop (String.length s - 6) s) with
  | Some (Some off) => Some off
  | _ => None
  end.

(** ** What a pass writes, as maps *)

(** The series that the writes of a pass leave on a plain gauge fed with
    [get]: one per label tuple, holding the value written last. *)
Definition series (host : string) (get : Facts → Q) (fs : list Facts) : gmap labels4 Q :=
  foldl (λ g f, <[label_tuple host f := get f]> g) ∅ fs.

(** The four writes of [set_one_hot] on a map. *)
Definition one_hot_writes (host : string) (g : gmap labels5 Q) (f : Facts) : gmap labels5 Q :=
  foldl (λ g s, <[(f_name f, f_img f, f_cid f, host, s) := one_hot_value s (f_status f)]> g)
        g categories.

(** The series that the writes of a pass leave on the one-hot gauge. *)
Definition status_series (host : string) (fs : list Facts) : gmap labels5 Q :=
  foldl (one_hot_writes host) ∅ fs.

(** The loop of [main] resumed from the state [s]. *)
Definition run_from `{PyLib} (cfg : Config) (s : Loop) (ws : list World) : Loop :=
  foldl (λ s w, after (main_step cfg w s)) s ws.

(** What [create_docker_client] reports as the endpoint in use. *)
Definition base_used (base : string) (cli : Client) : string :=
  if String.eqb base "from_env" then default "from_env" (api_base_url cli) else base.

(** * Properties *)

(** ** Inversion of a successful extraction *)

Lemma bind_Ok {A B} (r : result A) (k : A → result B) (b : B) :
  bind r k = Ok b → ∃ a, r = Ok a ∧ k a = Ok b.
Proof. destruct r as [a|e]; simpl; [eauto | discriminate]. Qed.

Section ExtractFacts.
Context `{PyLib}.

(** A container whose processing does not raise went through every
    step of [extract]. *)
Lemma extract_Ok (c : Container) (f : Facts) :
  extract c = Ok f →
  ∃ im nm health rn sn,
    reload c = None ∧ image c = Ok im ∧ name c = Some nm ∧
    py_get (state_of c) "Health" = Ok health ∧
    py_get (state_of c) "Running" = Ok rn ∧
    restart_count_of (attrs c) (state_of c) = Ok (f_restart_count f) ∧
    started_at_of (state_of c) = Ok (f_started_at f) ∧
    health_of health = Ok sn ∧
    f_name f = nm ∧ f_img f = image_label im ∧ f_cid f = short_id c ∧
    f_status f = sn.1 ∧ f_num f = sn.2 ∧
    f_running f = (if truthy rn then 1%Q else 0%Q).
Proof.
  unfold extract. intros E.
  apply bind_Ok in E as (? & Hre & E).
  apply bind_Ok in E as (im & Him & E).
  apply bind_Ok in E as (nm & Hnm & E).
  apply bind_Ok in E as (health & Hh & E).
  apply bind_Ok in E as (rn & Hrn & E).
  apply bind_Ok in E as (rc & Hrc & E).
  apply bind_Ok in E as (sa & Hsa & E).
  apply bind_Ok in E as (sn & Hsn & E).
  injection E as <-. simpl.
  exists im, nm, health, rn, sn.
  destruct (reload c); [discriminate|].
  destruct (name c); [|discriminate]. injection Hnm as ->.
  repeat split; done.
Qed.

(** The state object of a processed container is a dict. *)
Lemma py_get_Ok (v : json) (k : string) (r : json) :
  py_get v k = Ok r → ∃ d, v = JDict d ∧ r = dict_get d k.
Proof. destruct v; simpl; try discriminate. intros [= <-]. eauto. Qed.

End ExtractFacts.

(** ** Health score and category *)

Lemma table_known :
  table !! "healthy" = Some 1%Q ∧ table !! "starting" = Some (1 # 2)%Q
  ∧ table !! "unhealthy" = Some 0%Q.
Proof. by vm_compute. Qed.

Lemma table_unknown (status : string) :
  status ∉ known_statuses → table !! status = None.
Proof.
  unfold known_statuses, table. intros Hn.
  rewrite !lookup_insert_ne; [apply lookup_empty | | | ];
    intros <-; apply Hn; rewrite !elem_of_cons; tauto.
Qed.

Lemma status_to_num_unknown (status : string) :
  status ∉ known_statuses → status_to_num status true = 0%Q.
Proof. intros Hn. unfold status_to_num. simpl. by rewrite table_unknown. Qed.

(** The three outcomes of lines 183-190 on a truthy health object whose
    lowered status text is [l]. *)
Lemma health_of_status (d : list (string * json)) (s : string) :
  d ≠ [] → dict_get d "Status" = JStr s →
  let l := PyStr.lower s in
  health_of (JDict d) =
    Ok (if bool_decide (l ∈ known_statuses) then (l, status_to_num l true)
        else ("none", 0%Q)).
Proof.
  intros Hd Hs l. unfold health_of.
  assert (truthy (JDict d) = true) as -> by (destruct d; done).
  simpl. rewrite Hs. unfold py_or.
  destruct s as [|a s']; simpl.
  - subst l. simpl. done.
  - change (String (PyStr.lower_ascii a) (PyStr.lower s')) with l.
    case_bool_decide as Hl; [done|].
    by rewrite status_to_num_unknown.
Qed.

Lemma health_of_unset (d : list (string * json)) :
  d ≠ [] → dict_get d "Status" = JNull → health_of (JDict d) = Ok ("none", 0%Q).
Proof.
  intros Hd Hs. unfold health_of.
  assert (truthy (JDict d) = true) as -> by (destruct d; done).
  simpl. by rewrite Hs.
Qed.

Lemma health_of_falsy (health : json) :
  truthy health = false → health_of health = Ok ("none", 1%Q).
Proof. intros Hf. unfold health_of. by rewrite Hf. Qed.

(** C2 (as amended).  For a container that is processed without error, the
    health facts follow the health object [State.Health]: when it is present
    and not empty, a status whose lowercase form is [healthy], [starting]
    or [unhealthy] gives that category with score 1, 1/2 and 0, and any
    other status string, or no status, gives category [none] with score 0;
    when it is absent, or present but empty, the category is [none] and the
    score is 1. *)
Theorem health_facts `{PyLib} (c : Container) (f : Facts) (health : json) :
  extract c = Ok f →
  py_get (state_of c) "Health" = Ok health →
  (∀ d s, health = JDict d → d ≠ [] → dict_get d "Status" = JStr s →
     let l := PyStr.lower s in
     (l = "healthy" → f_status f = "healthy" ∧ f_num f = 1%Q) ∧
     (l = "starting" → f_status f = "starting" ∧ f_num f = (1 # 2)%Q) ∧
     (l = "unhealthy" → f_status f = "unhealthy" ∧ f_num f = 0%Q) ∧
     (l ∉ known_statuses → f_status f = "none" ∧ f_num f = 0%Q)) ∧
  (∀ d, health = JDict d → d ≠ [] → dict_get d "Status" = JNull →
     f_status f = "none" ∧ f_num f = 0%Q) ∧
  (health = JNull ∨ health = JDict [] → f_status f = "none" ∧ f_num f = 1%Q).
Proof.
  intros E Hh.
  apply extract_Ok in E as (im & nm & health' & rn & sn & _ & _ & _ & Hh' & _ & _ & _ & Hsn & _ & _ & _ & -> & -> & _).
  rewrite Hh in Hh'. injection Hh' as <-.
  split; [|split].
  - intros d s -> Hd Hs l.
    rewrite (health_of_status d s Hd Hs) in Hsn. fold l in Hsn.
    split; [|split; [|split]].
    + intros Hl. rewrite Hl in Hsn. by injection Hsn as <-.
    + intros Hl. rewrite Hl in Hsn. by injection Hsn as <-.
    + intros Hl. rewrite Hl in Hsn. by injection Hsn as <-.
    + intros Hl. rewrite bool_decide_eq_false_2 in Hsn by done. by injection Hsn as <-.
  - intros d -> Hd Hs. rewrite (health_of_unset d Hd Hs) in Hsn. by injection Hsn as <-.
  - intros Hf. rewrite health_of_falsy in Hsn by (by destruct Hf as [-> | ->]).
    by injection Hsn as <-.
Qed.

Lemma health_facts_witness :
  f_status Examples.healthy_web_facts = "healthy"
  ∧ f_num Examples.healthy_web_facts = 1%Q.
Proof.
  pose proof (@health_facts ReferenceLib.lib Examples.healthy_web
                Examples.healthy_web_facts
                (JDict [("Status", JStr "Healthy"); ("FailingStreak", JInt 0)])
                ltac:(vm_compute; reflexivity) ltac:(vm_compute; reflexivity))
    as (Hpresent & _ & _).
  apply (Hpresent _ "Healthy" eq_refl ltac:(discriminate) eq_refl).
  vm_compute; reflexivity.
Defined.

(** C2 as stated fails on a health object that is present but has no
    field: its status is unset, yet the score is 1, not 0. *)
Lemma health_empty_object_scores_one :
  py_get (state_of Examples.empty_health) "Health" = Ok (JDict [])
  ∧ dict_get [] "Status" = JNull
  ∧ ∃ f, @extract ReferenceLib.lib Examples.empty_health = Ok f
         ∧ f_status f = "none" ∧ f_num f = 1%Q ∧ ¬ (f_num f == 0)%Q.
Proof.
  split; [by vm_compute|]. split; [done|].
  eexists. split; [vm_compute; reflexivity|].
  repeat split; by vm_compute.
Qed.

(** ** Restart count *)

Section RestartCount.
Context `{PyLib}.

Lemma restart_value_non_numeric (v : json) :
  is_numeric v = false → restart_value v = 0%Q.
Proof.
  unfold restart_value, py_or.
  destruct v as [| b | n | q | s | l | d]; simpl; try discriminate; intros Hn.
  - done.
  - destruct s as [|a s']; simpl; [done|].
    destruct (float_of_str (String a s')); [discriminate | done].
  - by destruct l.
  - by destruct d.
Qed.

Lemma of_int_exact (n : Z) : Z.abs n <= 2 ^ 53 → PyFloat.of_int n = n.
Proof.
  intros Hn. unfold PyFloat.of_int.
  destruct (Z.ltb_spec (Z.abs n) (2 ^ 53)) as [Hlt | Hge]; [done|].
  change (2 ^ 53) with 9007199254740992 in *.
  assert (n = 9007199254740992 ∨ n = - 9007199254740992) as [-> | ->] by lia;
    by vm_compute.
Qed.

Lemma small_int_fits (n : Z) : Z.abs n <= 2 ^ 53 → float_overflows n = false.
Proof.
  intros Hn. unfold float_overflows. apply Z.leb_gt.
  apply Z.le_lt_trans with (2 ^ 53); [done | by vm_compute].
Qed.

Lemma restart_value_int (n : Z) :
  Z.abs n <= 2 ^ 53 → restart_value (JInt n) = inject_Z n.
Proof.
  intros Hn. unfold restart_value, py_or. cbn [truthy].
  assert (py_float (JInt n) = Ok (inject_Z n)) as Hf
    by (cbn [py_float]; by rewrite small_int_fits, of_int_exact).
  destruct (Z.eqb_spec n 0) as [-> | Hne]; cbn [negb]; [by vm_compute|].
  by rewrite Hf.
Qed.

(** Beyond 53 bits the integer is rounded to the nearest double. *)
Lemma restart_value_rounded (n : Z) :
  float_overflows n = false → restart_value (JInt n) = inject_Z (PyFloat.of_int n).
Proof.
  intros Hn. unfold restart_value, py_or. cbn [truthy].
  assert (py_float (JInt n) = Ok (inject_Z (PyFloat.of_int n))) as Hf
    by (cbn [py_float]; by rewrite Hn).
  destruct (Z.eqb_spec n 0) as [-> | Hne]; cbn [negb]; [by vm_compute|].
  by rewrite Hf.
Qed.

Lemma restart_count_of_Ok (a : list (string * json)) (st nested : json) (q : Q) :
  restart_count_of a st = Ok q →
  py_get st "RestartCount" = Ok nested →
  q = restart_value (match dict_get a "RestartCount" with
                     | JNull => nested
                     | top => top
                     end).
Proof.
  unfold restart_count_of. intros E Hn.
  apply bind_Ok in E as (rc & Hrc & [= <-]).
  destruct (dict_get a "RestartCount"); simpl in Hrc; congruence.
Qed.

End RestartCount.

(** C5.  For a container that is processed without error, with [top] the
    top-level [RestartCount] of its attributes and [nested] the
    [RestartCount] of its state object ([None] standing for an absent
    field): the restart count is read from [top] when it is there and from
    [nested] otherwise; it is 0 when both are absent and whenever the value
    read is not numeric; an integer of at most 53 bits, which a float holds
    exactly, is returned as it is, and a larger one within the range of
    floats as the nearest double ([2^53 + 1] as [2^53]).  So 5 over 9
    gives 5, absent over 9 gives 9. *)
Theorem restart_count_facts `{PyLib} (c : Container) (f : Facts) (nested : json) :
  extract c = Ok f →
  py_get (state_of c) "RestartCount" = Ok nested →
  let top := dict_get (attrs c) "RestartCount" in
  (top ≠ JNull → f_restart_count f = restart_value top) ∧
  (top = JNull → f_restart_count f = restart_value nested) ∧
  (top = JNull → nested = JNull → f_restart_count f = 0%Q) ∧
  (∀ v, is_numeric v = false → restart_value v = 0%Q) ∧
  (∀ n, Z.abs n <= 2 ^ 53 → restart_value (JInt n) = inject_Z n) ∧
  (∀ n, float_overflows n = false →
        restart_value (JInt n) = inject_Z (PyFloat.of_int n)) ∧
  restart_value (JInt (2 ^ 53 + 1)) = inject_Z (2 ^ 53) ∧
  (top = JInt 5 → nested = JInt 9 → f_restart_count f = 5%Q) ∧
  (top = JNull → nested = JInt 9 → f_restart_count f = 9%Q).
Proof.
  intros E Hn top.
  apply extract_Ok in E as (im & nm & health & rn & sn & _ & _ & _ & _ & _ & Hrc & _).
  pose proof (restart_count_of_Ok _ _ _ _ Hrc Hn) as Hq. fold top in Hq.
  repeat apply conj.
  - intros Ht. rewrite Hq. by destruct top.
  - intros Ht. by rewrite Hq, Ht.
  - intros Ht ->. by rewrite Hq, Ht.
  - apply restart_value_non_numeric.
  - apply restart_value_int.
  - apply restart_value_rounded.
  - by vm_compute.
  - intros Ht _. by rewrite Hq, Ht.
  - intros Ht ->. by rewrite Hq, Ht.
Qed.

Lemma restart_count_facts_witness :
  f_restart_count Examples.healthy_web_facts = 5%Q.
Proof.
  pose proof (@restart_count_facts ReferenceLib.lib Examples.healthy_web
                Examples.healthy_web_facts (JInt 9)
                ltac:(vm_compute; reflexivity) ltac:(vm_compute; reflexivity))
    as (_ & _ & _ & _ & _ & _ & _ & Hfive & _).
  apply Hfive; vm_compute; reflexivity.
Defined.

(** ** Start timestamp *)

Section StringFacts.

Lemma append_nil_l (b : string) : "" +:+ b = b.
Proof. reflexivity. Qed.

Lemma append_cons (x : ascii) (a b : string) :
  String x a +:+ b = String x (a +:+ b).
Proof. reflexivity. Qed.

Lemma append_nil_r (a : string) : a +:+ "" = a.
Proof. induction a as [|x a IH]; [done|]. by rewrite append_cons, IH. Qed.

Lemma append_assoc (a b c : string) : (a +:+ b) +:+ c = a +:+ (b +:+ c).
Proof.
  induction a as [|x a IH]; [done|]. by rewrite !append_cons, IH.
Qed.

Lemma rstrip_snoc (ch : ascii) (s : string) :
  PyStr.rstrip ch (s +:+ String ch "") = PyStr.rstrip ch s.
Proof.
  induction s as [|c s IH].
  - rewrite append_nil_l. simpl. by rewrite Ascii.eqb_refl.
  - rewrite append_cons. simpl. by rewrite IH.
Qed.

Lemma rstrip_replicate (ch : ascii) (k : nat) (s : string) :
  PyStr.rstrip ch (s +:+ PyStr.replicate k ch) = PyStr.rstrip ch s.
Proof.
  revert s. induction k as [|k IH]; intros s; simpl.
  - by rewrite append_nil_r.
  - change (String ch (PyStr.replicate k ch))
      with (String ch "" +:+ PyStr.replicate k ch).
    by rewrite <- append_assoc, IH, rstrip_snoc.
Qed.

Lemma rstrip_id (ch : ascii) (s : string) :
  PyStr.ends_with ch s = false → PyStr.rstrip ch s = s.
Proof.
  induction s as [|c s IH]; [done|].
  destruct s as [|c' s'].
  - simpl. by intros ->.
  - intros He. change (PyStr.ends_with ch (String c' s') = false) in He.
    specialize (IH He).
    change (PyStr.rstrip ch (String c (String c' s')))
      with (match PyStr.rstrip ch (String c' s') with
            | EmptyString => if Ascii.eqb c ch then EmptyString else String c EmptyString
            | r => String c r
            end).
    by rewrite IH.
Qed.

Lemma contains_append (ch : ascii) (head rest : string) :
  PyStr.contains ch (head +:+ String ch rest) = true.
Proof.
  induction head as [|c head IH].
  - rewrite append_nil_l. simpl. by rewrite Ascii.eqb_refl.
  - rewrite append_cons. simpl. rewrite IH. apply orb_true_r.
Qed.

Lemma split_once_append (ch : ascii) (head rest : string) :
  PyStr.contains ch head = false →
  PyStr.split_once ch (head +:+ String ch rest) = Some (head, rest).
Proof.
  induction head as [|c head IH].
  - rewrite append_nil_l. simpl. by rewrite Ascii.eqb_refl.
  - rewrite append_cons. simpl. intros [Hc Hh]%orb_false_iff.
    by rewrite Hc, IH.
Qed.

End StringFacts.

Section StartedAt.
Context `{PyLib}.

(** A text with a dot: what follows the first dot is cut to six
    characters, and the trailing [Z]s are gone. *)
Lemma iso_text_fraction (head frac : string) (k : nat) :
  PyStr.contains "." head = false →
  PyStr.ends_with "Z" (head +:+ "." +:+ frac) = false →
  iso_text (head +:+ "." +:+ frac +:+ PyStr.replicate k "Z")
  = head +:+ "." +:+ PyStr.take 6 frac.
Proof.
  intros Hh He. unfold iso_text.
  replace (head +:+ "." +:+ frac +:+ PyStr.replicate k "Z")
    with ((head +:+ "." +:+ frac) +:+ PyStr.replicate k "Z")
    by (rewrite append_assoc; f_equal).
  rewrite rstrip_replicate, rstrip_id by done.
  change (head +:+ "." +:+ frac) with (head +:+ String "." frac).
  by rewrite contains_append, split_once_append.
Qed.

(** A text without a dot only loses its trailing [Z]s. *)
Lemma iso_text_whole (body : string) (k : nat) :
  PyStr.contains "." body = false →
  PyStr.ends_with "Z" body = false →
  iso_text (body +:+ PyStr.replicate k "Z") = body.
Proof.
  intros Hb He. unfold iso_text.
  rewrite rstrip_replicate, rstrip_id by done. by rewrite Hb.
Qed.

(** A non-empty text is handed to the library once rewritten, and the
    datetime that comes back is read as UTC whatever zone it had. *)
Lemma parse_started_at_str (s : string) :
  s ≠ "" →
  parse_started_at (JStr s) =
    match fromisoformat (iso_text s) with
    | Some dt => Some (PyFloat.of_ratio (DateTime.wall_micros dt) 1000000)
    | None => None
    end.
Proof.
  intros Hs. unfold parse_started_at.
  destruct s as [|a s']; [done|]. cbn [PyStr.truthy negb].
  destruct (fromisoformat _) as [dt|]; [|done].
  unfold DateTime.timestamp, DateTime.epoch_micros.
  cbn [tzinfo DateTime.replace_tzinfo].
  change (DateTime.wall_micros (DateTime.replace_tzinfo dt DateTime.utc))
    with (DateTime.wall_micros dt).
  unfold DateTime.utc. by rewrite Z.sub_0_r.
Qed.

End StartedAt.

Lemma started_at_of_dict `{PyLib} (d : list (string * json)) :
  started_at_of (JDict d)
  = Ok (default 0%Q (parse_started_at (py_or (dict_get d "StartedAt") (JStr "")))).
Proof. reflexivity. Qed.

(** C4, as the specification has it, does not hold of every string.  The
    program keeps six characters after the first dot, whatever they are:
    behind a fraction shorter than six digits they include part of the
    offset.  The text [2025-11-06T21:27:08.5+02:00] is handed to the
    library as [2025-11-06T21:27:08.5+02:0], which it rejects, and the
    container gets 0; with its fraction brought to microseconds the text
    is [2025-11-06T21:27:08.500000+02:00], which parses: read as UTC it is
    second 1762464428.5, and at its own offset second 1762457228.5. *)
Lemma started_at_short_fraction_with_offset :
  let s := "2025-11-06T21:27:08.5+02:00" in
  iso_text s = "2025-11-06T21:27:08.5+02:0" ∧
  AsSpecified.truncate_fraction (PyStr.rstrip "Z" s)
  = "2025-11-06T21:27:08.500000+02:00" ∧
  @parse_started_at ReferenceLib.lib (JStr s) = None ∧
  (∃ f, @extract ReferenceLib.lib (Examples.started s) = Ok f ∧ f_started_at f = 0%Q) ∧
  @AsSpecified.started_at_epoch ReferenceLib.lib s = Qmake 3524928857 2 ∧
  (dt ← ReferenceLib.parse_iso (AsSpecified.truncate_fraction (PyStr.rstrip "Z" s));
   DateTime.timestamp dt) = Some (Qmake 3524914457 2) ∧
  ¬ (0 == @AsSpecified.started_at_epoch ReferenceLib.lib s)%Q.
Proof.
  cbv zeta. split; [by vm_compute|]. split; [by vm_compute|].
  split; [by vm_compute|]. split; [|split; [|split]].
  - eexists. split; [vm_compute; reflexivity | reflexivity].
  - by vm_compute.
  - by vm_compute.
  - by vm_compute.
Qed.

(** C4, amended.  For a container that is processed without error, [raw]
    being the [StartedAt] field of its state: a non-empty string is
    stripped of its trailing [Z]s and cut to six characters after the
    first dot (digits beyond microseconds are dropped, and so is what
    follows a shorter fraction beyond those six characters), the text is
    handed to [fromisoformat], and the wall-clock reading that comes back,
    taken as UTC, gives the double nearest to its seconds since the epoch;
    the nine-digit example is parsed exactly as its six-digit truncation,
    and both give the double nearest to 1762464428.123456 once the library
    reads the six-digit text; an empty or absent field, and a text the
    library rejects after the cut (as it does [2025-11-06T21:27:08.5+02:0],
    all that is left of [2025-11-06T21:27:08.5+02:00]), give 0; and no
    value of the field makes this step raise. *)
Theorem started_at_facts `{PyLib} (c : Container) (f : Facts) (raw : json) :
  extract c = Ok f →
  py_get (state_of c) "StartedAt" = Ok raw →
  (∀ s, raw = JStr s → s ≠ "" →
     f_started_at f = match fromisoformat (iso_text s) with
                      | Some dt => PyFloat.of_ratio (DateTime.wall_micros dt) 1000000
                      | None => 0%Q
                      end) ∧
  (∀ head frac k,
     PyStr.contains "." head = false →
     PyStr.ends_with "Z" (head +:+ "." +:+ frac) = false →
     iso_text (head +:+ "." +:+ frac +:+ PyStr.replicate k "Z")
     = head +:+ "." +:+ PyStr.take 6 frac) ∧
  (∀ body k,
     PyStr.contains "." body = false → PyStr.ends_with "Z" body = false →
     iso_text (body +:+ PyStr.replicate k "Z") = body) ∧
  parse_started_at (JStr "2025-11-06T21:27:08.123456789Z")
  = parse_started_at (JStr "2025-11-06T21:27:08.123456Z") ∧
  (fromisoformat "2025-11-06T21:27:08.123456"
   = Some (mk_datetime 2025 11 6 21 27 8 123456 None) →
   parse_started_at (JStr "2025-11-06T21:27:08.123456789Z")
   = Some (Qmake 1848077900183981 1048576)) ∧
  (fromisoformat "2025-11-06T21:27:08.5+02:0" = None →
   parse_started_at (JStr "2025-11-06T21:27:08.5+02:00") = None) ∧
  (raw = JStr "" ∨ raw = JNull → f_started_at f = 0%Q) ∧
  (∀ s, raw = JStr s → fromisoformat (iso_text s) = None → f_started_at f = 0%Q) ∧
  (∀ d, ∃ q, started_at_of (JDict d) = Ok q).
Proof.
  intros E Hraw.
  apply extract_Ok in E as (im & nm & health & rn & sn & _ & _ & _ & _ & _ & _ & Hsa & _).
  apply py_get_Ok in Hraw as (d & Hst & ->).
  rewrite Hst, started_at_of_dict in Hsa. injection Hsa as Hsa.
  repeat apply conj.
  - intros s Hs Hne. rewrite <- Hsa, Hs.
    assert (py_or (JStr s) (JStr "") = JStr s) as ->
      by (unfold py_or; destruct s; done).
    rewrite parse_started_at_str by done.
    by destruct (fromisoformat _).
  - apply iso_text_fraction.
  - apply iso_text_whole.
  - rewrite !parse_started_at_str by done.
    assert (iso_text "2025-11-06T21:27:08.123456789Z"
            = iso_text "2025-11-06T21:27:08.123456Z") as ->
      by (vm_compute; reflexivity).
    done.
  - intros Hlib. rewrite parse_started_at_str by done.
    assert (iso_text "2025-11-06T21:27:08.123456789Z"
            = "2025-11-06T21:27:08.123456") as ->
      by (vm_compute; reflexivity).
    rewrite Hlib. vm_compute; reflexivity.
  - intros Hlib. rewrite parse_started_at_str by done.
    assert (iso_text "2025-11-06T21:27:08.5+02:00"
            = "2025-11-06T21:27:08.5+02:0") as ->
      by (vm_compute; reflexivity).
    by rewrite Hlib.
  - intros Hr. rewrite <- Hsa. by destruct Hr as [-> | ->].
  - intros s Hs Hbad. rewrite <- Hsa, Hs.
    destruct s as [|a s']; [done|].
    unfold py_or, parse_started_at. simpl. by rewrite Hbad.
  - intros d'. rewrite started_at_of_dict. eauto.
Qed.

Lemma started_at_facts_witness :
  f_started_at Examples.healthy_web_facts = Qmake 1848077900183981 1048576.
Proof.
  pose proof (@started_at_facts ReferenceLib.lib Examples.healthy_web
                Examples.healthy_web_facts
                (JStr "2025-11-06T21:27:08.123456789Z")
                ltac:(vm_compute; reflexivity) ltac:(vm_compute; reflexivity))
    as (Hparsed & _).
  rewrite (Hparsed _ eq_refl ltac:(discriminate)).
  vm_compute; reflexivity.
Defined.

(** With the reference library the two texts of the example give the
    double nearest to 1762464428.123456, which is 1848077900183981/2^20. *)
Example started_at_nanoseconds :
  @parse_started_at ReferenceLib.lib (JStr "2025-11-06T21:27:08.123456789Z")
  = Some (Qmake 1848077900183981 1048576)
  ∧ @parse_started_at ReferenceLib.lib (JStr "2025-11-06T21:27:08.123456Z")
    = Some (Qmake 1848077900183981 1048576).
Proof. split; vm_compute; reflexivity. Qed.

(** The last microsecond of year 9999 is rounded up to the next second:
    253402300799.999999 has no double nearer than 253402300800. *)
Example started_at_rounds_to_double :
  @parse_started_at ReferenceLib.lib (JStr "9999-12-31T23:59:59.999999Z")
  = Some (inject_Z 253402300800)
  ∧ DateTime.epoch_micros (mk_datetime 9999 12 31 23 59 59 999999 (Some DateTime.utc))
    = Some 253402300799999999.
Proof. split; vm_compute; reflexivity. Qed.

(** The calendar arithmetic and the rounding on dates around the leap
    rules, before the epoch and at the ends of the range of [datetime]. *)
Example timestamp_vectors :
  let at_utc y m d hh mi ss us := mk_datetime y m d hh mi ss us (Some DateTime.utc) in
  DateTime.timestamp (at_utc 1970 1 1 0 0 0 0) = Some 0%Q
  ∧ DateTime.timestamp (at_utc 1969 12 31 23 59 59 0) = Some (inject_Z (-1))
  ∧ DateTime.timestamp (at_utc 2000 2 29 12 0 0 0) = Some (inject_Z 951825600)
  ∧ DateTime.epoch_micros (at_utc 2024 12 31 23 59 59 999999) = Some 1735689599999999
  ∧ DateTime.timestamp (at_utc 2024 12 31 23 59 59 999999)
    = Some (Qmake 1820002458009599 1048576)
  ∧ DateTime.timestamp (at_utc 1 1 1 0 0 0 0) = Some (inject_Z (-62135596800))
  ∧ DateTime.timestamp (at_utc 1900 3 1 0 0 0 0) = Some (inject_Z (-2203891200))
  ∧ DateTime.epoch_micros (at_utc 2100 3 1 0 0 0 1) = Some 4107542400000001
  ∧ DateTime.timestamp (at_utc 2100 3 1 0 0 0 1) = Some (Qmake 4307070379622401 1048576).
Proof. repeat split; vm_compute; reflexivity. Qed.

(** ** Timestamps that state an offset *)

Lemma parse_started_at_Z_suffix `{PyLib} (s : string) (k : nat) :
  s ≠ "" →
  parse_started_at (JStr (s +:+ PyStr.replicate k "Z")) = parse_started_at (JStr s).
Proof.
  intros Hs.
  assert (s +:+ PyStr.replicate k "Z" ≠ "") as Hne
    by (destruct s; [done | by rewrite append_cons]).
  rewrite !parse_started_at_str by done.
  assert (iso_text (s +:+ PyStr.replicate k "Z") = iso_text s) as ->
    by (unfold iso_text; by rewrite rstrip_replicate).
  done.
Qed.

Lemma prefix_take (n : nat) (s : string) : String.prefix (PyStr.take n s) s = true.
Proof.
  revert n. induction s as [|a s IH]; intros [|n]; simpl; try done.
  destruct (ascii_dec a a); [apply IH | done].
Qed.

(** The text handed to the library is the beginning of the input. *)
Lemma split_take_prefix (ch : ascii) (n : nat) (s h t : string) :
  PyStr.split_once ch s = Some (h, t) →
  String.prefix (h +:+ String ch (PyStr.take n t)) s = true.
Proof.
  revert h. induction s as [|c s IH]; intros h; simpl; [done|].
  destruct (Ascii.eqb_spec c ch) as [-> | Hne].
  - intros [= <- <-]. rewrite append_nil_l. simpl.
    destruct (ascii_dec ch ch); [apply prefix_take | done].
  - destruct (PyStr.split_once ch s) as [[h' t']|]; [|done].
    intros [= <- <-]. rewrite append_cons. simpl.
    destruct (ascii_dec c c); [by apply IH | done].
Qed.

Lemma prefix_refl (s : string) : String.prefix s s = true.
Proof. induction s as [|a s IH]; simpl; [done|]. by destruct (ascii_dec a a). Qed.

Lemma iso_text_prefix (s : string) :
  PyStr.startswith (PyStr.rstrip "Z" s) (iso_text s) = true.
Proof.
  unfold iso_text, PyStr.startswith.
  destruct (PyStr.contains "." _); [|apply prefix_refl].
  destruct (PyStr.split_once "." _) as [[h t]|] eqn:E; [|apply prefix_refl].
  by apply split_take_prefix.
Qed.

Lemma ends_with_drop (ch : ascii) (n : nat) (s : string) :
  PyStr.drop n s ≠ "" → PyStr.ends_with ch s = PyStr.ends_with ch (PyStr.drop n s).
Proof.
  revert s. induction n as [|n IH]; intros [|c s]; simpl; try done.
  intros Hne. rewrite <- IH by done.
  destruct s as [|c' s']; [by destruct n|done].
Qed.

Lemma digits_two (acc v : Z) (s r : string) :
  ReferenceLib.digits 2 acc s = Some (v, r) →
  ∃ a b, s = String a (String b r) ∧ is_Some (ReferenceLib.digit b).
Proof.
  destruct s as [|a [|b s']]; simpl.
  - done.
  - by destruct (ReferenceLib.digit a).
  - destruct (ReferenceLib.digit a) as [da|]; simpl; [|done].
    destruct (ReferenceLib.digit b) as [db|] eqn:Eb; simpl; [|done].
    intros [= _ <-]. exists a, b. split; [done|]. rewrite Eb. eauto.
Qed.

(** A text that ends in an offset does not end in [Z]. *)
Lemma offset_no_Z (t : string) (off : Z) :
  ReferenceLib.offset t = Some (Some off) → t ≠ "" ∧ PyStr.ends_with "Z" t = false.
Proof.
  destruct t as [|c t]; [done|]. intros Ho. split; [done|].
  revert Ho. unfold ReferenceLib.offset.
  destruct (if Ascii.eqb c "+" then _ else _) as [sign|];
    cbn -[ReferenceLib.digits PyStr.ends_with]; [|done].
  destruct (ReferenceLib.digits 2 0 t) as [[hh s1]|] eqn:E1;
    cbn -[ReferenceLib.digits PyStr.ends_with]; [|done].
  apply digits_two in E1 as (a1 & b1 & -> & _).
  destruct s1 as [|c1 s2]; cbn -[ReferenceLib.digits PyStr.ends_with]; [done|].
  destruct (Ascii.eqb c1 ":"); cbn -[ReferenceLib.digits PyStr.ends_with]; [|done].
  destruct (ReferenceLib.digits 2 0 s2) as [[mm s3]|] eqn:E2;
    cbn -[ReferenceLib.digits PyStr.ends_with]; [|done].
  apply digits_two in E2 as (a2 & b2 & -> & [d Hd]).
  destruct s3 as [|? ?]; cbn -[ReferenceLib.digits PyStr.ends_with]; [|done].
  intros _. simpl.
  destruct (Ascii.eqb_spec b2 "Z") as [-> | ]; [|done].
  by vm_compute in Hd.
Qed.

Lemma stated_offset_no_Z (s : string) (off : Z) :
  stated_offset s = Some off → s ≠ "" ∧ PyStr.ends_with "Z" s = false.
Proof.
  unfold stated_offset.
  destruct (ReferenceLib.offset _) as [[o|]|] eqn:E; [|done..].
  intros _. apply offset_no_Z in E as [Hne He].
  split; [by intros ->; destruct (String.length "" - 6)%nat|].
  by rewrite (ends_with_drop _ (String.length s - 6)).
Qed.

(** C10.  [s] ends in a numeric offset [off], and the text that the
    program hands to the library (which has lost that offset, whole or in
    part, when a fraction of seconds precedes it) parses to [dt].  Then
    [parse_started_at] returns the wall-clock reading of [dt] counted as
    UTC, as the nearest double, whereas the instant the timestamp denotes
    is that reading at the offset [off]: in microseconds since the epoch
    the two differ by exactly [off], and when the library did see the
    offset its own [timestamp] is the denoted instant.  What is handed
    over is a beginning of the input; trailing [Z]s, and what follows the
    sixth character after the dot, do not change the result. *)
Theorem offset_discarded `{PyLib} (s : string) (dt : datetime) (off : Z) :
  stated_offset s = Some off →
  fromisoformat (iso_text s) = Some dt →
  ∃ got actual,
    parse_started_at (JStr s) = Some got ∧
    DateTime.timestamp (DateTime.replace_tzinfo dt off) = Some actual ∧
    got = PyFloat.of_ratio (DateTime.wall_micros dt) 1000000 ∧
    actual = PyFloat.of_ratio (DateTime.wall_micros dt - off) 1000000 ∧
    DateTime.epoch_micros (DateTime.replace_tzinfo dt DateTime.utc)
    = Some (DateTime.wall_micros dt) ∧
    DateTime.epoch_micros (DateTime.replace_tzinfo dt off)
    = Some (DateTime.wall_micros dt - off) ∧
    (tzinfo dt = Some off → DateTime.timestamp dt = Some actual) ∧
    PyStr.startswith s (iso_text s) = true ∧
    (∀ k, parse_started_at (JStr (s +:+ PyStr.replicate k "Z")) = Some got) ∧
    (∀ head frac k,
       PyStr.contains "." head = false →
       PyStr.ends_with "Z" (head +:+ "." +:+ frac) = false →
       iso_text (head +:+ "." +:+ frac +:+ PyStr.replicate k "Z")
       = head +:+ "." +:+ PyStr.take 6 frac).
Proof.
  intros Hoff Hdt.
  apply stated_offset_no_Z in Hoff as [Hs HZ].
  exists (PyFloat.of_ratio (DateTime.wall_micros dt) 1000000),
         (PyFloat.of_ratio (DateTime.wall_micros dt - off) 1000000).
  assert (parse_started_at (JStr s)
          = Some (PyFloat.of_ratio (DateTime.wall_micros dt) 1000000))
    as Hp by (by rewrite parse_started_at_str, Hdt).
  assert (∀ tz, DateTime.epoch_micros (DateTime.replace_tzinfo dt tz)
                = Some (DateTime.wall_micros dt - tz)) as Hat by done.
  repeat apply conj.
  - done.
  - unfold DateTime.timestamp. by rewrite Hat.
  - done.
  - done.
  - rewrite Hat. unfold DateTime.utc. by rewrite Z.sub_0_r.
  - apply Hat.
  - intros Htz. unfold DateTime.timestamp, DateTime.epoch_micros. by rewrite Htz.
  - rewrite <- (rstrip_id "Z" s) at 1 by done. apply iso_text_prefix.
  - intros k. by rewrite parse_started_at_Z_suffix.
  - apply iso_text_fraction.
Qed.

Lemma offset_discarded_witness :
  (∃ got actual,
     @parse_started_at ReferenceLib.lib (JStr "2025-11-06T21:27:08+02:00") = Some got
     ∧ DateTime.timestamp (mk_datetime 2025 11 6 21 27 8 0 (Some 7200000000)) = Some actual
     ∧ got = inject_Z 1762464428 ∧ actual = inject_Z 1762457228)
  ∧ (∃ got actual,
       @parse_started_at ReferenceLib.lib (JStr "2025-11-06T21:27:08.123456789+02:00")
       = Some got
       ∧ DateTime.timestamp (mk_datetime 2025 11 6 21 27 8 123456 (Some 7200000000))
         = Some actual
       ∧ (got - actual == 7200)%Q).
Proof.
  split.
  - destruct (@offset_discarded ReferenceLib.lib "2025-11-06T21:27:08+02:00"
                (mk_datetime 2025 11 6 21 27 8 0 (Some 7200000000)) 7200000000
                ltac:(vm_compute; reflexivity) ltac:(vm_compute; reflexivity))
      as (got & actual & Hgot & Hactual & -> & -> & _).
    eexists _, _. split; [exact Hgot|]. split; [exact Hactual|].
    split; vm_compute; reflexivity.
  - destruct (@offset_discarded ReferenceLib.lib "2025-11-06T21:27:08.123456789+02:00"
                (mk_datetime 2025 11 6 21 27 8 123456 None) 7200000000
                ltac:(vm_compute; reflexivity) ltac:(vm_compute; reflexivity))
      as (got & actual & Hgot & Hactual & -> & -> & _).
    eexists _, _. split; [exact Hgot|]. split; [exact Hactual|].
    vm_compute; reflexivity.
Defined.

(** The example of the claim under the reference library: 21:27:08 at
    +02:00 is 19:27:08 UTC, second 1762457228, and the program reports
    1762464428.  With a fraction in front of it the offset never reaches
    the library. *)
Example started_at_with_offset :
  @parse_started_at ReferenceLib.lib (JStr "2025-11-06T21:27:08+02:00")
  = Some (inject_Z 1762464428)
  ∧ (dt ← ReferenceLib.parse_iso "2025-11-06T21:27:08+02:00"; DateTime.timestamp dt)
    = Some (inject_Z 1762457228)
  ∧ iso_text "2025-11-06T21:27:08.123456789+02:00" = "2025-11-06T21:27:08.123456"
  ∧ stated_offset "2025-11-06T21:27:08.123456789+02:00" = Some 7200000000.
Proof. repeat split; vm_compute; reflexivity. Qed.

(** ** Candidate endpoints *)

Section Candidates.

Lemma first_occurrences_elem (l : list string) (x : string) :
  x ∈ first_occurrences l ↔ x ∈ l.
Proof.
  induction l as [|y l IH]; simpl; [done|].
  rewrite !elem_of_cons, list_elem_of_filter, IH.
  destruct (decide (x = y)); tauto.
Qed.

Lemma first_occurrences_NoDup (l : list string) : NoDup (first_occurrences l).
Proof.
  induction l as [|y l IH]; simpl; [constructor|].
  apply NoDup_cons. split.
  - rewrite list_elem_of_filter. tauto.
  - by apply NoDup_filter.
Qed.

Lemma foldl_add_candidate (acc l : list string) :
  foldl add_candidate acc l
  = acc ++ filter (λ y, y ∉ acc) (first_occurrences l).
Proof.
  revert acc. induction l as [|x l IH]; intros acc; simpl.
  - by rewrite app_nil_r.
  - rewrite IH. unfold add_candidate. case_bool_decide as Hx.
    + rewrite filter_cons_False by tauto.
      rewrite list_filter_filter_l; [done|]. intros y Hy ->. done.
    + rewrite filter_cons_True by done.
      rewrite <- app_assoc. simpl. do 2 f_equal.
      rewrite list_filter_filter. apply list_filter_iff.
      intros y. rewrite elem_of_app, list_elem_of_singleton. tauto.
Qed.

Lemma candidates_first_occurrences (env_docker_host : string) (defaults : list string) :
  candidates env_docker_host defaults
  = first_occurrences (_canonical_unix_path <$> requested env_docker_host defaults)
    ++ ["from_env"].
Proof.
  unfold candidates, requested. f_equal.
  rewrite <- (foldl_fmap add_candidate _ defaults _canonical_unix_path).
  rewrite foldl_add_candidate.
  destruct (PyStr.truthy env_docker_host); simpl.
  - f_equal. apply list_filter_iff. intros y.
    rewrite list_elem_of_singleton. done.
  - generalize (first_occurrences (_canonical_unix_path <$> defaults)).
    intros l. induction l as [|y l IH]; [done|].
    rewrite filter_cons_True by apply not_elem_of_nil. by rewrite IH.
Qed.

Lemma canonical_http (url : string) :
  PyStr.startswith (PyStr.lower url) "http+docker://" = true
  ∨ PyStr.startswith (PyStr.lower url) "http+unix://" = true →
  _canonical_unix_path url = "unix:///var/run/docker.sock".
Proof.
  intros Hp. unfold _canonical_unix_path.
  destruct url as [|a url']; [by destruct Hp|].
  simpl negb. cbv iota.
  by destruct Hp as [-> | ->]; rewrite ?orb_true_r.
Qed.

Lemma canonical_npipe (url : string) :
  PyStr.startswith (PyStr.lower url) "npipe://" = true →
  _canonical_unix_path url = "npipe:////./pipe/docker_engine".
Proof.
  intros Hp. unfold _canonical_unix_path.
  destruct url as [|a url']; [done|].
  simpl negb. cbv iota. rewrite Hp.
  destruct (PyStr.startswith _ "http+docker://") eqn:Hd.
  { exfalso. revert Hp Hd. unfold PyStr.startswith. simpl.
    destruct (PyStr.lower_ascii a) as [[] [] [] [] [] [] [] []]; simpl; try done. }
  destruct (PyStr.startswith _ "http+unix://") eqn:Hu; [|done].
  exfalso. revert Hp Hu. unfold PyStr.startswith. simpl.
  destruct (PyStr.lower_ascii a) as [[] [] [] [] [] [] [] []]; simpl; done.
Qed.

End Candidates.

(** C6 (as amended).  The override, when set, and the defaults are
    normalised one by one and kept at their first occurrence, in order;
    any text that starts, letter case aside, with [http+docker://] or
    [http+unix://] becomes the local socket endpoint and any that starts
    with [npipe://] the named pipe; the sentinel [from_env] is then added
    at the end without a membership test, so the whole list is free of
    repetitions when no normalised candidate is that sentinel.  A list
    with [http+docker://local] and [http+unix://local] yields a single
    socket candidate. *)
Theorem candidates_normalized (env_docker_host : string) (defaults : list string) :
  let normal := _canonical_unix_path <$> requested env_docker_host defaults in
  candidates env_docker_host defaults = first_occurrences normal ++ ["from_env"] ∧
  NoDup (first_occurrences normal) ∧
  (∀ x, x ∈ first_occurrences normal ↔ x ∈ normal) ∧
  (∀ url,
     PyStr.startswith (PyStr.lower url) "http+docker://" = true
     ∨ PyStr.startswith (PyStr.lower url) "http+unix://" = true →
     _canonical_unix_path url = "unix:///var/run/docker.sock") ∧
  (∀ url,
     PyStr.startswith (PyStr.lower url) "npipe://" = true →
     _canonical_unix_path url = "npipe:////./pipe/docker_engine") ∧
  ("from_env" ∉ normal → NoDup (candidates env_docker_host defaults)) ∧
  candidates "http+docker://local" ["http+unix://local"]
  = ["unix:///var/run/docker.sock"; "from_env"].
Proof.
  intros normal. repeat apply conj.
  - apply candidates_first_occurrences.
  - apply first_occurrences_NoDup.
  - apply first_occurrences_elem.
  - apply canonical_http.
  - apply canonical_npipe.
  - intros Hs. rewrite candidates_first_occurrences. fold normal.
    apply NoDup_app. split; [apply first_occurrences_NoDup|]. split.
    + intros x Hx Hin. apply list_elem_of_singleton in Hin as ->.
      apply Hs. by apply first_occurrences_elem.
    + apply NoDup_singleton.
  - by vm_compute.
Qed.

Lemma candidates_normalized_witness :
  NoDup (candidates "HTTP+Docker://local"
           (DEFAULT_SOCKET_CANDIDATES None (Some 1000%N)))
  ∧ _canonical_unix_path "NPIPE://./pipe/other" = "npipe:////./pipe/docker_engine".
Proof.
  pose proof (candidates_normalized "HTTP+Docker://local"
                (DEFAULT_SOCKET_CANDIDATES None (Some 1000%N)))
    as (_ & _ & _ & _ & Hpipe & Hall & _).
  split.
  - apply Hall. apply (bool_decide_unpack _). vm_compute. exact I.
  - apply Hpipe. vm_compute. reflexivity.
Defined.

(** C6 as stated fails when [DOCKER_HOST] is the sentinel text itself: the
    list then holds [from_env] twice. *)
Lemma candidates_sentinel_twice :
  candidates "from_env" (DEFAULT_SOCKET_CANDIDATES None (Some 1000%N))
  = ["from_env"; "unix:///var/run/docker.sock";
     "unix:///run/user/1000/docker.sock"; "from_env"]
  ∧ ¬ NoDup (candidates "from_env" (DEFAULT_SOCKET_CANDIDATES None (Some 1000%N))).
Proof.
  assert (candidates "from_env" (DEFAULT_SOCKET_CANDIDATES None (Some 1000%N))
          = ["from_env"; "unix:///var/run/docker.sock";
             "unix:///run/user/1000/docker.sock"; "from_env"]) as E
    by (vm_compute; reflexivity).
  split; [exact E|]. rewrite E. intros [Hnotin _]%NoDup_cons.
  apply Hnotin. rewrite !elem_of_cons. tauto.
Qed.

(** ** Endpoint resolution *)

Section Resolution.
Variable w : Daemon.

Lemma dict_set_keys (d : list (string * string)) (b x : string) :
  (dict_set d b x).*1 = if bool_decide (b ∈ d.*1) then d.*1 else d.*1 ++ [b].
Proof.
  induction d as [|[k' v'] d IH]; [done|].
  cbn [dict_set]. destruct (String.eqb_spec k' b) as [-> | Hne].
  - rewrite !fmap_cons. cbn [fst].
    rewrite bool_decide_eq_true_2; [done | apply elem_of_cons; tauto].
  - rewrite !fmap_cons, IH. cbn [fst]. case_bool_decide as Hb.
    + rewrite bool_decide_eq_true_2; [done | apply elem_of_cons; tauto].
    + rewrite bool_decide_eq_false_2; [done|].
      rewrite elem_of_cons. intros [-> | ?]; tauto.
Qed.

Lemma dict_set_NoDup (d : list (string * string)) (b x : string) :
  NoDup d.*1 → NoDup (dict_set d b x).*1.
Proof.
  intros Hd. rewrite dict_set_keys. case_bool_decide as Hb; [done|].
  apply NoDup_app. split; [done|]. split; [|apply NoDup_singleton].
  intros k Hk ->%list_elem_of_singleton. done.
Qed.

Lemma dict_set_elem (d : list (string * string)) (b x k v : string) :
  NoDup d.*1 →
  (k, v) ∈ dict_set d b x ↔ (k = b ∧ v = x) ∨ (k ≠ b ∧ (k, v) ∈ d).
Proof.
  induction d as [|[k' v'] d IH]; cbn [dict_set]; intros Hd.
  - rewrite list_elem_of_singleton, elem_of_nil. split.
    + intros [= -> ->]. tauto.
    + intros [[-> ->] | [_ []]]. done.
  - rewrite fmap_cons in Hd. cbn [fst] in Hd.
    apply NoDup_cons in Hd as [Hk' Hd]. specialize (IH Hd).
    destruct (String.eqb_spec k' b) as [-> | Hne].
    + rewrite !elem_of_cons. split.
      * intros [[= -> ->] | Hin]; [tauto|]. right. split; [|tauto].
        intros ->. apply Hk'. apply list_elem_of_fmap. by exists (b, v).
      * intros [[-> ->] | [Hkb [[= -> ->] | Hin]]]; tauto.
    + rewrite !elem_of_cons, IH. split.
      * intros [[= -> ->] | [[-> ->] | [? ?]]]; tauto.
      * intros [[-> ->] | [Hkb [[= -> ->] | Hin]]]; tauto.
Qed.

Lemma dial_recorded (base : string) (a : Attempts) :
  reasons_recorded w a → reasons_recorded w (dial w base a).1.
Proof.
  intros [Hnd Hrec]. unfold dial.
  destruct (connect w base) as [cli | e] eqn:Hc; simpl; split; simpl.
  - done.
  - intros k v. rewrite Hrec, elem_of_app, list_elem_of_singleton. split.
    + intros [? ?]. tauto.
    + intros [[? | ->] (e & He & ->)]; [eauto | congruence].
  - by apply dict_set_NoDup.
  - intros k v. rewrite dict_set_elem by done.
    rewrite Hrec, elem_of_app, list_elem_of_singleton. split.
    + intros [[-> ->] | [Hne [Hk He]]]; [eauto | tauto].
    + intros [[Hk | ->] (e' & He' & ->)].
      * destruct (decide (k = base)) as [-> | Hne].
        -- left. split; [done|]. congruence.
        -- right. eauto.
      * left. split; [done|]. congruence.
Qed.

Lemma dial_dialled (base : string) (a : Attempts) :
  dialled (dial w base a).1 = dialled a ++ [base].
Proof. unfold dial. by destruct (connect w base). Qed.

Lemma dial_None (base : string) (a : Attempts) :
  (dial w base a).2 = None ↔ ∃ e, connect w base = Raise e.
Proof.
  unfold dial. destruct (connect w base); simpl; split; try done; eauto.
  intros (? & [=]).
Qed.

(** One step of the loop, whichever of the three branches is taken. *)
Lemma try_candidates_cons (base : string) (rest : list string) (a : Attempts) :
  try_candidates w (base :: rest) a =
    if skipped w base then try_candidates w rest a
    else match dial w base a with
         | (a', Some cli) =>
             (a', Some (cli, if String.eqb base "from_env"
                             then default "from_env" (api_base_url cli) else base))
         | (a', None) => try_candidates w rest a'
         end.
Proof.
  unfold skipped. simpl.
  destruct (String.eqb base "from_env"); simpl.
  - by destruct (dial w base a) as [a' [cli|]].
  - by destruct (PyStr.startswith base "unix://" && negb (_file_exists_for_unix w base)).
Qed.

Lemma try_candidates_recorded (bases : list string) (a : Attempts) :
  reasons_recorded w a → reasons_recorded w (try_candidates w bases a).1.
Proof.
  revert a. induction bases as [|base rest IH]; intros a Ha; [done|].
  rewrite try_candidates_cons. destruct (skipped w base); [by apply IH|].
  pose proof (dial_recorded base a Ha) as Hd.
  destruct (dial w base a) as [a' [cli|]]; simpl in *; [done | by apply IH].
Qed.

(** Only candidates that are not passed over are ever dialled. *)
Lemma try_candidates_dialled (bases : list string) (a : Attempts) (b : string) :
  b ∈ dialled (try_candidates w bases a).1 →
  b ∈ dialled a ∨ (b ∈ bases ∧ skipped w b = false).
Proof.
  revert a. induction bases as [|base rest IH]; intros a; [tauto|].
  rewrite try_candidates_cons. destruct (skipped w base) eqn:Hsk.
  - intros [? | [? ?]]%IH; [tauto|]. right. rewrite elem_of_cons. tauto.
  - pose proof (dial_dialled base a) as Hd.
    destruct (dial w base a) as [a' [cli|]]; simpl in *.
    + rewrite Hd, elem_of_app, list_elem_of_singleton, elem_of_cons.
      intros [? | ->]; tauto.
    + intros [Hb | [? ?]]%IH.
      * rewrite Hd, elem_of_app, list_elem_of_singleton in Hb.
        rewrite elem_of_cons. destruct Hb as [? | ->]; tauto.
      * right. rewrite elem_of_cons. tauto.
Qed.

(** When every candidate that is dialled raises, the loop runs to its
    end having dialled exactly the candidates it did not pass over. *)
Lemma try_candidates_exhausted (bases : list string) (a : Attempts) :
  (∀ b, b ∈ bases → skipped w b = false → ∃ e, connect w b = Raise e) →
  (try_candidates w bases a).2 = None ∧
  dialled (try_candidates w bases a).1
  = dialled a ++ filter (λ b, skipped w b = false) bases.
Proof.
  revert a. induction bases as [|base rest IH]; intros a Hall.
  - simpl. by rewrite app_nil_r.
  - assert (∀ b, b ∈ rest → skipped w b = false → ∃ e, connect w b = Raise e)
      as Hrest by (intros b Hb; apply Hall; apply elem_of_cons; tauto).
    rewrite try_candidates_cons. destruct (skipped w base) eqn:Hsk.
    + rewrite filter_cons_False by (rewrite Hsk; done). by apply IH.
    + rewrite filter_cons_True by done.
      pose proof (dial_dialled base a) as Hd.
      pose proof (proj2 (dial_None base a)
                    (Hall base ltac:(apply elem_of_cons; tauto) Hsk)) as Hn.
      destruct (dial w base a) as [a' [cli|]]; simpl in *; [done|].
      destruct (IH a' Hrest) as [-> ->]. by rewrite Hd, <- app_assoc.
Qed.

(** The loop comes back empty-handed only if every dial raised. *)
Lemma try_candidates_None (bases : list string) (a : Attempts) :
  (try_candidates w bases a).2 = None →
  (∀ b, b ∈ dialled a → ∃ e, connect w b = Raise e) →
  ∀ b, b ∈ dialled (try_candidates w bases a).1 → ∃ e, connect w b = Raise e.
Proof.
  revert a. induction bases as [|base rest IH]; intros a; [by simpl|].
  rewrite try_candidates_cons. destruct (skipped w base); [by apply IH|].
  pose proof (dial_dialled base a) as Hd.
  pose proof (dial_None base a) as Hn.
  destruct (dial w base a) as [a' [cli|]]; simpl in *; [done|].
  intros Hnone Ha. apply IH; [done|].
  intros b. rewrite Hd, elem_of_app, list_elem_of_singleton.
  intros [? | ->]; [by apply Ha | by apply Hn].
Qed.

End Resolution.

Lemma reasons_recorded_start (w : Daemon) :
  reasons_recorded w {| dialled := []; errors := [] |}.
Proof.
  split; simpl; [constructor|]. intros k v. rewrite !elem_of_nil. tauto.
Qed.

Lemma create_docker_client_unfold (env_docker_host : string)
    (defaults : list string) (w : Daemon) :
  let t := try_candidates w (candidates env_docker_host defaults)
             {| dialled := []; errors := [] |} in
  let r := create_docker_client env_docker_host defaults w in
  attempts r = t.1 ∧
  (t.2 = None → outcome r = Raise unreachable
                ∧ resolution_log r = tried_line <$> errors t.1) ∧
  (∀ e, outcome r = Raise e → t.2 = None ∧ e = unreachable).
Proof.
  unfold create_docker_client.
  destruct (try_candidates _ _ _) as [a [[cli used]|]]; simpl.
  - split; [done|]. split; [done|]. by intros e.
  - split; [done|]. split; [done|]. by intros e [= <-].
Qed.

(** C7 (as amended).  A candidate other than the sentinel that starts with
    [unix://] and whose path does not exist is passed over: the loop goes on
    as if it were not in the list, nothing is dialled and no reason is
    recorded for it.  If every candidate that is dialled raises, the
    resolution raises a [DockerException] with a fixed message, after one
    [Tried] line per recorded reason has been logged; the reasons recorded
    are exactly one per candidate dialled, that candidate's failure text.
    The exception itself holds the fixed message only. *)
Theorem resolution_failure (env_docker_host : string) (defaults : list string)
    (w : Daemon) :
  let r := create_docker_client env_docker_host defaults w in
  (∀ base rest a,
     base ≠ "from_env" → PyStr.startswith base "unix://" = true →
     _file_exists_for_unix w base = false →
     try_candidates w (base :: rest) a = try_candidates w rest a) ∧
  (∀ base, base ∈ dialled (attempts r) →
     base ∈ candidates env_docker_host defaults ∧ skipped w base = false) ∧
  ((∀ base, base ∈ candidates env_docker_host defaults → skipped w base = false →
      ∃ e, connect w base = Raise e) →
   outcome r = Raise unreachable ∧
   resolution_log r = tried_line <$> errors (attempts r) ∧
   dialled (attempts r)
   = filter (λ b, skipped w b = false) (candidates env_docker_host defaults) ∧
   NoDup (errors (attempts r)).*1 ∧
   ∀ k v, (k, v) ∈ errors (attempts r) ↔
          k ∈ dialled (attempts r) ∧ ∃ e, connect w k = Raise e ∧ v = str_exn e) ∧
  (∀ e, outcome r = Raise e →
     e = unreachable ∧
     ∀ base, base ∈ dialled (attempts r) → ∃ e', connect w base = Raise e').
Proof.
  intros r.
  destruct (create_docker_client_unfold env_docker_host defaults w)
    as (Hat & Hfail & Hraise).
  fold r in Hat, Hfail, Hraise.
  repeat apply conj.
  - intros base rest a Hne Hu Hex. rewrite try_candidates_cons.
    unfold skipped. rewrite Hu, Hex.
    by destruct (String.eqb_spec base "from_env").
  - intros base. rewrite Hat. intros [Hb | Hb]%try_candidates_dialled; [|done].
    by apply elem_of_nil in Hb.
  - intros Hall.
    destruct (try_candidates_exhausted w _ {| dialled := []; errors := [] |} Hall)
      as [Hnone Hd].
    destruct (Hfail Hnone) as [Ho Hl].
    destruct (try_candidates_recorded w (candidates env_docker_host defaults) _
                (reasons_recorded_start w)) as [Hnd Hrec].
    rewrite Hat. by repeat apply conj.
  - intros e He. destruct (Hraise e He) as [Hnone ->]. split; [done|].
    rewrite Hat. apply try_candidates_None; [done|].
    intros b Hb. by apply elem_of_nil in Hb.
Qed.

Lemma resolution_failure_witness :
  outcome (create_docker_client "unix:///tmp/none.sock" Examples.defaults_uid_1000
             (Examples.refusing "Connection refused")) = Raise unreachable
  ∧ resolution_log (create_docker_client "unix:///tmp/none.sock"
                      Examples.defaults_uid_1000
                      (Examples.refusing "Connection refused"))
    = ["[error] Tried unix:///var/run/docker.sock: Connection refused";
       "[error] Tried from_env: Connection refused"].
Proof.
  pose proof (resolution_failure "unix:///tmp/none.sock" Examples.defaults_uid_1000
                (Examples.refusing "Connection refused"))
    as (Hskip & _ & Hfail & _).
  destruct Hfail as (Hout & Hlog & _).
  { intros base _ _. exists (DockerException "Connection refused"). reflexivity. }
  split; [exact Hout|]. rewrite Hlog. vm_compute. reflexivity.
Defined.

(** C7 as stated fails: two hosts that turn the candidates down for
    different reasons make the resolution raise the very same exception, so
    the exception cannot be what carries the reasons. *)
Lemma unreachable_carries_no_reasons :
  let r1 := create_docker_client "" Examples.defaults_uid_1000
              (Examples.refusing "Connection refused") in
  let r2 := create_docker_client "" Examples.defaults_uid_1000
              (Examples.refusing "Permission denied") in
  outcome r1 = Raise unreachable ∧ outcome r2 = Raise unreachable ∧
  errors (attempts r1) ≠ errors (attempts r2) ∧
  ¬ ∃ carried : exn → list (string * string),
      ∀ env_docker_host defaults w e,
        outcome (create_docker_client env_docker_host defaults w) = Raise e →
        carried e = errors (attempts (create_docker_client env_docker_host defaults w)).
Proof.
  intros r1 r2.
  assert (outcome r1 = Raise unreachable) as H1 by (vm_compute; reflexivity).
  assert (outcome r2 = Raise unreachable) as H2 by (vm_compute; reflexivity).
  assert (errors (attempts r1) ≠ errors (attempts r2)) as Hne
    by (vm_compute; discriminate).
  repeat apply conj; try done.
  intros [carried Hc]. apply Hne.
  transitivity (carried unreachable);
    [symmetry; apply (Hc _ _ _ _ H1) | apply (Hc _ _ _ _ H2)].
Qed.

(** ** The reconnect loop *)

Section Backoff.
Context `{PyLib}.
Variable cfg : Config.

Lemma resolve_Raise (w : World) (e : exn) :
  outcome (resolve cfg w) = Raise e → e = unreachable.
Proof.
  unfold resolve. intros He.
  by destruct (create_docker_client_unfold (ENV_DOCKER_HOST cfg)
                 (default_candidates cfg) (daemon w)) as (_ & _ & [_ ->]%(λ h, h e He)).
Qed.

(** A disconnected iteration whose resolution fails. *)
Lemma step_resolution_fails (w : World) (s : Loop) :
  client s = None → resolution_fails cfg w →
  after (main_step cfg w s)
  = {| client := None; backoff := Qmin (backoff s * 2) 30; registry := registry s |}
  ∧ slept (main_step cfg w s) = Qmin (backoff s) 30.
Proof.
  intros Hc [e He]. pose proof (resolve_Raise w e He) as ->.
  unfold main_step, try_block. rewrite Hc, He. simpl. by rewrite ?Hc.
Qed.

(** A connected iteration whose listing raises a [DockerException]. *)
Lemma step_connection_lost (w : World) (s : Loop) (cli : Client) (m : string) :
  client s = Some cli → listing w = Raise (DockerException m) →
  after (main_step cfg w s)
  = {| client := None; backoff := Qmin (backoff s * 2) 30; registry := registry s |}
  ∧ slept (main_step cfg w s) = Qmin (backoff s) 30.
Proof.
  intros Hc Hl. unfold main_step, try_block, try_scrape, scrape_once.
  rewrite Hc, Hl. by simpl.
Qed.

(** An iteration that connects and loses the connection at once. *)
Lemma step_connect_then_lost (w : World) (s : Loop) (cli : Client) (used m : string) :
  client s = None → outcome (resolve cfg w) = Ok (cli, used) →
  listing w = Raise (DockerException m) →
  after (main_step cfg w s)
  = {| client := None; backoff := Qmin (1 * 2) 30; registry := registry s |}
  ∧ slept (main_step cfg w s) = Qmin 1 30.
Proof.
  intros Hc Ho Hl. unfold main_step, try_block, try_scrape, scrape_once.
  rewrite Hc, Ho, Hl. by simpl.
Qed.

(** An iteration that ends with a client has either kept the one it had,
    backoff untouched, or made one, backoff set to 1; it sleeps the
    interval. *)
Lemma step_connected (w : World) (s : Loop) (cli : Client) :
  client (after (main_step cfg w s)) = Some cli →
  slept (main_step cfg w s) = INTERVAL cfg ∧
  ((client s = Some cli ∧ backoff (after (main_step cfg w s)) = backoff s)
   ∨ (client s = None ∧ backoff (after (main_step cfg w s)) = 1%Q)).
Proof.
  unfold main_step, try_block, try_scrape, scrape_once.
  destruct (client s) as [cli0|] eqn:Hc.
  - destruct (listing w) as [cs | [m | m]]; simpl; rewrite ?Hc; simpl;
      try discriminate; intros [= <-]; tauto.
  - destruct (outcome (resolve cfg w)) as [[cli1 used] | e] eqn:Ho.
    + destruct (listing w) as [cs | [m | m]]; simpl;
        try discriminate; intros [= <-]; tauto.
    + pose proof (resolve_Raise w e Ho) as ->. simpl. rewrite ?Hc. discriminate.
Qed.

(** An iteration that ends without a client. *)
Lemma step_disconnected (w : World) (s : Loop) :
  client (after (main_step cfg w s)) = None →
  ∃ b, (b = backoff s ∨ b = 1%Q) ∧
       backoff (after (main_step cfg w s)) = Qmin (b * 2) 30.
Proof.
  unfold main_step, try_block, try_scrape, scrape_once.
  destruct (client s) as [cli0|] eqn:Hc.
  - destruct (listing w) as [cs | [m | m]]; simpl; rewrite ?Hc; simpl;
      try discriminate; eauto.
  - destruct (outcome (resolve cfg w)) as [[cli1 used] | e] eqn:Ho.
    + destruct (listing w) as [cs | [m | m]]; simpl; try discriminate; eauto.
    + pose proof (resolve_Raise w e Ho) as ->. simpl. rewrite ?Hc. eauto.
Qed.

Lemma run_snoc (ws : list World) (w : World) :
  run cfg (ws ++ [w]) = after (main_step cfg w (run cfg ws)).
Proof. unfold run. by rewrite foldl_snoc. Qed.

Lemma Qmin_double_bounds (b : Q) :
  (1 <= b)%Q → (1 <= Qmin (b * 2) 30 ∧ Qmin (b * 2) 30 <= 30)%Q.
Proof.
  intros Hb. split; [|apply Q.le_min_r].
  apply Q.min_glb; [|done].
  apply Qle_trans with (b * 1)%Q; [by rewrite Qmult_1_r|].
  rewrite !(Qmult_comm b). apply Qmult_le_compat_r; [done|].
  by apply Qle_trans with 1%Q.
Qed.

(** The backoff stays between its floor and its ceiling. *)
Lemma backoff_bounds (ws : list World) :
  (1 <= backoff (run cfg ws) ∧ backoff (run cfg ws) <= 30)%Q.
Proof.
  induction ws as [|w ws IH] using rev_ind; [done|].
  rewrite run_snoc.
  destruct (client (after (main_step cfg w (run cfg ws)))) as [cli|] eqn:Hc.
  - destruct (step_connected _ _ _ Hc) as [_ [[_ ->] | [_ ->]]]; done.
  - destruct (step_disconnected _ _ Hc) as (b & Hb & ->).
    apply Qmin_double_bounds. destruct Hb as [-> | ->]; [tauto | done].
Qed.

(** While a client is held the backoff is at its floor. *)
Lemma backoff_floor_when_connected (ws : list World) (cli : Client) :
  client (run cfg ws) = Some cli → backoff (run cfg ws) = 1%Q.
Proof.
  revert cli. induction ws as [|w ws IH] using rev_ind; intros cli; [done|].
  rewrite run_snoc. intros Hc.
  destruct (step_connected _ _ _ Hc) as [_ [[Hs ->] | [_ ->]]]; eauto.
Qed.

End Backoff.

(** C8, as the specification has it, fails for the resolution that fails
    right after a success.  A connection once made is only given up in an
    iteration whose pass raises a [DockerException]; that iteration sleeps
    the floor, 1, and doubles the backoff, so the resolution attempted
    next, if it fails, sleeps 2. *)
Lemma first_failed_resolution_sleeps_two :
  let s0 := @run ReferenceLib.lib Examples.cfg [Examples.up] in
  let i1 := @main_step ReferenceLib.lib Examples.cfg Examples.down s0 in
  let i2 := @main_step ReferenceLib.lib Examples.cfg Examples.down (after i1) in
  is_Some (client s0) ∧ backoff s0 = 1%Q ∧
  client (after i1) = None ∧ slept i1 = 1%Q ∧
  resolution_fails Examples.cfg Examples.down ∧
  slept i2 = 2%Q ∧ ¬ (slept i2 == 1)%Q.
Proof.
  cbv zeta. split; [vm_compute; eauto|].
  split; [vm_compute; reflexivity|]. split; [vm_compute; reflexivity|].
  split; [vm_compute; reflexivity|].
  split; [exists unreachable; vm_compute; reflexivity|].
  split; [vm_compute; reflexivity|]. by vm_compute.
Qed.

(** C8, amended.  In every state the loop can reach the backoff lies
    between 1 and 30.  A failed resolution sleeps the current backoff,
    never more than 30, and leaves [min(backoff * 2, 30)] behind, so of
    two failed resolutions in a row the second sleeps at least as long as
    the first, namely [min(first * 2, 30)].  Whenever an iteration ends
    with a client the backoff is 1, and the iteration in which that
    connection is then lost to a [DockerException] sleeps 1; the same
    holds when the connection is made and lost within one iteration.
    Losing the connection doubles the backoff as any failure does: the
    resolution that fails right after it sleeps 2, not 1, and leaves 4. *)
Theorem reconnect_backoff `{PyLib} (cfg : Config) (ws : list World) (w1 w2 w3 : World) :
  let s := run cfg ws in
  let i1 := main_step cfg w1 s in
  let i2 := main_step cfg w2 (after i1) in
  let i3 := main_step cfg w3 (after i2) in
  (1 <= backoff s ∧ backoff s <= 30)%Q ∧
  (client s = None → resolution_fails cfg w1 →
     client (after i1) = None ∧ (slept i1 == backoff s)%Q ∧ (slept i1 <= 30)%Q ∧
     backoff (after i1) = Qmin (backoff s * 2) 30) ∧
  (client s = None → resolution_fails cfg w1 → resolution_fails cfg w2 →
     (slept i1 <= slept i2)%Q ∧ (slept i2 <= 30)%Q ∧
     (slept i2 == Qmin (slept i1 * 2) 30)%Q) ∧
  (∀ cli, client (after i1) = Some cli →
     backoff (after i1) = 1%Q ∧
     ∀ m, listing w2 = Raise (DockerException m) →
          client (after i2) = None ∧ (slept i2 == 1)%Q) ∧
  (∀ cli used m,
     client s = None → outcome (resolve cfg w1) = Ok (cli, used) →
     listing w1 = Raise (DockerException m) →
     client (after i1) = None ∧ (slept i1 == 1)%Q) ∧
  (∀ cli m,
     client (after i1) = Some cli → listing w2 = Raise (DockerException m) →
     resolution_fails cfg w3 →
     (backoff (after i2) == 2)%Q ∧ client (after i3) = None ∧
     (slept i3 == 2)%Q ∧ (backoff (after i3) == 4)%Q) ∧
  (∀ cli used m,
     client s = None → outcome (resolve cfg w1) = Ok (cli, used) →
     listing w1 = Raise (DockerException m) → resolution_fails cfg w2 →
     client (after i2) = None ∧ (slept i2 == 2)%Q).
Proof.
  intros s i1 i2 i3.
  pose proof (backoff_bounds cfg ws) as [Hlo Hhi]. fold s in Hlo, Hhi.
  assert (∀ w, client s = None → resolution_fails cfg w →
               client (after (main_step cfg w s)) = None
               ∧ (slept (main_step cfg w s) == backoff s)%Q
               ∧ (slept (main_step cfg w s) <= 30)%Q
               ∧ backoff (after (main_step cfg w s)) = Qmin (backoff s * 2) 30)
    as Hfail.
  { intros w Hc Hf. destruct (step_resolution_fails cfg w s Hc Hf) as [-> ->].
    simpl. repeat apply conj; [done | by apply Q.min_l | apply Q.le_min_r | done]. }
  assert (∀ cli, client (after i1) = Some cli → backoff (after i1) = 1%Q) as Hfloor.
  { intros cli Hc1. unfold i1, s. rewrite <- run_snoc.
    apply backoff_floor_when_connected with cli. by rewrite run_snoc. }
  split; [done|]. split; [by apply Hfail|].
  split; [|split; [|split; [|split]]].
  - intros Hc Hf1 Hf2.
    destruct (Hfail w1 Hc Hf1) as (Hc1 & Hs1 & _ & Hb1). fold i1 in Hc1, Hs1, Hb1.
    destruct (step_resolution_fails cfg w2 (after i1) Hc1 Hf2) as [_ Hs2].
    fold i2 in Hs2. rewrite Hs2, Hb1.
    destruct (Qmin_double_bounds (backoff s) Hlo) as [_ Hcap].
    assert (Qmin (Qmin (backoff s * 2) 30) 30 == Qmin (backoff s * 2) 30)%Q
      as Hmin by (by apply Q.min_l).
    repeat apply conj.
    + rewrite Hmin, Hs1. apply Q.min_glb; [|done].
      apply Qle_trans with (backoff s * 1)%Q;
        [rewrite Qmult_1_r; apply Qle_refl|].
      rewrite !(Qmult_comm (backoff s)). apply Qmult_le_compat_r; [done|].
      by apply Qle_trans with 1%Q.
    + apply Q.le_min_r.
    + by rewrite Hmin, Hs1.
  - intros cli Hc1. split; [by apply Hfloor with cli|]. intros m Hl.
    destruct (step_connection_lost cfg w2 (after i1) cli m Hc1 Hl) as [Ha Hs].
    fold i2 in Ha, Hs. by rewrite Ha, Hs, (Hfloor cli).
  - intros cli used m Hc Ho Hl.
    destruct (step_connect_then_lost cfg w1 s cli used m Hc Ho Hl) as [Ha Hs].
    fold i1 in Ha, Hs. by rewrite Ha, Hs.
  - intros cli m Hc1 Hl Hf.
    destruct (step_connection_lost cfg w2 (after i1) cli m Hc1 Hl) as [Ha _].
    fold i2 in Ha. rewrite (Hfloor cli Hc1) in Ha.
    assert (client (after i2) = None) as Hc2 by (by rewrite Ha).
    destruct (step_resolution_fails cfg w3 (after i2) Hc2 Hf) as [Ha3 Hs3].
    fold i3 in Ha3, Hs3. rewrite Hs3, Ha3, Ha. by simpl.
  - intros cli used m Hc Ho Hl Hf.
    destruct (step_connect_then_lost cfg w1 s cli used m Hc Ho Hl) as [Ha _].
    fold i1 in Ha.
    assert (client (after i1) = None) as Hc1 by (by rewrite Ha).
    destruct (step_resolution_fails cfg w2 (after i1) Hc1 Hf) as [Ha2 Hs2].
    fold i2 in Ha2, Hs2. rewrite Hs2, Ha2, Ha. by simpl.
Qed.

Lemma reconnect_backoff_witness :
  let i1 := @main_step ReferenceLib.lib Examples.cfg Examples.down
              (@run ReferenceLib.lib Examples.cfg []) in
  let i2 := @main_step ReferenceLib.lib Examples.cfg Examples.down (after i1) in
  let j1 := @main_step ReferenceLib.lib Examples.cfg Examples.up
              (@run ReferenceLib.lib Examples.cfg [Examples.down; Examples.down]) in
  let j2 := @main_step ReferenceLib.lib Examples.cfg Examples.lost (after j1) in
  let j3 := @main_step ReferenceLib.lib Examples.cfg Examples.down (after j2) in
  ((slept i1 == 1)%Q ∧ (slept i2 == 2)%Q)
  ∧ (backoff (after j1) = 1%Q ∧ (slept j2 == 1)%Q)
  ∧ (slept j3 == 2)%Q.
Proof.
  intros i1 i2 j1 j2 j3.
  assert (resolution_fails Examples.cfg Examples.down) as Hdown
    by (exists unreachable; vm_compute; reflexivity).
  split; [|split].
  - pose proof (@reconnect_backoff ReferenceLib.lib Examples.cfg []
                  Examples.down Examples.down Examples.down)
      as (_ & Hone & Htwo & _).
    destruct (Hone eq_refl Hdown) as (_ & Hs1 & _).
    destruct (Htwo eq_refl Hdown Hdown) as (_ & _ & Hs2).
    fold i1 in Hs1, Hs2. fold i2 in Hs2.
    split; [exact Hs1|]. rewrite Hs2, Hs1. vm_compute. reflexivity.
  - pose proof (@reconnect_backoff ReferenceLib.lib Examples.cfg
                  [Examples.down; Examples.down] Examples.up Examples.lost Examples.down)
      as (_ & _ & _ & Hreset & _).
    destruct (Hreset {| api_base_url := Some "http+docker://localhost" |}
                ltac:(vm_compute; reflexivity)) as [Hb Hnext].
    split; [exact Hb|]. by destruct (Hnext "500 Server Error" eq_refl).
  - pose proof (@reconnect_backoff ReferenceLib.lib Examples.cfg
                  [Examples.down; Examples.down] Examples.up Examples.lost Examples.down)
      as (_ & _ & _ & _ & _ & Hafter & _).
    by destruct (Hafter {| api_base_url := Some "http+docker://localhost" |}
                   "500 Server Error" ltac:(vm_compute; reflexivity) eq_refl Hdown)
      as (_ & _ & Hs3 & _).
Defined.

(** ** The series registry *)

Section RegistryFacts.
Context `{Countable K}.

Lemma remove_stale_lookup (metric : gmap K Q) (last_set now_set : gset K) (k : K) :
  remove_stale metric last_set now_set !! k
  = if decide (k ∈ last_set ∖ now_set) then None else metric !! k.
Proof.
  unfold remove_stale. generalize (last_set ∖ now_set).
  apply (set_fold_ind_L
           (λ acc (X : gset K), acc !! k = if decide (k ∈ X) then None else metric !! k)).
  - by rewrite decide_False by apply not_elem_of_empty.
  - intros x X r Hx IH. destruct (decide (k = x)) as [-> | Hne].
    + rewrite lookup_delete_eq.
      by rewrite decide_True by (apply elem_of_union; left; by apply elem_of_singleton).
    + rewrite lookup_delete_ne by done. rewrite IH.
      destruct (decide (k ∈ X)).
      * by rewrite decide_True by (apply elem_of_union; by right).
      * rewrite decide_False; [done|].
        rewrite elem_of_union, elem_of_singleton. tauto.
Qed.

Lemma remove_stale_dom (metric : gmap K Q) (last_set now_set : gset K) :
  dom (remove_stale metric last_set now_set) = dom metric ∖ (last_set ∖ now_set).
Proof.
  apply set_eq. intros k.
  rewrite elem_of_difference, !elem_of_dom, remove_stale_lookup.
  destruct (decide (k ∈ last_set ∖ now_set)); split.
  - by intros [? [=]].
  - tauto.
  - tauto.
  - tauto.
Qed.

(** A gauge whose series were those of the last pass, grown by the tuples
    of this pass and then cleared of the stale ones, holds this pass's
    tuples and no other. *)
Lemma reconciled_dom (metric : gmap K Q) (last_set extra now_set : gset K) :
  dom metric = last_set ∪ now_set → extra ⊆ now_set →
  dom (remove_stale metric (last_set ∪ extra) now_set) = now_set.
Proof.
  intros Hd He. rewrite remove_stale_dom, Hd. apply set_eq. intros k.
  rewrite elem_of_difference, elem_of_difference, !elem_of_union.
  destruct (decide (k ∈ now_set)); [tauto|]. split; [|tauto].
  intros [[? | ?] Hn]; [|done]. exfalso. apply Hn. tauto.
Qed.

Lemma reconciled_dom_plain (metric : gmap K Q) (last_set now_set : gset K) :
  dom metric = last_set ∪ now_set →
  dom (remove_stale metric last_set now_set) = now_set.
Proof.
  intros Hd. rewrite <- (right_id_L ∅ (∪) last_set) at 1.
  apply reconciled_dom; [done | apply empty_subseteq].
Qed.

End RegistryFacts.

Lemma labels_of_cons (host : string) (f : Facts) (fs : list Facts) :
  labels_of host (f :: fs) = {[label_tuple host f]} ∪ labels_of host fs.
Proof. reflexivity. Qed.

Lemma rows_of_cons (host : string) (f : Facts) (fs : list Facts) :
  rows_of host (f :: fs)
  = rows (f_name f) (f_img f) (f_cid f) host ∪ rows_of host fs.
Proof. reflexivity. Qed.

(** What one container's writes add to the registry and to the locals. *)
Lemma publish_sets (host : string) (f : Facts) (R : Registry) (N : Now) :
  let R' := (publish host f (R, N)).1 in
  let N' := (publish host f (R, N)).2 in
  let t : gset labels4 := {[label_tuple host f]} in
  let r := rows (f_name f) (f_img f) (f_cid f) host in
  (dom (g_health R') = dom (g_health R) ∪ t ∧
   dom (g_running R') = dom (g_running R) ∪ t ∧
   dom (g_restart R') = dom (g_restart R) ∪ t ∧
   dom (g_started_at R') = dom (g_started_at R) ∪ t ∧
   dom (g_status R') = dom (g_status R) ∪ r) ∧
  (now_h N' = now_h N ∪ t ∧ now_rn N' = now_rn N ∪ t ∧
   now_rc N' = now_rc N ∪ t ∧ now_sa N' = now_sa N ∪ t ∧
   now_s N' = now_s N ∪ r) ∧
  (_last_h R' = _last_h R ∧ _last_rn R' = _last_rn R ∧
   _last_rc R' = _last_rc R ∧ _last_sa R' = _last_sa R ∧
   _last_s R' = _last_s R ∪ r).
Proof.
  cbn. rewrite !dom_insert_L.
  repeat apply conj; try done; try apply (comm_L (∪)).
  unfold rows. apply set_eq. intros x.
  rewrite !elem_of_union, !elem_of_singleton. tauto.
Qed.

(** The same for the writes of a whole pass. *)
Lemma publish_all_sets (host : string) (fs : list Facts) (R : Registry) (N : Now) :
  let R' := (publish_all host fs (R, N)).1 in
  let N' := (publish_all host fs (R, N)).2 in
  let t := labels_of host fs in
  let r := rows_of host fs in
  (dom (g_health R') = dom (g_health R) ∪ t ∧
   dom (g_running R') = dom (g_running R) ∪ t ∧
   dom (g_restart R') = dom (g_restart R) ∪ t ∧
   dom (g_started_at R') = dom (g_started_at R) ∪ t ∧
   dom (g_status R') = dom (g_status R) ∪ r) ∧
  (now_h N' = now_h N ∪ t ∧ now_rn N' = now_rn N ∪ t ∧
   now_rc N' = now_rc N ∪ t ∧ now_sa N' = now_sa N ∪ t ∧
   now_s N' = now_s N ∪ r) ∧
  (_last_h R' = _last_h R ∧ _last_rn R' = _last_rn R ∧
   _last_rc R' = _last_rc R ∧ _last_sa R' = _last_sa R ∧
   _last_s R' = _last_s R ∪ r).
Proof.
  revert R N. induction fs as [|f fs IH]; intros R N.
  - cbn. unfold labels_of, rows_of. cbn.
    rewrite !(right_id_L ∅ (∪)). tauto.
  - unfold publish_all. cbn [foldl]. fold (publish_all host fs (publish host f (R, N))).
    destruct (publish host f (R, N)) as [R1 N1] eqn:Hp.
    pose proof (publish_sets host f R N) as Hone. rewrite Hp in Hone. cbn in Hone.
    destruct Hone as ((h1 & h2 & h3 & h4 & h5) & (n1 & n2 & n3 & n4 & n5)
                      & (l1 & l2 & l3 & l4 & l5)).
    specialize (IH R1 N1). cbn zeta in IH.
    destruct IH as ((H1 & H2 & H3 & H4 & H5) & (M1 & M2 & M3 & M4 & M5)
                    & (L1 & L2 & L3 & L4 & L5)).
    cbn zeta. rewrite labels_of_cons, rows_of_cons.
    rewrite H1, H2, H3, H4, H5, M1, M2, M3, M4, M5, L1, L2, L3, L4, L5.
    rewrite h1, h2, h3, h4, h5, n1, n2, n3, n4, n5, l1, l2, l3, l4, l5.
    rewrite !(assoc_L (∪)). tauto.
Qed.

Section ScrapeFacts.
Context `{PyLib}.

Lemma processed_cons (c : Container) (cs : list Container) :
  processed (c :: cs)
  = match extract c with
    | Ok f => f :: processed cs
    | Raise _ => processed cs
    end.
Proof. unfold processed. cbn. by destruct (extract c). Qed.

Lemma warnings_cons (c : Container) (cs : list Container) :
  warnings (c :: cs)
  = match extract c with
    | Ok _ => warnings cs
    | Raise ce => warn_line c ce :: warnings cs
    end.
Proof. unfold warnings. cbn. by destruct (extract c). Qed.

(** The loop over the listing publishes the facts of the containers it
    could process and logs one line for each of the others. *)
Lemma scrape_loop (host : string) (cs : list Container)
    (RN : Registry * Now) (lg : list string) :
  foldl (scrape_container host) (RN, lg) cs
  = (publish_all host (processed cs) RN, lg ++ warnings cs).
Proof.
  revert RN lg. induction cs as [|c cs IH]; intros RN lg.
  - cbn. by rewrite app_nil_r.
  - cbn [foldl]. rewrite processed_cons, warnings_cons.
    unfold scrape_container at 2. destruct (extract c) as [f | ce].
    + by rewrite IH.
    + rewrite IH. by rewrite <- app_assoc.
Qed.

Lemma scrape_pass_eq (host : string) (cs : list Container) (R : Registry) :
  scrape_pass host cs R
  = (reconcile (publish_all host (processed cs) (R, empty_now)), warnings cs).
Proof. unfold scrape_pass. by rewrite scrape_loop. Qed.

(** A pass over a consistent registry leaves each gauge with exactly the
    tuples of the containers it processed, and the registry consistent. *)
Lemma scrape_pass_doms (host : string) (cs : list Container) (R : Registry) :
  consistent R →
  let R' := (scrape_pass host cs R).1 in
  dom (g_health R') = labels_of host (processed cs) ∧
  dom (g_running R') = labels_of host (processed cs) ∧
  dom (g_restart R') = labels_of host (processed cs) ∧
  dom (g_started_at R') = labels_of host (processed cs) ∧
  dom (g_status R') = rows_of host (processed cs) ∧
  consistent R'.
Proof.
  intros (c1 & c2 & c3 & c4 & c5). rewrite scrape_pass_eq. cbn [fst].
  pose proof (publish_all_sets host (processed cs) R empty_now) as Hall.
  destruct (publish_all host (processed cs) (R, empty_now)) as [R1 N1].
  cbn in Hall.
  destruct Hall as ((h1 & h2 & h3 & h4 & h5) & (n1 & n2 & n3 & n4 & n5)
                    & (l1 & l2 & l3 & l4 & l5)).
  rewrite (left_id_L ∅ (∪)) in n1. rewrite (left_id_L ∅ (∪)) in n2.
  rewrite (left_id_L ∅ (∪)) in n3. rewrite (left_id_L ∅ (∪)) in n4.
  rewrite (left_id_L ∅ (∪)) in n5.
  assert (dom (g_health (reconcile (R1, N1))) = labels_of host (processed cs)) as E1.
  { cbn. rewrite l1, n1. apply reconciled_dom_plain. by rewrite h1, c1. }
  assert (dom (g_running (reconcile (R1, N1))) = labels_of host (processed cs)) as E2.
  { cbn. rewrite l2, n2. apply reconciled_dom_plain. by rewrite h2, c3. }
  assert (dom (g_restart (reconcile (R1, N1))) = labels_of host (processed cs)) as E3.
  { cbn. rewrite l3, n3. apply reconciled_dom_plain. by rewrite h3, c4. }
  assert (dom (g_started_at (reconcile (R1, N1))) = labels_of host (processed cs)) as E4.
  { cbn. rewrite l4, n4. apply reconciled_dom_plain. by rewrite h4, c5. }
  assert (dom (g_status (reconcile (R1, N1))) = rows_of host (processed cs)) as E5.
  { cbn. rewrite l5, n5. apply reconciled_dom; [by rewrite h5, c2 | done]. }
  split; [done|]. split; [done|]. split; [done|]. split; [done|].
  split; [done|].
  unfold consistent. rewrite E1, E2, E3, E4, E5. cbn.
  by rewrite n1, n2, n3, n4, n5.
Qed.

Lemma initial_consistent : consistent initial_registry.
Proof. unfold consistent. cbn. by rewrite !dom_empty_L. Qed.

(** An iteration of [main] leaves the registry alone or runs one pass
    over it. *)
Lemma step_registry (cfg : Config) (w : World) (s : Loop) :
  registry (after (main_step cfg w s)) = registry s
  ∨ ∃ cs, listing w = Ok cs
          ∧ registry (after (main_step cfg w s))
            = (scrape_pass (hostname w) cs (registry s)).1.
Proof.
  unfold main_step, try_block, try_scrape, scrape_once.
  destruct (client s) as [cli0|].
  - destruct (listing w) as [cs | [m | m]]; cbn; eauto.
  - destruct (outcome (resolve cfg w)) as [[cli1 used] | [m | m]].
    + destruct (listing w) as [cs | [m | m]]; cbn; eauto.
    + cbn. eauto.
    + cbn. eauto.
Qed.

(** Every registry the loop can reach is consistent. *)
Lemma run_consistent (cfg : Config) (ws : list World) :
  consistent (registry (run cfg ws)).
Proof.
  induction ws as [|w ws IH] using rev_ind; [apply initial_consistent|].
  rewrite run_snoc.
  destruct (step_registry cfg w (run cfg ws)) as [-> | (cs & _ & ->)]; [done|].
  by apply scrape_pass_doms.
Qed.

End ScrapeFacts.

Section PublishedSets.
Context `{PyLib}.

Lemma processed_elem (cs : list Container) (f : Facts) :
  f ∈ processed cs ↔ ∃ c, c ∈ cs ∧ extract c = Ok f.
Proof.
  unfold processed. rewrite list_elem_of_omap. split.
  - intros (c & Hc & Hf). exists c. split; [done|].
    destruct (extract c); by simplify_eq.
  - intros (c & Hc & Hf). exists c. by rewrite Hf.
Qed.

Lemma rows_elem (container image cid host : string) (t : labels5) :
  t ∈ rows container image cid host
  ↔ ∃ cat, cat ∈ categories ∧ t = (container, image, cid, host, cat).
Proof.
  unfold rows, categories. rewrite !elem_of_union, !elem_of_singleton. split.
  - intros [[[-> | ->] | ->] | ->]; eexists; (split; [|done]);
      rewrite !elem_of_cons; tauto.
  - intros (cat & Hc & ->). rewrite !elem_of_cons, elem_of_nil in Hc.
    destruct Hc as [-> | [-> | [-> | [-> | []]]]]; tauto.
Qed.

Lemma labels_of_elem (host : string) (cs : list Container) (t : labels4) :
  t ∈ labels_of host (processed cs)
  ↔ ∃ c f, c ∈ cs ∧ extract c = Ok f ∧ t = label_tuple host f.
Proof.
  unfold labels_of. rewrite elem_of_list_to_set, list_elem_of_fmap. split.
  - intros (f & -> & (c & Hc & Hf)%processed_elem). eauto.
  - intros (c & f & Hc & Hf & ->). exists f. split; [done|].
    apply processed_elem. eauto.
Qed.

Lemma rows_of_facts (host : string) (fs : list Facts) (t : labels5) :
  t ∈ rows_of host fs
  ↔ ∃ f cat, f ∈ fs ∧ cat ∈ categories
             ∧ t = (f_name f, f_img f, f_cid f, host, cat).
Proof.
  unfold rows_of. rewrite elem_of_union_list. split.
  - intros (X & (f & -> & Hf)%list_elem_of_fmap & (cat & Hcat & ->)%rows_elem).
    exists f, cat. eauto.
  - intros (f & cat & Hf & Hcat & ->).
    exists (rows (f_name f) (f_img f) (f_cid f) host). split.
    + apply list_elem_of_fmap. exists f. eauto.
    + apply rows_elem. eauto.
Qed.

Lemma rows_of_elem (host : string) (cs : list Container) (t : labels5) :
  t ∈ rows_of host (processed cs)
  ↔ ∃ c f cat, c ∈ cs ∧ extract c = Ok f ∧ cat ∈ categories
               ∧ t = (f_name f, f_img f, f_cid f, host, cat).
Proof.
  rewrite rows_of_facts. split.
  - intros (f & cat & (c & Hc & Hf)%processed_elem & Hcat & ->).
    exists c, f, cat. eauto.
  - intros (c & f & cat & Hc & Hf & Hcat & ->).
    exists f, cat. split; [|done]. apply processed_elem. eauto.
Qed.

End PublishedSets.

(** C1.  Take any registry the loop can have reached and run one pass over
    a listing.  Afterwards each of the five gauges has a series for
    exactly the label tuples of the containers of that listing whose
    processing did not raise: the four plain gauges for the tuples
    [(name, image, id, host)], the one-hot gauge for those tuples extended
    by each of the four categories.  So a tuple that had a series before
    and is not among this pass's tuples has none after it, and a container
    whose processing raised contributes no tuple.  The [_last_*] sets are
    again the sets of published tuples. *)
Theorem published_label_sets `{PyLib} (cfg : Config) (ws : list World)
    (host : string) (containers : list Container) :
  let before := registry (run cfg ws) in
  let R := (scrape_pass host containers before).1 in
  let fs := processed containers in
  (dom (g_health R) = labels_of host fs ∧ dom (g_running R) = labels_of host fs ∧
   dom (g_restart R) = labels_of host fs ∧ dom (g_started_at R) = labels_of host fs ∧
   dom (g_status R) = rows_of host fs) ∧
  (∀ t, t ∈ labels_of host fs
        ↔ ∃ c f, c ∈ containers ∧ extract c = Ok f ∧ t = label_tuple host f) ∧
  (∀ t, t ∈ rows_of host fs
        ↔ ∃ c f cat, c ∈ containers ∧ extract c = Ok f ∧ cat ∈ categories
                     ∧ t = (f_name f, f_img f, f_cid f, host, cat)) ∧
  (∀ t, t ∉ labels_of host fs →
        (t ∉ dom (g_health R)) ∧ (t ∉ dom (g_running R)) ∧
        (t ∉ dom (g_restart R)) ∧ (t ∉ dom (g_started_at R))) ∧
  (∀ t, t ∉ rows_of host fs → t ∉ dom (g_status R)) ∧
  consistent R.
Proof.
  intros before R fs.
  destruct (scrape_pass_doms host containers before (run_consistent cfg ws))
    as (E1 & E2 & E3 & E4 & E5 & Hc).
  fold R in E1, E2, E3, E4, E5, Hc. fold fs in E1, E2, E3, E4, E5.
  split; [done|].
  split; [apply labels_of_elem|].
  split; [apply rows_of_elem|].
  split; [intros t Ht; by rewrite E1, E2, E3, E4|].
  split; [intros t Ht; by rewrite E5 | done].
Qed.

Lemma published_label_sets_witness :
  let before := registry (@run ReferenceLib.lib Examples.cfg [Examples.up]) in
  let R := (@scrape_pass ReferenceLib.lib "exporter-1" [Examples.broken] before).1 in
  ("web", "nginx:latest", "f00dfeed0001", "exporter-1") ∈ dom (g_health before)
  ∧ (("web", "nginx:latest", "f00dfeed0001", "exporter-1") ∉ dom (g_health R))
  ∧ dom (g_status R) = ∅.
Proof.
  intros before R.
  pose proof (@published_label_sets ReferenceLib.lib Examples.cfg [Examples.up]
                "exporter-1" [Examples.broken])
    as ((_ & _ & _ & _ & Hstatus) & _ & _ & Hstale & _).
  fold before in Hstale, Hstatus. fold R in Hstale, Hstatus.
  split; [apply (bool_decide_unpack _); vm_compute; exact I|].
  split; [|exact Hstatus].
  apply Hstale. apply (bool_decide_unpack _). vm_compute. exact I.
Defined.

(** ** The one-hot gauge *)

Section OneHot.

Lemma set_one_hot_row (container image cid host status_value s : string) (R : Registry) :
  s ∈ categories →
  g_status (set_one_hot container image cid host status_value R)
    !! (container, image, cid, host, s)
  = Some (one_hot_value s status_value).
Proof.
  unfold set_one_hot, categories. cbn [g_status foldl].
  rewrite !elem_of_cons, elem_of_nil.
  intros [-> | [-> | [-> | [-> | []]]]].
  - rewrite !lookup_insert_ne by (intros [=]). apply lookup_insert_eq.
  - rewrite !lookup_insert_ne by (intros [=]). apply lookup_insert_eq.
  - rewrite lookup_insert_ne by (intros [=]). apply lookup_insert_eq.
  - apply lookup_insert_eq.
Qed.

Lemma set_one_hot_other (container image cid host status_value : string)
    (R : Registry) (t : labels4) (s : string) :
  t ≠ (container, image, cid, host) →
  g_status (set_one_hot container image cid host status_value R) !! (t, s)
  = g_status R !! (t, s).
Proof.
  intros Hne. unfold set_one_hot, categories. cbn [g_status foldl].
  rewrite !lookup_insert_ne; [done | | | |]; intros [= ? ?]; by apply Hne.
Qed.

Lemma publish_all_snoc (host : string) (fs : list Facts) (f : Facts)
    (RN : Registry * Now) :
  publish_all host (fs ++ [f]) RN = publish host f (publish_all host fs RN).
Proof. unfold publish_all. by rewrite foldl_snoc. Qed.

Lemma publish_status (host : string) (f : Facts) (RN : Registry * Now) :
  g_status (publish host f RN).1
  = g_status (set_one_hot (f_name f) (f_img f) (f_cid f) host (f_status f) RN.1).
Proof. by destruct RN. Qed.

(** After the writes of a pass, the four rows of every identity written
    hold the one-hot code of the status written last for that identity. *)
Lemma publish_all_one_hot (host : string) (fs : list Facts) (RN : Registry * Now)
    (f : Facts) :
  f ∈ fs →
  ∃ f', f' ∈ fs ∧ label_tuple host f' = label_tuple host f ∧
        ∀ s, s ∈ categories →
             g_status (publish_all host fs RN).1 !! (label_tuple host f, s)
             = Some (one_hot_value s (f_status f')).
Proof.
  induction fs as [|f0 fs IH] using rev_ind; [by intros ?%elem_of_nil|].
  intros Hf. rewrite publish_all_snoc.
  destruct (decide (label_tuple host f0 = label_tuple host f)) as [He | Hne].
  - exists f0. split; [apply elem_of_app; right; by apply list_elem_of_singleton|].
    split; [done|]. intros s Hs. rewrite publish_status, <- He.
    by apply set_one_hot_row.
  - apply elem_of_app in Hf as [Hf | Hf%list_elem_of_singleton]; [|by subst].
    destruct (IH Hf) as (f' & Hf' & He' & Hrows).
    exists f'. split; [apply elem_of_app; by left|]. split; [done|].
    intros s Hs. rewrite publish_status, set_one_hot_other by done.
    by apply Hrows.
Qed.

Lemma one_hot_value_cases (s cat : string) :
  one_hot_value s cat = if decide (s = cat) then 1%Q else 0%Q.
Proof.
  unfold one_hot_value. destruct (String.eqb_spec s cat); by case_decide.
Qed.

Lemma one_hot_sum (cat : string) :
  cat ∈ categories →
  (one_hot_value "healthy" cat + one_hot_value "starting" cat
   + one_hot_value "unhealthy" cat + one_hot_value "none" cat == 1)%Q.
Proof.
  unfold categories. rewrite !elem_of_cons, elem_of_nil.
  intros [-> | [-> | [-> | [-> | []]]]]; by vm_compute.
Qed.

Lemma health_of_category (health : json) (sn : string * Q) :
  health_of health = Ok sn → sn.1 ∈ categories.
Proof.
  unfold health_of, categories, known_statuses.
  destruct (truthy health).
  - intros (hs & _ & (status & _ & [= <-])%bind_Ok)%bind_Ok. cbn.
    case_bool_decide as Hk; rewrite !elem_of_cons in *; tauto.
  - intros [= <-]. cbn. rewrite !elem_of_cons. tauto.
Qed.

End OneHot.

(** C3.  After a pass, whatever the registry was before it, every
    container of the listing that was processed without error has its four
    rows in the one-hot gauge; they hold the one-hot code of a category
    [cat], 1 in the row of [cat] and 0 in the three others, [cat] being the
    status derived for a processed container of that identity; and the four
    values add up to 1. *)
Theorem one_hot_invariant `{PyLib} (host : string) (containers : list Container)
    (before : Registry) (c : Container) (f : Facts) :
  c ∈ containers → extract c = Ok f →
  let R := (scrape_pass host containers before).1 in
  let row := λ s, g_status R !! (f_name f, f_img f, f_cid f, host, s) in
  ∃ cat,
    cat ∈ categories ∧
    (∀ s, s ∈ categories → row s = Some (if decide (s = cat) then 1%Q else 0%Q)) ∧
    (∃ c' f', c' ∈ containers ∧ extract c' = Ok f'
              ∧ label_tuple host f' = label_tuple host f ∧ cat = f_status f') ∧
    (default 0 (row "healthy") + default 0 (row "starting")
     + default 0 (row "unhealthy") + default 0 (row "none") == 1)%Q.
Proof.
  intros Hc Hf R row.
  assert (f ∈ processed containers) as Hp by (apply processed_elem; eauto).
  destruct (publish_all_one_hot host (processed containers) (before, empty_now) f Hp)
    as (f' & Hf' & Hid & Hrows).
  apply processed_elem in Hf' as (c' & Hc' & He').
  assert (f_status f' ∈ categories) as Hcat.
  { apply extract_Ok in He' as (? & ? & health & ? & sn & _ & _ & _ & _ & _ & _ & _
                                  & Hsn & _ & _ & _ & -> & _).
    by apply health_of_category with health. }
  assert (∀ s, s ∈ categories → row s = Some (one_hot_value s (f_status f'))) as Hrow.
  { intros s Hs. unfold row, R. rewrite scrape_pass_eq. cbn [fst].
    pose proof (publish_all_sets host (processed containers) before empty_now)
      as (_ & (_ & _ & _ & _ & Hnow) & _).
    specialize (Hrows s Hs). unfold label_tuple in Hrows.
    destruct (publish_all host (processed containers) (before, empty_now))
      as [R1 N1].
    cbn [fst snd] in Hnow, Hrows. cbn [reconcile g_status].
    rewrite remove_stale_lookup, decide_False; [done|].
    rewrite elem_of_difference, Hnow, elem_of_union, rows_of_facts.
    intros [_ Hn]. apply Hn. right. exists f, s. done. }
  exists (f_status f'). split; [done|]. split; [|split].
  - intros s Hs. by rewrite Hrow, one_hot_value_cases.
  - exists c', f'. done.
  - rewrite !Hrow by (unfold categories; rewrite !elem_of_cons; tauto).
    cbn [default]. by apply one_hot_sum.
Qed.

Lemma one_hot_invariant_witness :
  ∃ cat, cat ∈ categories ∧
    g_status (@scrape_pass ReferenceLib.lib "exporter-1"
                [Examples.broken; Examples.healthy_web] initial_registry).1
      !! ("web", "nginx:latest", "f00dfeed0001", "exporter-1", "healthy")
    = Some (if decide ("healthy" = cat) then 1%Q else 0%Q).
Proof.
  destruct (@one_hot_invariant ReferenceLib.lib "exporter-1"
              [Examples.broken; Examples.healthy_web] initial_registry
              Examples.healthy_web Examples.healthy_web_facts
              ltac:(repeat constructor)
              ltac:(vm_compute; reflexivity))
    as (cat & Hcat & Hrows & _).
  exists cat. split; [exact Hcat|].
  apply (Hrows "healthy"). apply (bool_decide_unpack _). vm_compute. exact I.
Defined.

(** The pass of the witness, evaluated: the row [healthy] holds 1 and the
    three others 0. *)
Example one_hot_rows_of_web :
  let R := (@scrape_pass ReferenceLib.lib "exporter-1"
              [Examples.broken; Examples.healthy_web] initial_registry).1 in
  (λ s, g_status R !! ("web", "nginx:latest", "f00dfeed0001", "exporter-1", s))
    <$> categories
  = [Some 1%Q; Some 0%Q; Some 0%Q; Some 0%Q].
Proof. vm_compute. reflexivity. Qed.

(** ** Failures of single containers *)

Section Isolation.
Context `{PyLib}.




End Isolation.



(** * Further properties of the code *)

(** ** Normalisation and the candidate list *)

Lemma canonical_cases (url : string) :
  (_canonical_unix_path url = "unix:///var/run/docker.sock"
   ∧ (PyStr.startswith (PyStr.lower url) "http+docker://" = true
      ∨ PyStr.startswith (PyStr.lower url) "http+unix://" = true))
  ∨ (_canonical_unix_path url = "npipe:////./pipe/docker_engine"
     ∧ PyStr.startswith (PyStr.lower url) "npipe://" = true)
  ∨ (_canonical_unix_path url = url
     ∧ PyStr.startswith (PyStr.lower url) "http+docker://" = false
     ∧ PyStr.startswith (PyStr.lower url) "http+unix://" = false
     ∧ PyStr.startswith (PyStr.lower url) "npipe://" = false).
Proof.
  unfold _canonical_unix_path. destruct url as [|a u].
  - right. right. by vm_compute.
  - simpl negb. cbv iota.
    destruct (PyStr.startswith _ "http+docker://") eqn:Hd; [by left; eauto|].
    destruct (PyStr.startswith _ "http+unix://") eqn:Hu; [by left; eauto|].
    simpl orb. cbv iota.
    destruct (PyStr.startswith _ "npipe://") eqn:Hn; [by right; left|].
    by right; right.
Qed.

(** X1.  Normalisation has three outcomes, the socket endpoint, the named
    pipe or the text itself, and applying it twice is applying it once. *)
Theorem canonical_idempotent (url : string) :
  _canonical_unix_path (_canonical_unix_path url) = _canonical_unix_path url
  ∧ (_canonical_unix_path url = "unix:///var/run/docker.sock"
     ∨ _canonical_unix_path url = "npipe:////./pipe/docker_engine"
     ∨ _canonical_unix_path url = url).
Proof.
  destruct (canonical_cases url) as [[E _] | [[E _] | [E _]]]; rewrite !E.
  - split; [by vm_compute | tauto].
  - split; [by vm_compute | tauto].
  - split; [done | tauto].
Qed.

Lemma prefix_split (p s : string) :
  String.prefix p s = true → ∃ rest, s = p +:+ rest.
Proof.
  revert s. induction p as [|a p IH]; intros s.
  - intros _. by exists s.
  - destruct s as [|b s]; simpl; [done|].
    destruct (ascii_dec a b) as [-> |]; [|done].
    intros [rest ->]%IH. by exists rest.
Qed.

Lemma startswith_append (p rest : string) :
  PyStr.startswith (p +:+ rest) p = true.
Proof.
  unfold PyStr.startswith. induction p as [|a p IH]; [by destruct rest|].
  rewrite append_cons. simpl. by destruct (ascii_dec a a).
Qed.

(** An endpoint that starts with [unix://] is left alone. *)
Lemma canonical_unix (url : string) :
  PyStr.startswith url "unix://" = true → _canonical_unix_path url = url.
Proof.
  intros [rest ->]%prefix_split.
  destruct (canonical_cases ("unix://" +:+ rest)) as [[_ [E | E]] | [[_ E] | [E _]]];
    [discriminate E | discriminate E | discriminate E | exact E].
Qed.

(** X2.  The default list built at import starts with the system socket
    and ends with the socket of user 1000; it has a third entry in between
    unless neither a runtime directory nor a user id is available; every
    entry starts with [unix://], and normalisation changes none of them. *)
Theorem default_candidates_shape (xdg : option string) (uid : option N) :
  let d := DEFAULT_SOCKET_CANDIDATES xdg uid in
  head d = Some "unix:///var/run/docker.sock" ∧
  last d = Some "unix:///run/user/1000/docker.sock" ∧
  (length d = 2%nat ∨ length d = 3%nat) ∧
  (length d = 2%nat ↔ PyStr.truthy (default "" xdg) = false ∧ uid = None) ∧
  Forall (λ c, PyStr.startswith c "unix://" = true ∧ _canonical_unix_path c = c) d.
Proof.
  unfold DEFAULT_SOCKET_CANDIDATES, list_insert_at.
  destruct (PyStr.truthy (default "" xdg)) eqn:Hx; [|destruct uid as [u|]]; cbn;
    (split; [done|]); (split; [done|]); (split; [tauto|]);
    (split; [|rewrite ?Forall_cons, Forall_nil; repeat split;
                first [reflexivity | apply startswith_append
                      | apply canonical_unix, startswith_append]]).
  - split; [done | by intros [? _]].
  - split; [done | by intros [_ ?]].
  - done.
Qed.

Lemma first_occurrences_length (l : list string) :
  (length (first_occurrences l) ≤ length l)%nat.
Proof.
  induction l as [|x l IH]; simpl; [done|].
  pose proof (length_filter (λ y, y ≠ x) (first_occurrences l)). lia.
Qed.

(** X3.  The candidate list always ends with the sentinel [from_env]; when
    an override is set its normal form comes first; besides the sentinel
    the list holds exactly the normal forms of the override and of the
    defaults, so it has between one entry and two more than there are
    defaults. *)
Theorem candidates_order (env_docker_host : string) (defaults : list string) :
  last (candidates env_docker_host defaults) = Some "from_env" ∧
  (PyStr.truthy env_docker_host = true →
   head (candidates env_docker_host defaults)
   = Some (_canonical_unix_path env_docker_host)) ∧
  (1 ≤ length (candidates env_docker_host defaults) ≤ length defaults + 2)%nat ∧
  (∀ c, c ∈ candidates env_docker_host defaults ↔
        c = "from_env"
        ∨ c ∈ _canonical_unix_path <$> requested env_docker_host defaults).
Proof.
  rewrite candidates_first_occurrences.
  split; [apply last_snoc|]. split; [|split].
  - intros Hs. unfold requested. by rewrite Hs.
  - rewrite length_app. cbn [length].
    pose proof (first_occurrences_length
                  (_canonical_unix_path <$> requested env_docker_host defaults)) as Hl.
    rewrite length_fmap in Hl.
    assert (length (requested env_docker_host defaults) ≤ length defaults + 1)%nat
      as Hr by (unfold requested; rewrite length_app;
                destruct (PyStr.truthy env_docker_host); cbn [length]; lia).
    lia.
  - intros c. rewrite elem_of_app, list_elem_of_singleton, first_occurrences_elem.
    tauto.
Qed.

Lemma candidates_order_witness :
  head (candidates "tcp://10.0.0.1:2375" Examples.defaults_uid_1000)
  = Some "tcp://10.0.0.1:2375".
Proof.
  pose proof (candidates_order "tcp://10.0.0.1:2375" Examples.defaults_uid_1000)
    as (_ & Hhead & _).
  rewrite (Hhead eq_refl). vm_compute. reflexivity.
Defined.

(** ** Successful resolution *)

Section FirstMatch.
Variable w : Daemon.

Lemma try_candidates_first (l1 l2 : list string) (base : string) (cli : Client)
    (a : Attempts) :
  (∀ b, b ∈ l1 → skipped w b = false → ∃ e, connect w b = Raise e) →
  skipped w base = false → connect w base = Ok cli →
  (try_candidates w (l1 ++ base :: l2) a).2 = Some (cli, base_used base cli) ∧
  dialled (try_candidates w (l1 ++ base :: l2) a).1
  = dialled a ++ filter (λ b, skipped w b = false) l1 ++ [base].
Proof.
  intros Hl1 Hb Hc. revert a. induction l1 as [|b l1 IH]; intros a.
  - cbn [app]. rewrite try_candidates_cons, Hb. unfold dial. rewrite Hc.
    by cbn.
  - assert (∀ b', b' ∈ l1 → skipped w b' = false → ∃ e, connect w b' = Raise e)
      as Hrest by (intros b' Hb'; apply Hl1; apply elem_of_cons; tauto).
    cbn [app]. rewrite try_candidates_cons.
    destruct (skipped w b) eqn:Hsk.
    + rewrite filter_cons_False by (rewrite Hsk; done). by apply IH.
    + rewrite filter_cons_True by done.
      destruct (Hl1 b ltac:(apply elem_of_cons; tauto) Hsk) as [e He].
      unfold dial. rewrite He.
      destruct (IH Hrest {| dialled := dialled a ++ [b];
                            errors := dict_set (errors a) b (str_exn e) |})
        as [-> ->].
      split; [done|]. cbn. by rewrite <- app_assoc.
Qed.

Lemma try_candidates_Some (bases : list string) (a : Attempts)
    (cli : Client) (used : string) :
  (try_candidates w bases a).2 = Some (cli, used) →
  ∃ base, base ∈ bases ∧ skipped w base = false ∧ connect w base = Ok cli.
Proof.
  revert a. induction bases as [|b bases IH]; intros a; [done|].
  rewrite try_candidates_cons. destruct (skipped w b) eqn:Hsk.
  - intros (base & ? & ? & ?)%IH. exists base. rewrite elem_of_cons. tauto.
  - unfold dial. destruct (connect w b) as [cli' | e] eqn:Hc; cbn.
    + intros [= <- _]. exists b. rewrite elem_of_cons. tauto.
    + intros (base & ? & ? & ?)%IH. exists base. rewrite elem_of_cons. tauto.
Qed.

Lemma try_candidates_finds (bases : list string) (a : Attempts) :
  (∃ base cli, base ∈ bases ∧ skipped w base = false ∧ connect w base = Ok cli) →
  ∃ cli used, (try_candidates w bases a).2 = Some (cli, used).
Proof.
  revert a. induction bases as [|b bases IH]; intros a.
  - by intros (? & ? & ?%elem_of_nil & _).
  - intros (base & cli & Hin & Hsk & Hc). rewrite try_candidates_cons.
    destruct (skipped w b) eqn:Hskb.
    + apply IH. exists base, cli. split; [|done].
      apply elem_of_cons in Hin as [-> | ?]; [congruence | done].
    + unfold dial. destruct (connect w b) as [cli' | e] eqn:Hcb; cbn; [eauto|].
      apply IH. exists base, cli. split; [|done].
      apply elem_of_cons in Hin as [-> | ?]; [congruence | done].
Qed.

End FirstMatch.

(** X4.  The first candidate, in list order, that is not passed over and
    whose connection works is the one returned: the candidates before it
    that were not passed over have been dialled in vain, it is dialled
    last, nothing after it is dialled, and the only line logged names the
    endpoint in use (the base URL of the client for the sentinel, the
    candidate itself otherwise). *)
Theorem first_working_candidate_wins (env_docker_host : string)
    (defaults : list string) (w : Daemon)
    (l1 l2 : list string) (base : string) (cli : Client) :
  candidates env_docker_host defaults = l1 ++ base :: l2 →
  (∀ b, b ∈ l1 → skipped w b = false → ∃ e, connect w b = Raise e) →
  skipped w base = false → connect w base = Ok cli →
  let r := create_docker_client env_docker_host defaults w in
  outcome r = Ok (cli, base_used base cli) ∧
  resolution_log r = ["[info] Connected to Docker via " +:+ base_used base cli] ∧
  dialled (attempts r) = filter (λ b, skipped w b = false) l1 ++ [base].
Proof.
  intros Hcs Hl1 Hsk Hc.
  destruct (try_candidates_first w l1 l2 base cli
              {| dialled := []; errors := [] |} Hl1 Hsk Hc) as [H2 Hd].
  unfold create_docker_client. rewrite Hcs.
  destruct (try_candidates w (l1 ++ base :: l2) _) as [a [[cli' used]|]];
    cbn in *; [|done].
  by injection H2 as -> ->.
Qed.

Lemma first_working_candidate_wins_witness :
  outcome (create_docker_client "" Examples.defaults_uid_1000 Examples.accepting)
  = Ok ({| api_base_url := Some "http+docker://localhost" |},
        "unix:///var/run/docker.sock")
  ∧ dialled (attempts (create_docker_client "" Examples.defaults_uid_1000
                         Examples.accepting))
    = ["unix:///var/run/docker.sock"].
Proof.
  destruct (first_working_candidate_wins "" Examples.defaults_uid_1000
              Examples.accepting []
              ["unix:///run/user/1000/docker.sock"; "from_env"]
              "unix:///var/run/docker.sock"
              {| api_base_url := Some "http+docker://localhost" |}
              ltac:(vm_compute; reflexivity)
              ltac:(intros b Hb; by apply elem_of_nil in Hb)
              ltac:(vm_compute; reflexivity) eq_refl)
    as (Ho & _ & Hd).
  split; [exact Ho | exact Hd].
Defined.

(** X5.  Resolution succeeds exactly when some candidate that is not
    passed over accepts the connection. *)
Theorem resolution_succeeds_iff (env_docker_host : string) (defaults : list string)
    (w : Daemon) :
  (∃ cli used, outcome (create_docker_client env_docker_host defaults w) = Ok (cli, used))
  ↔ ∃ base cli, base ∈ candidates env_docker_host defaults
                ∧ skipped w base = false ∧ connect w base = Ok cli.
Proof.
  unfold create_docker_client. split.
  - intros (cli & used & Ho).
    destruct (try_candidates w _ _) as [a [[cli' used']|]] eqn:Ht; [|done].
    cbn in Ho. injection Ho as -> ->.
    destruct (try_candidates_Some w _ _ cli used (f_equal snd Ht))
      as (base & ? & ? & ?).
    by exists base, cli.
  - intros Hex.
    destruct (try_candidates_finds w _ {| dialled := []; errors := [] |} Hex)
      as (cli & used & Hs).
    destruct (try_candidates w _ _) as [a [[cli' used']|]]; [|done].
    cbn. eauto.
Qed.

(** ** The gauge operations *)

Lemma one_hot_zero (s status_value : string) :
  s ≠ status_value → one_hot_value s status_value = 0%Q.
Proof. intros Hne. rewrite one_hot_value_cases. by case_decide. Qed.

(** X6.  [set_one_hot] writes the four rows of the identity it is given,
    1 in the row named by the status and 0 in the others, so their sum is 1
    when the status is one of the four categories and 0 when it is not; the
    rows of every other identity and the four plain gauges are left as they
    were, and the rows written are added to [_last_s]. *)
Theorem set_one_hot_contract (container image cid host status_value : string)
    (R : Registry) :
  let R' := set_one_hot container image cid host status_value R in
  let row := λ s, g_status R' !! (container, image, cid, host, s) in
  (∀ s, s ∈ categories →
        row s = Some (if decide (s = status_value) then 1%Q else 0%Q)) ∧
  (default 0 (row "healthy") + default 0 (row "starting")
   + default 0 (row "unhealthy") + default 0 (row "none")
   == if bool_decide (status_value ∈ categories) then 1 else 0)%Q ∧
  (∀ t s, t ≠ (container, image, cid, host) →
          g_status R' !! (t, s) = g_status R !! (t, s)) ∧
  _last_s R' = _last_s R ∪ rows container image cid host ∧
  g_health R' = g_health R ∧ g_running R' = g_running R ∧
  g_restart R' = g_restart R ∧ g_started_at R' = g_started_at R.
Proof.
  intros R' row.
  assert (∀ s, s ∈ categories → row s = Some (one_hot_value s status_value))
    as Hrow by (intros s Hs; by apply set_one_hot_row).
  split; [|split; [|split]].
  - intros s Hs. by rewrite Hrow, one_hot_value_cases.
  - rewrite !Hrow by (unfold categories; rewrite !elem_of_cons; tauto).
    cbn [default]. case_bool_decide as Hc; [by apply one_hot_sum|].
    rewrite !one_hot_zero; [done | | | |]; intros <-; apply Hc;
      unfold categories; rewrite !elem_of_cons; tauto.
  - intros t s Hne. by apply set_one_hot_other.
  - done.
Qed.

Lemma set_one_hot_contract_witness :
  g_status (set_one_hot "web" "nginx:latest" "f00dfeed0001" "exporter-1" "starting"
              initial_registry)
    !! ("web", "nginx:latest", "f00dfeed0001", "exporter-1", "starting")
  = Some 1%Q.
Proof.
  pose proof (set_one_hot_contract "web" "nginx:latest" "f00dfeed0001" "exporter-1"
                "starting" initial_registry) as (Hrows & _).
  rewrite (Hrows "starting" ltac:(apply (bool_decide_unpack _); vm_compute; exact I)).
  reflexivity.
Defined.

(** X7.  Removing the stale series deletes exactly the tuples of the last
    pass that this pass did not produce and leaves the value of every other
    tuple as it was; a stale tuple that the gauge no longer has is passed
    over, and doing the removal again changes nothing. *)
Theorem remove_stale_exact `{Countable K} (metric : gmap K Q) (last_set now_set : gset K) :
  (∀ k, k ∈ last_set → k ∉ now_set →
        remove_stale metric last_set now_set !! k = None) ∧
  (∀ k, k ∉ last_set ∨ k ∈ now_set →
        remove_stale metric last_set now_set !! k = metric !! k) ∧
  dom (remove_stale metric last_set now_set) = dom metric ∖ (last_set ∖ now_set) ∧
  remove_stale (remove_stale metric last_set now_set) last_set now_set
  = remove_stale metric last_set now_set.
Proof.
  split; [|split; [|split]].
  - intros k Hl Hn. rewrite remove_stale_lookup, decide_True; [done|].
    by apply elem_of_difference.
  - intros k Hk. rewrite remove_stale_lookup, decide_False; [done|].
    rewrite elem_of_difference. tauto.
  - apply remove_stale_dom.
  - apply map_eq. intros k. rewrite !remove_stale_lookup.
    by destruct (decide (k ∈ last_set ∖ now_set)).
Qed.

Lemma remove_stale_exact_witness :
  remove_stale (<[2%positive := 1%Q]> (<[1%positive := 0%Q]> ∅))
               ({[1%positive; 3%positive]} : gset positive) {[2%positive]}
    !! 1%positive = None
  ∧ remove_stale (<[2%positive := 1%Q]> (<[1%positive := 0%Q]> ∅))
                 ({[1%positive; 3%positive]} : gset positive) {[2%positive]}
      !! 2%positive = Some 1%Q.
Proof.
  pose proof (remove_stale_exact (<[2%positive := 1%Q]> (<[1%positive := 0%Q]> ∅))
                ({[1%positive; 3%positive]} : gset positive) {[2%positive]})
    as (Hgone & Hkept & _).
  split.
  - apply Hgone; apply (bool_decide_unpack _); vm_compute; exact I.
  - rewrite Hkept; [reflexivity|]. right.
    apply (bool_decide_unpack _). vm_compute. exact I.
Defined.

(** ** What the extraction yields, and when *)

Lemma health_of_pairs (health : json) (sn : string * Q) :
  health_of health = Ok sn →
  sn ∈ [("healthy", 1%Q); ("starting", (1 # 2)%Q); ("unhealthy", 0%Q);
        ("none", 0%Q); ("none", 1%Q)].
Proof.
  unfold health_of. destruct (truthy health).
  - intros (hs & _ & (status & _ & [= <-])%bind_Ok)%bind_Ok.
    case_bool_decide as Hk.
    + unfold known_statuses in Hk. rewrite !elem_of_cons, elem_of_nil in Hk.
      destruct Hk as [-> | [-> | [-> | []]]]; rewrite !elem_of_cons; tauto.
    + rewrite status_to_num_unknown by done. rewrite !elem_of_cons. tauto.
  - intros [= <-]. rewrite !elem_of_cons. tauto.
Qed.

Lemma image_label_not_empty (i : option Image) : image_label i ≠ "".
Proof.
  unfold image_label.
  destruct (match i with
            | Some im => match tags im with t :: _ => t | [] => image_short_id im end
            | None => "unknown"
            end); done.
Qed.

(** X8.  The facts derived for a container go together: the category and
    the score are one of the five pairs (healthy, 1), (starting, 1/2),
    (unhealthy, 0), (none, 0), (none, 1); the running value is 0 or 1; the
    image label is never empty; the name and the id are the container's. *)
Theorem facts_well_formed `{PyLib} (c : Container) (f : Facts) :
  extract c = Ok f →
  (f_status f, f_num f)
    ∈ [("healthy", 1%Q); ("starting", (1 # 2)%Q); ("unhealthy", 0%Q);
       ("none", 0%Q); ("none", 1%Q)] ∧
  (f_running f = 0%Q ∨ f_running f = 1%Q) ∧
  f_img f ≠ "" ∧
  name c = Some (f_name f) ∧ f_cid f = short_id c.
Proof.
  intros (im & nm & health & rn & [st num] & _ & _ & Hn & _ & _ & _ & _ & Hh
          & Hname & Himg & Hcid & Hst & Hnum & Hrun)%extract_Ok.
  cbn in Hst, Hnum. rewrite Hst, Hnum, Hrun, Himg, Hname.
  split; [by apply health_of_pairs with health|].
  split; [destruct (truthy rn); tauto|].
  split; [apply image_label_not_empty | done].
Qed.

Lemma facts_well_formed_witness :
  (f_status Examples.healthy_web_facts, f_num Examples.healthy_web_facts)
    ∈ [("healthy", 1%Q); ("starting", (1 # 2)%Q); ("unhealthy", 0%Q);
       ("none", 0%Q); ("none", 1%Q)].
Proof.
  apply (@facts_well_formed ReferenceLib.lib Examples.healthy_web
           Examples.healthy_web_facts ltac:(vm_compute; reflexivity)).
Defined.

Lemma health_of_succeeds (health : json) :
  (∃ sn, health_of health = Ok sn) ↔
  truthy health = false
  ∨ ∃ hd, health = JDict hd
          ∧ (truthy (dict_get hd "Status") = false
             ∨ ∃ s, dict_get hd "Status" = JStr s).
Proof.
  unfold health_of. destruct (truthy health) eqn:Ht; [|split; eauto].
  split.
  - intros (sn & (hs & (hd & -> & ->)%py_get_Ok
                  & (status & Hl & _)%bind_Ok)%bind_Ok).
    right. exists hd. split; [done|]. unfold py_or in Hl.
    destruct (truthy (dict_get hd "Status")) eqn:Hs; [|tauto].
    right. destruct (dict_get hd "Status"); try discriminate Hl. eauto.
  - intros [[=] | (hd & -> & Hs)]. cbn [py_get bind]. unfold py_or.
    destruct Hs as [-> | (s & ->)]; [cbn; eauto|].
    destruct (truthy (JStr s)); cbn; eauto.
Qed.

Lemma restart_count_of_total `{PyLib} (a d : list (string * json)) :
  ∃ q, restart_count_of a (JDict d) = Ok q.
Proof.
  unfold restart_count_of. destruct (dict_get a "RestartCount"); cbn; eauto.
Qed.

(** X9.  Processing a container raises nothing exactly when the reload
    works, the image and the name can be read, the state is an object (or
    is missing or falsy, which counts as the empty object), and the health
    field is falsy or is an object whose status is falsy or a string.
    Restart count and start time never make it raise. *)
Theorem extract_succeeds_iff `{PyLib} (c : Container) :
  (∃ f, extract c = Ok f) ↔
  reload c = None ∧ (∃ im, image c = Ok im) ∧ (∃ n, name c = Some n) ∧
  ∃ d, state_of c = JDict d
       ∧ (truthy (dict_get d "Health") = false
          ∨ ∃ hd, dict_get d "Health" = JDict hd
                  ∧ (truthy (dict_get hd "Status") = false
                     ∨ ∃ s, dict_get hd "Status" = JStr s)).
Proof.
  split.
  - intros (f & (im & nm & health & rn & sn & Hre & Him & Hn & Hh & _ & _ & _
                 & Hsn & _)%extract_Ok).
    apply py_get_Ok in Hh as (d & Hd & ->).
    split; [done|]. split; [eauto|]. split; [eauto|].
    exists d. split; [done|]. apply health_of_succeeds. eauto.
  - intros (Hre & (im & Him) & (n & Hn) & d & Hd & Hh).
    apply health_of_succeeds in Hh as (sn & Hsn).
    destruct (restart_count_of_total (attrs c) d) as (q & Hq).
    unfold extract. rewrite Hre, Him, Hn, Hd. cbn [bind py_get].
    rewrite Hq, started_at_of_dict, Hsn. cbn [bind]. eauto.
Qed.

(** ** A pass as a map transformation *)

Section PassMaps.
Context `{Countable K}.

(** Writes followed by the removal of stale tuples, on a gauge whose
    tuples were those of the last pass: what is left is what was written. *)
Lemma reconciled_map (W g : gmap K Q) (last_set extra now_set : gset K) :
  dom W = now_set → dom g = last_set → extra ⊆ now_set →
  remove_stale (W ∪ g) (last_set ∪ extra) now_set = W.
Proof.
  intros HW Hg He. apply map_eq. intros k.
  rewrite remove_stale_lookup, lookup_union.
  destruct (W !! k) as [v|] eqn:Hk.
  - rewrite decide_False; [by destruct (g !! k)|].
    rewrite elem_of_difference. intros [_ Hn]. apply Hn.
    rewrite <- HW. apply elem_of_dom. eauto.
  - case_decide as Hd; [done|].
    destruct (g !! k) as [v|] eqn:Hgk; [|done].
    exfalso. apply Hd. rewrite elem_of_difference, elem_of_union. split.
    + left. rewrite <- Hg. apply elem_of_dom. eauto.
    + rewrite <- HW. by apply not_elem_of_dom.
Qed.

(** The same writes and removal done a second time change nothing. *)
Lemma reconciled_again (W g : gmap K Q) (last_set last_set' now_set : gset K) :
  dom W = now_set → last_set' ⊆ now_set →
  remove_stale (W ∪ remove_stale (W ∪ g) last_set now_set) last_set' now_set
  = remove_stale (W ∪ g) last_set now_set.
Proof.
  intros HW Hl. apply map_eq. intros k.
  rewrite (remove_stale_lookup _ last_set' now_set).
  rewrite decide_False
    by (rewrite elem_of_difference; intros [Hin Hout]; apply Hout;
        revert Hin; apply (proj1 (elem_of_subseteq _ _) Hl)).
  rewrite lookup_union, remove_stale_lookup, lookup_union.
  destruct (W !! k) as [v|] eqn:Hk; [|by destruct (if decide _ then _ else _)].
  rewrite decide_False; [by destruct (g !! k)|].
  rewrite elem_of_difference. intros [_ Hn]. apply Hn.
  rewrite <- HW. apply elem_of_dom. eauto.
Qed.

End PassMaps.

Lemma registry_eq (R1 R2 : Registry) :
  g_health R1 = g_health R2 → g_status R1 = g_status R2 →
  g_running R1 = g_running R2 → g_restart R1 = g_restart R2 →
  g_started_at R1 = g_started_at R2 →
  _last_h R1 = _last_h R2 → _last_s R1 = _last_s R2 →
  _last_rn R1 = _last_rn R2 → _last_rc R1 = _last_rc R2 →
  _last_sa R1 = _last_sa R2 → R1 = R2.
Proof. destruct R1, R2. cbn. by intros -> -> -> -> -> -> -> -> -> ->. Qed.

Lemma series_snoc (host : string) (get : Facts → Q) (fs : list Facts) (f : Facts) :
  series host get (fs ++ [f]) = <[label_tuple host f := get f]> (series host get fs).
Proof. unfold series. by rewrite foldl_snoc. Qed.

Lemma status_series_snoc (host : string) (fs : list Facts) (f : Facts) :
  status_series host (fs ++ [f]) = one_hot_writes host (status_series host fs) f.
Proof. unfold status_series. by rewrite foldl_snoc. Qed.

Lemma one_hot_writes_union (host : string) (g1 g2 : gmap labels5 Q) (f : Facts) :
  one_hot_writes host (g1 ∪ g2) f = one_hot_writes host g1 f ∪ g2.
Proof.
  unfold one_hot_writes, categories. cbn [foldl]. by rewrite !insert_union_l.
Qed.

(** The gauges after the writes of a pass: what the pass wrote, over what
    was there. *)
Lemma publish_all_gauges (host : string) (fs : list Facts) (R : Registry) (N : Now) :
  let R' := (publish_all host fs (R, N)).1 in
  g_health R' = series host f_num fs ∪ g_health R ∧
  g_running R' = series host f_running fs ∪ g_running R ∧
  g_restart R' = series host f_restart_count fs ∪ g_restart R ∧
  g_started_at R' = series host f_started_at fs ∪ g_started_at R ∧
  g_status R' = status_series host fs ∪ g_status R.
Proof.
  induction fs as [|f fs IH] using rev_ind.
  - cbn. by rewrite !(left_id_L ∅ (∪)).
  - cbn zeta in *. rewrite publish_all_snoc, !series_snoc, status_series_snoc.
    destruct (publish_all host fs (R, N)) as [R1 N1]. cbn [fst] in IH.
    destruct IH as (E1 & E2 & E3 & E4 & E5). cbn [publish fst].
    cbn [g_health g_running g_restart g_started_at g_status set_one_hot].
    rewrite E1, E2, E3, E4, !insert_union_l.
    repeat (split; [done|]).
    change (one_hot_writes host (g_status R1) f
            = one_hot_writes host (status_series host fs) f ∪ g_status R).
    by rewrite E5, one_hot_writes_union.
Qed.

Lemma series_dom (host : string) (get : Facts → Q) (fs : list Facts) :
  dom (series host get fs) = labels_of host fs.
Proof.
  induction fs as [|f fs IH] using rev_ind; [apply dom_empty_L|].
  rewrite series_snoc, dom_insert_L, IH. unfold labels_of.
  rewrite fmap_app, list_to_set_app_L. cbn.
  rewrite (right_id_L ∅ (∪)). apply (comm_L (∪)).
Qed.

Lemma status_series_dom (host : string) (fs : list Facts) :
  dom (status_series host fs) = rows_of host fs.
Proof.
  pose proof (publish_all_sets host fs initial_registry empty_now)
    as ((_ & _ & _ & _ & Hd) & _).
  pose proof (publish_all_gauges host fs initial_registry empty_now)
    as (_ & _ & _ & _ & Hg).
  cbn zeta in Hd, Hg. rewrite Hg in Hd. cbn in Hd.
  by rewrite (right_id_L ∅ (∪)), dom_empty_L, (left_id_L ∅ (∪)) in Hd.
Qed.

Section PassFields.
Context `{PyLib}.

(** The registry after a pass, field by field. *)
Lemma scrape_pass_fields (host : string) (cs : list Container) (R : Registry) :
  let R' := (scrape_pass host cs R).1 in
  let fs := processed cs in
  (g_health R'
   = remove_stale (series host f_num fs ∪ g_health R) (_last_h R) (labels_of host fs) ∧
   g_running R'
   = remove_stale (series host f_running fs ∪ g_running R) (_last_rn R) (labels_of host fs) ∧
   g_restart R'
   = remove_stale (series host f_restart_count fs ∪ g_restart R) (_last_rc R)
       (labels_of host fs) ∧
   g_started_at R'
   = remove_stale (series host f_started_at fs ∪ g_started_at R) (_last_sa R)
       (labels_of host fs) ∧
   g_status R'
   = remove_stale (status_series host fs ∪ g_status R)
       (_last_s R ∪ rows_of host fs) (rows_of host fs)) ∧
  (_last_h R' = labels_of host fs ∧ _last_rn R' = labels_of host fs ∧
   _last_rc R' = labels_of host fs ∧ _last_sa R' = labels_of host fs ∧
   _last_s R' = rows_of host fs).
Proof.
  cbn zeta. rewrite scrape_pass_eq. cbn [fst].
  pose proof (publish_all_sets host (processed cs) R empty_now) as Hs.
  pose proof (publish_all_gauges host (processed cs) R empty_now) as Hg.
  destruct (publish_all host (processed cs) (R, empty_now)) as [R1 N1].
  cbn in Hs, Hg.
  destruct Hs as (_ & (n1 & n2 & n3 & n4 & n5) & (l1 & l2 & l3 & l4 & l5)).
  destruct Hg as (g1 & g2 & g3 & g4 & g5).
  rewrite (left_id_L ∅ (∪)) in n1. rewrite (left_id_L ∅ (∪)) in n2.
  rewrite (left_id_L ∅ (∪)) in n3. rewrite (left_id_L ∅ (∪)) in n4.
  rewrite (left_id_L ∅ (∪)) in n5.
  cbn. by rewrite g1, g2, g3, g4, g5, n1, n2, n3, n4, n5, l1, l2, l3, l4, l5.
Qed.

End PassFields.

(** X10.  A pass is idempotent: running it again on the same listing and
    host, from the registry it has just left, yields the same registry and
    logs the same lines, whatever the registry was to begin with. *)
Theorem scrape_pass_idempotent `{PyLib} (host : string) (containers : list Container)
    (R : Registry) :
  scrape_pass host containers (scrape_pass host containers R).1
  = scrape_pass host containers R.
Proof.
  rewrite (surjective_pairing (scrape_pass host containers (scrape_pass _ _ R).1)).
  rewrite (surjective_pairing (scrape_pass host containers R)) at 3.
  f_equal; [|by rewrite !scrape_pass_eq].
  destruct (scrape_pass_fields host containers R)
    as ((g1 & g2 & g3 & g4 & g5) & (l1 & l2 & l3 & l4 & l5)).
  destruct (scrape_pass_fields host containers (scrape_pass host containers R).1)
    as ((h1 & h2 & h3 & h4 & h5) & (m1 & m2 & m3 & m4 & m5)).
  apply registry_eq; try congruence.
  - rewrite h1, l1, g1. by apply reconciled_again; [apply series_dom|].
  - rewrite h5, l5, g5. apply reconciled_again; [apply status_series_dom|].
    by rewrite (idemp_L (∪)).
  - rewrite h2, l2, g2. by apply reconciled_again; [apply series_dom|].
  - rewrite h3, l3, g3. by apply reconciled_again; [apply series_dom|].
  - rewrite h4, l4, g4. by apply reconciled_again; [apply series_dom|].
Qed.

Lemma series_lookup_own (host : string) (get : Facts → Q) (fs : list Facts) (f : Facts) :
  f ∈ fs →
  (∀ f', f' ∈ fs → label_tuple host f' = label_tuple host f → f' = f) →
  series host get fs !! label_tuple host f = Some (get f).
Proof.
  induction fs as [|f0 fs IH] using rev_ind; [by intros ?%elem_of_nil|].
  intros Hf Hown. rewrite series_snoc.
  destruct (decide (label_tuple host f0 = label_tuple host f)) as [He | Hne].
  - rewrite (Hown f0) by (by rewrite ?elem_of_app, ?list_elem_of_singleton; auto).
    apply lookup_insert_eq.
  - rewrite lookup_insert_ne by done. apply IH.
    + apply elem_of_app in Hf as [? | ->%list_elem_of_singleton]; done.
    + intros f' Hf'. apply Hown. apply elem_of_app. by left.
Qed.

Lemma status_series_lookup_own (host : string) (fs : list Facts) (f : Facts) (s : string) :
  f ∈ fs → s ∈ categories →
  (∀ f', f' ∈ fs → label_tuple host f' = label_tuple host f → f' = f) →
  status_series host fs !! (label_tuple host f, s)
  = Some (if decide (s = f_status f) then 1%Q else 0%Q).
Proof.
  intros Hf Hs Hown.
  destruct (publish_all_one_hot host fs (initial_registry, empty_now) f Hf)
    as (f' & Hf' & Hid & Hrows).
  rewrite (Hown f' Hf' Hid) in Hrows.
  pose proof (publish_all_gauges host fs initial_registry empty_now)
    as (_ & _ & _ & _ & Hg).
  cbn zeta in Hg. rewrite Hg in Hrows. cbn [g_status initial_registry] in Hrows.
  rewrite (right_id_L ∅ (∪)) in Hrows.
  by rewrite Hrows, one_hot_value_cases.
Qed.

(** X11.  After a pass over a registry the loop can have reached, each
    gauge holds exactly the series written in that pass and nothing from
    before; a processed container whose label tuple no other processed
    container shares finds its own score, running value, restart count and
    start time under that tuple, and the one-hot code of its own category
    in its four rows. *)
Theorem published_values `{PyLib} (cfg : Config) (ws : list World)
    (host : string) (containers : list Container) :
  let R := (scrape_pass host containers (registry (run cfg ws))).1 in
  let fs := processed containers in
  (g_health R = series host f_num fs ∧
   g_running R = series host f_running fs ∧
   g_restart R = series host f_restart_count fs ∧
   g_started_at R = series host f_started_at fs ∧
   g_status R = status_series host fs) ∧
  (∀ f, f ∈ fs →
        (∀ f', f' ∈ fs → label_tuple host f' = label_tuple host f → f' = f) →
        g_health R !! label_tuple host f = Some (f_num f) ∧
        g_running R !! label_tuple host f = Some (f_running f) ∧
        g_restart R !! label_tuple host f = Some (f_restart_count f) ∧
        g_started_at R !! label_tuple host f = Some (f_started_at f) ∧
        ∀ s, s ∈ categories →
             g_status R !! (label_tuple host f, s)
             = Some (if decide (s = f_status f) then 1%Q else 0%Q)).
Proof.
  intros R fs.
  destruct (run_consistent cfg ws) as (c1 & c2 & c3 & c4 & c5).
  destruct (scrape_pass_fields host containers (registry (run cfg ws)))
    as ((g1 & g2 & g3 & g4 & g5) & _).
  fold R in g1, g2, g3, g4, g5. fold fs in g1, g2, g3, g4, g5.
  assert (g_health R = series host f_num fs) as E1.
  { rewrite g1, <- (right_id_L ∅ (∪) (_last_h _)).
    by apply reconciled_map; [apply series_dom | | apply empty_subseteq]. }
  assert (g_running R = series host f_running fs) as E2.
  { rewrite g2, <- (right_id_L ∅ (∪) (_last_rn _)).
    by apply reconciled_map; [apply series_dom | | apply empty_subseteq]. }
  assert (g_restart R = series host f_restart_count fs) as E3.
  { rewrite g3, <- (right_id_L ∅ (∪) (_last_rc _)).
    by apply reconciled_map; [apply series_dom | | apply empty_subseteq]. }
  assert (g_started_at R = series host f_started_at fs) as E4.
  { rewrite g4, <- (right_id_L ∅ (∪) (_last_sa _)).
    by apply reconciled_map; [apply series_dom | | apply empty_subseteq]. }
  assert (g_status R = status_series host fs) as E5.
  { rewrite g5. by apply reconciled_map; [apply status_series_dom | |]. }
  split; [done|].
  intros f Hf Hown. rewrite E1, E2, E3, E4, E5.
  repeat (split; [by apply series_lookup_own|]).
  intros s Hs. by apply status_series_lookup_own.
Qed.

Lemma published_values_witness :
  g_restart (@scrape_pass ReferenceLib.lib "exporter-1"
               [Examples.vanished; Examples.healthy_web]
               (registry (@run ReferenceLib.lib Examples.cfg [Examples.down]))).1
    !! ("web", "nginx:latest", "f00dfeed0001", "exporter-1")
  = Some 5%Q.
Proof.
  pose proof (@published_values ReferenceLib.lib Examples.cfg [Examples.down]
                "exporter-1" [Examples.vanished; Examples.healthy_web])
    as (_ & Hown).
  destruct (Hown Examples.healthy_web_facts) as (_ & _ & Hrc & _).
  - apply list_elem_of_singleton. reflexivity.
  - intros f' Hf' _. apply list_elem_of_singleton in Hf'. exact Hf'.
  - exact Hrc.
Defined.

Lemma processed_warnings_length `{PyLib} (containers : list Container) :
  (length (processed containers) + length (warnings containers))%nat
  = length containers.
Proof.
  induction containers as [|c cs IH]; [done|].
  rewrite processed_cons, warnings_cons.
  destruct (extract c); cbn [length]; lia.
Qed.

Lemma warnings_elem `{PyLib} (cs : list Container) (c : Container) (ce : exn) :
  c ∈ cs → extract c = Raise ce → warn_line c ce ∈ warnings cs.
Proof.
  intros Hc He. unfold warnings. apply list_elem_of_omap.
  exists c. split; [done|]. by rewrite He.
Qed.

Lemma size_list_to_set_le `{Countable A} (l : list A) :
  (size (list_to_set (C:=gset A) l) ≤ length l)%nat.
Proof.
  induction l as [|x l IH]; cbn [list_to_set length]; [by rewrite size_empty|].
  rewrite size_union_alt, size_singleton.
  pose proof (subseteq_size (list_to_set (C:=gset A) l ∖ {[x]}) (list_to_set l)
                ltac:(apply subseteq_difference_l; done)).
  lia.
Qed.

(** X12.  A pass accounts for every container of the listing in what it
    leaves behind.  Over a registry the loop can have reached, each
    container either has its series on the health gauge, under its own
    label tuple, or its warning line in the log of the pass; the series of
    that gauge and the lines logged are together no more than the
    containers listed, and exactly as many when the containers processed
    have distinct label tuples. *)
Theorem pass_accounts_for_containers `{PyLib} (cfg : Config) (ws : list World)
    (host : string) (containers : list Container) :
  let pass := scrape_pass host containers (registry (run cfg ws)) in
  (∀ c, c ∈ containers →
     (∃ f, extract c = Ok f ∧ is_Some (g_health pass.1 !! label_tuple host f))
     ∨ (∃ ce, extract c = Raise ce ∧ warn_line c ce ∈ pass.2)) ∧
  (size (dom (g_health pass.1)) + length pass.2 ≤ length containers)%nat ∧
  (NoDup (label_tuple host <$> processed containers) →
   (size (dom (g_health pass.1)) + length pass.2)%nat = length containers).
Proof.
  intros pass.
  destruct (scrape_pass_doms host containers _ (run_consistent cfg ws))
    as (E1 & _).
  fold pass in E1.
  assert (pass.2 = warnings containers) as Elog
    by (unfold pass; by rewrite scrape_pass_eq).
  rewrite E1, Elog.
  pose proof (processed_warnings_length containers) as Hlen.
  split; [|split].
  - intros c Hc. destruct (extract c) as [f | ce] eqn:He.
    + left. exists f. split; [done|]. apply elem_of_dom. rewrite E1.
      apply labels_of_elem. eauto.
    + right. exists ce. split; [done|]. by apply warnings_elem.
  - unfold labels_of.
    pose proof (size_list_to_set_le (label_tuple host <$> processed containers)) as Hle.
    rewrite length_fmap in Hle. lia.
  - intros Hnd. unfold labels_of.
    rewrite size_list_to_set by done. rewrite length_fmap. lia.
Qed.

Lemma pass_accounts_for_containers_witness :
  let pass := @scrape_pass ReferenceLib.lib "exporter-1"
                [Examples.vanished; Examples.healthy_web; Examples.broken]
                (registry (@run ReferenceLib.lib Examples.cfg [Examples.up])) in
  (size (dom (g_health pass.1)) + length pass.2)%nat = 3%nat.
Proof.
  apply (proj2 (proj2 (@pass_accounts_for_containers ReferenceLib.lib Examples.cfg
                         [Examples.up] "exporter-1"
                         [Examples.vanished; Examples.healthy_web; Examples.broken]))).
  vm_compute. repeat constructor. inversion 1.
Defined.

(** X13.  After a pass over a registry the loop can have reached, every
    series of every gauge carries the host name of that pass as its
    [hostname] label, and every row of the one-hot gauge one of the four
    categories as its [status] label. *)
Theorem hostname_label `{PyLib} (cfg : Config) (ws : list World)
    (host : string) (containers : list Container) :
  let R := (scrape_pass host containers (registry (run cfg ws))).1 in
  (∀ t, t ∈ dom (g_health R) ∨ t ∈ dom (g_running R)
        ∨ t ∈ dom (g_restart R) ∨ t ∈ dom (g_started_at R) → t.2 = host) ∧
  (∀ t, t ∈ dom (g_status R) → t.1.2 = host ∧ t.2 ∈ categories).
Proof.
  intros R.
  destruct (scrape_pass_doms host containers _ (run_consistent cfg ws))
    as (E1 & E2 & E3 & E4 & E5 & _).
  fold R in E1, E2, E3, E4, E5. rewrite E1, E2, E3, E4, E5. split.
  - intros t Ht.
    assert (t ∈ labels_of host (processed containers)) as Hin by tauto.
    by apply labels_of_elem in Hin as (c & f & _ & _ & ->).
  - by intros t (c & f & cat & _ & _ & Hcat & ->)%rows_of_elem.
Qed.

Lemma hostname_label_witness :
  ("web", "nginx:latest", "f00dfeed0001", "exporter-1")
    ∉ dom (g_health (@scrape_pass ReferenceLib.lib "exporter-2"
                       [Examples.healthy_web]
                       (registry (@run ReferenceLib.lib Examples.cfg
                                    [Examples.up]))).1).
Proof.
  intros Hin.
  pose proof (proj1 (@hostname_label ReferenceLib.lib Examples.cfg [Examples.up]
                       "exporter-2" [Examples.healthy_web])
                ("web", "nginx:latest", "f00dfeed0001", "exporter-1")
                (or_introl Hin)) as Hhost.
  discriminate Hhost.
Defined.

(** ** The loop, iteration by iteration *)

Section LoopFacts.
Context `{PyLib}.
Variable cfg : Config.

Lemma step_disconnected_slept (w : World) (s : Loop) :
  client (after (main_step cfg w s)) = None →
  registry (after (main_step cfg w s)) = registry s ∧
  ∃ b, (b = backoff s ∨ b = 1%Q) ∧ slept (main_step cfg w s) = Qmin b 30.
Proof.
  unfold main_step, try_block, try_scrape, scrape_once.
  destruct (client s) as [cli0|] eqn:Hc.
  - destruct (listing w) as [cs | [m | m]]; simpl; rewrite ?Hc; simpl;
      try discriminate; eauto.
  - destruct (outcome (resolve cfg w)) as [[cli1 used] | e] eqn:Ho.
    + destruct (listing w) as [cs | [m | m]]; simpl; try discriminate; eauto.
    + pose proof (resolve_Raise cfg w e Ho) as ->. simpl. rewrite ?Hc. eauto.
Qed.

Lemma step_listing_raises (w : World) (s : Loop) (e : exn) :
  listing w = Raise e → registry (after (main_step cfg w s)) = registry s.
Proof.
  intros Hl.
  destruct (step_registry cfg w s) as [? | (cs & Hcs & _)]; [done | congruence].
Qed.

Lemma run_from_snoc (s : Loop) (ws : list World) (w : World) :
  run_from cfg s (ws ++ [w]) = after (main_step cfg w (run_from cfg s ws)).
Proof. unfold run_from. by rewrite foldl_snoc. Qed.

End LoopFacts.

(** X14.  An iteration ends with a client exactly when it started with
    that client, or started without one and resolved to it, and the
    listing did not raise a [DockerException]; any other exception of the
    listing leaves the client in place. *)
Theorem connection_kept_iff `{PyLib} (cfg : Config) (w : World) (s : Loop) (cli : Client) :
  client (after (main_step cfg w s)) = Some cli ↔
  (client s = Some cli
   ∨ (client s = None ∧ ∃ used, outcome (resolve cfg w) = Ok (cli, used)))
  ∧ ∀ m, listing w ≠ Raise (DockerException m).
Proof.
  unfold main_step, try_block, try_scrape, scrape_once.
  destruct (client s) as [cli0|] eqn:Hc.
  - destruct (listing w) as [cs | [m | m]]; simpl; rewrite ?Hc; simpl.
    + split; [intros [= <-]; split; [tauto | done]|].
      intros [[[= <-] | [[=] _]] _]. done.
    + split; [done|]. intros [_ Hm]. by destruct (Hm m).
    + split; [intros [= <-]; split; [tauto | done]|].
      intros [[[= <-] | [[=] _]] _]. done.
  - destruct (outcome (resolve cfg w)) as [[cli1 used] | e] eqn:Ho.
    + destruct (listing w) as [cs | [m | m]]; simpl.
      * split; [intros [= <-]; split; [eauto | done]|].
        intros [[[=] | [_ (u & [= <- _])]] _]. done.
      * split; [done|]. intros [_ Hm]. by destruct (Hm m).
      * split; [intros [= <-]; split; [eauto | done]|].
        intros [[[=] | [_ (u & [= <- _])]] _]. done.
    + pose proof (resolve_Raise cfg w e Ho) as ->. simpl. rewrite ?Hc.
      split; [done|]. intros [[[=] | [_ (u & [=])]] _].
Qed.

(** X15.  The published series survive an outage: an iteration that ends
    without a client, and any run of iterations whose listings raise,
    leave the registry as it was. *)
Theorem series_survive_outage `{PyLib} (cfg : Config) (s : Loop) (ws : list World) :
  (∀ w, client (after (main_step cfg w s)) = None →
        registry (after (main_step cfg w s)) = registry s) ∧
  (Forall (λ w, ∃ e, listing w = Raise e) ws →
   registry (run_from cfg s ws) = registry s).
Proof.
  split.
  - intros w Hc. by apply step_disconnected_slept.
  - induction ws as [|w ws IH] using rev_ind; [done|].
    intros [Hws Hw]%Forall_app. rewrite run_from_snoc.
    apply Forall_singleton in Hw as [e He].
    rewrite (step_listing_raises cfg w _ e He). by apply IH.
Qed.

Lemma series_survive_outage_witness :
  registry (@run_from ReferenceLib.lib Examples.cfg
              (@run ReferenceLib.lib Examples.cfg [Examples.up])
              [Examples.lost; Examples.down; Examples.down])
  = registry (@run ReferenceLib.lib Examples.cfg [Examples.up]).
Proof.
  apply (@series_survive_outage ReferenceLib.lib).
  repeat constructor; eexists; reflexivity.
Defined.

Lemma Qmin_min_double (x : Q) :
  (0 <= x)%Q → (Qmin (Qmin x 30 * 2) 30 == Qmin (x * 2) 30)%Q.
Proof.
  intros Hx. destruct (Qlt_le_dec 30 x) as [Hbig | Hsmall].
  - rewrite (Q.min_r x 30) by (by apply Qlt_le_weak).
    rewrite (Q.min_r (30 * 2) 30) by done.
    rewrite Q.min_r; [done|].
    apply Qle_trans with (x * 1)%Q;
      [rewrite Qmult_1_r; by apply Qlt_le_weak|].
    rewrite !(Qmult_comm x). by apply Qmult_le_compat_r.
  - by rewrite (Q.min_l x 30).
Qed.

(** X16.  Starting from the initial state, after [n] failed resolutions in
    a row the loop still has no client and its backoff is [min(2^n, 30)];
    the next failed resolution therefore sleeps [min(2^n, 30)] seconds:
    1, 2, 4, 8, 16, and 30 from the sixth on. *)
Theorem backoff_after_failures `{PyLib} (cfg : Config) (ws : list World) (w : World) :
  Forall (resolution_fails cfg) ws →
  client (run cfg ws) = None ∧
  (backoff (run cfg ws) == Qmin (inject_Z (2 ^ Z.of_nat (length ws))) 30)%Q ∧
  (resolution_fails cfg w →
   (slept (main_step cfg w (run cfg ws))
    == Qmin (inject_Z (2 ^ Z.of_nat (length ws))) 30)%Q).
Proof.
  intros Hws.
  assert (client (run cfg ws) = None
          ∧ (backoff (run cfg ws) == Qmin (inject_Z (2 ^ Z.of_nat (length ws))) 30)%Q)
    as [Hc Hb].
  { induction ws as [|w0 ws IH] using rev_ind; [by vm_compute|].
    apply Forall_app in Hws as [Hws Hw0].
    apply (proj1 (Forall_singleton _ _)) in Hw0.
    destruct (IH Hws) as [Hc Hb]. rewrite run_snoc.
    destruct (step_resolution_fails cfg w0 (run cfg ws) Hc Hw0) as [-> _].
    split; [done|]. cbn [backoff]. rewrite Hb.
    rewrite length_app. cbn [length].
    replace (Z.of_nat (length ws + 1)) with (Z.succ (Z.of_nat (length ws))) by lia.
    rewrite Z.pow_succ_r by lia. rewrite (Z.mul_comm 2), inject_Z_mult.
    apply Qmin_min_double.
    change 0%Q with (inject_Z 0). rewrite <- Zle_Qle. by apply Z.pow_nonneg. }
  split; [done|]. split; [done|].
  intros Hw. destruct (step_resolution_fails cfg w (run cfg ws) Hc Hw) as [_ ->].
  rewrite Hb. apply Q.min_l, Q.le_min_r.
Qed.

Lemma backoff_after_failures_witness :
  (slept (@main_step ReferenceLib.lib Examples.cfg Examples.down
            (@run ReferenceLib.lib Examples.cfg
               [Examples.down; Examples.down; Examples.down; Examples.down;
                Examples.down])) == 30)%Q.
Proof.
  assert (resolution_fails Examples.cfg Examples.down) as Hdown
    by (exists unreachable; vm_compute; reflexivity).
  destruct (@backoff_after_failures ReferenceLib.lib Examples.cfg
              [Examples.down; Examples.down; Examples.down; Examples.down;
               Examples.down] Examples.down
              ltac:(repeat constructor; exact Hdown)) as (_ & _ & Hs).
  rewrite (Hs Hdown). vm_compute. reflexivity.
Defined.

(** X17.  In any state the loop can reach, an iteration that ends with a
    client sleeps the scrape interval, and one that ends without a client
    sleeps at least 1 and at most 30 seconds. *)
Theorem sleep_bounds `{PyLib} (cfg : Config) (ws : list World) (w : World) :
  let it := main_step cfg w (run cfg ws) in
  (∀ cli, client (after it) = Some cli → slept it = INTERVAL cfg) ∧
  (client (after it) = None → (1 <= slept it ∧ slept it <= 30)%Q).
Proof.
  intros it. subst it. split.
  - intros cli Hc. by destruct (step_connected cfg w (run cfg ws) cli Hc).
  - intros Hc.
    destruct (step_disconnected_slept cfg w (run cfg ws) Hc) as (_ & b & Hb & ->).
    destruct (backoff_bounds cfg ws) as [Hlo _].
    split; [|apply Q.le_min_r].
    apply Q.min_glb; [|done]. destruct Hb as [-> | ->]; done.
Qed.

Lemma sleep_bounds_witness :
  slept (@main_step ReferenceLib.lib Examples.cfg Examples.up
           (@run ReferenceLib.lib Examples.cfg [Examples.down])) = 10%Q
  ∧ (1 <= slept (@main_step ReferenceLib.lib Examples.cfg Examples.down
                   (@run ReferenceLib.lib Examples.cfg [Examples.down])))%Q.
Proof.
  split.
  - apply (proj1 (@sleep_bounds ReferenceLib.lib Examples.cfg [Examples.down]
                    Examples.up)
             {| api_base_url := Some "http+docker://localhost" |}).
    vm_compute. reflexivity.
  - apply (proj2 (@sleep_bounds ReferenceLib.lib Examples.cfg [Examples.down]
                    Examples.down)).
    vm_compute. reflexivity.
Defined.

(** ** The text handed to the timestamp parser, and numbers for the
    restart count *)

Lemma split_once_spec (ch : ascii) (s h t : string) :
  PyStr.split_once ch s = Some (h, t) →
  s = h +:+ String ch t ∧ PyStr.contains ch h = false.
Proof.
  revert h. induction s as [|c s IH]; intros h; simpl; [done|].
  destruct (Ascii.eqb_spec c ch) as [-> | Hne].
  - by intros [= <- <-].
  - destruct (PyStr.split_once ch s) as [[h' t']|]; [|done].
    intros [= <- <-]. destruct (IH h' eq_refl) as [-> Hc].
    split; [done|]. simpl. rewrite Hc.
    by destruct (Ascii.eqb_spec c ch).
Qed.

Lemma take_length (n : nat) (s : string) : (String.length (PyStr.take n s) ≤ n)%nat.
Proof.
  revert s. induction n as [|n IH]; intros [|c s]; simpl; try lia.
  specialize (IH s). lia.
Qed.

(** X18.  Whatever the input, the text handed to [fromisoformat] has at
    most six characters after its first dot, and it has a dot exactly when
    the input stripped of its trailing [Z]s has one. *)
Theorem iso_text_precision (s : string) :
  (∀ head frac, PyStr.split_once "." (iso_text s) = Some (head, frac) →
                (String.length frac ≤ 6)%nat) ∧
  PyStr.contains "." (iso_text s) = PyStr.contains "." (PyStr.rstrip "Z" s).
Proof.
  unfold iso_text. destruct (PyStr.contains "." (PyStr.rstrip "Z" s)) eqn:Hc.
  - destruct (PyStr.split_once "." (PyStr.rstrip "Z" s)) as [[h0 f0]|] eqn:Hs.
    + destruct (split_once_spec _ _ _ _ Hs) as [_ Hh0].
      change (h0 +:+ "." +:+ PyStr.take 6 f0)
        with (h0 +:+ String "." (PyStr.take 6 f0)).
      split; [|apply contains_append].
      intros head frac. rewrite split_once_append by done.
      intros Heq. assert (frac = PyStr.take 6 f0) as -> by congruence.
      apply take_length.
    + split; [|done]. intros head frac. by rewrite Hs.
  - split; [|done]. intros head frac [E _]%split_once_spec.
    rewrite E in Hc. by rewrite contains_append in Hc.
Qed.

Lemma iso_text_precision_witness :
  PyStr.split_once "." (iso_text "2025-11-06T21:27:08.123456789Z")
  = Some ("2025-11-06T21:27:08", "123456").
Proof.
  pose proof (proj1 (iso_text_precision "2025-11-06T21:27:08.123456789Z")
                "2025-11-06T21:27:08" "123456"
                ltac:(vm_compute; reflexivity)) as _.
  vm_compute. reflexivity.
Defined.

(** X19.  The restart count takes a number in any form [float] accepts: a
    float is kept, [true] counts as 1 and [false] as 0, and a non-empty
    string that the parser accepts gives the number it denotes. *)
Theorem restart_value_conversions `{PyLib} :
  (∀ q, (restart_value (JFloat q) == q)%Q) ∧
  (∀ b : bool, restart_value (JBool b) = if b then 1%Q else 0%Q) ∧
  (∀ s q, s ≠ "" → float_of_str s = Some q → restart_value (JStr s) = q).
Proof.
  unfold restart_value, py_or. split; [|split].
  - intros [n d]. cbn [truthy Qnum]. destruct (Z.eqb_spec n 0) as [-> | Hn]; cbn.
    + assert (float_overflows 0 = false) as -> by (by vm_compute).
      change (PyFloat.of_int 0) with 0. unfold Qeq. cbn. lia.
    + apply Qeq_refl.
  - by intros [|].
  - intros [|a s] q Hs Hq; [done|]. cbn. by rewrite Hq.
Qed.

Lemma restart_value_conversions_witness :
  @restart_value ReferenceLib.lib (JStr "12") = 12%Q.
Proof.
  apply (proj2 (proj2 (@restart_value_conversions ReferenceLib.lib)) "12" 12%Q).
  - discriminate.
  - vm_compute. reflexivity.
Defined.
